(** * keras-js: the Activation layer and the TimeDistributed wrapper

    A shallow embedding of [src/layers/core/Activation.js] and
    [src/layers/wrappers/TimeDistributed.js].  JavaScript objects live in
    an explicit store: a [Tensor] is a heap cell addressed by a reference,
    so that "the same object" is equality of references and every in-place
    mutation is an update of the store.  Layer methods are computations in
    a state-and-exception monad over the layer object and the machine
    (heap, device memory and a trace of the operations performed). *)

From Stdlib Require Import ZArith.
From stdpp Require Import base list strings option numbers.

Set Warnings "-register-all".
Open Scope string_scope.
Open Scope list_scope.

(** ** Numeric arrays *)

(** An [ndarray] as the library of that name lays it out for these layers:
    a flat buffer read in row-major order together with its shape. *)
Record ndarray (A : Type) : Type := NDArray { data : list A; shape : list nat }.
Arguments NDArray {A} _ _.
Arguments data {A} _.
Arguments shape {A} _.

Inductive array_type : Type := Float32Array | Int32Array.

(** Device programs.  The shader sources are loaded with [require]; the
    five programs of the wrapper are fixed files, the program of an
    Activation layer is named after the activation. *)
Inductive gl_program : Type :=
| ActivationProgram (name : string)
| CopyTextureProgram
| MapInputProgram
| SelectSliceProgram
| CopySliceOutputProgram
| MapSliceOutputProgram.

Record texture (A : Type) : Type :=
  Texture { tex_shape : list nat; tex_format : string; texels : list A }.
Arguments Texture {A} _ _ _.
Arguments tex_shape {A} _.
Arguments tex_format {A} _.
Arguments texels {A} _.

(** What the two layers take from their surroundings: the numbers stored
    in typed arrays, the catalog of activation functions
    ([import * as activations]), the shader files that [require] can find,
    the programs that the device compiles, what a device program
    computes, and the array that [reshapeFrom2D] of Tensor.js leaves in a
    tensor, given its array type, its array, its original shape and its
    index pair, when it does not fail. *)
Class Env : Type := {
  elt : Type;
  num : Z -> elt;
  nan : elt;
  activations : string -> option (ndarray elt -> ndarray elt);
  shader_exists : string -> bool;
  compiles : gl_program -> bool;
  kernel : gl_program -> list (string * option (texture elt)) ->
           list (string * option nat) -> texture elt -> list elt;
  reshape_from_2d : array_type -> ndarray elt -> option (list nat) ->
                    option (ndarray elt * ndarray elt) -> option (ndarray elt)
}.

Definition ref : Type := nat.
Definition texid : Type := nat.

Inductive error : Type :=
| ConfigurationError (msg : string)
| TypeError (what : string)
| ModuleNotFound (path : string)
| TensorError (msg : string)
| BackendUnavailableError (p : gl_program)
| OutOfContract (what : string).

Inductive method : Type := MethodCall | MethodCallGPU.

(** ** The state-and-exception monad *)

Inductive outcome (A : Type) : Type :=
| Returned (a : A)
| Thrown (e : error).
Arguments Returned {A} _.
Arguments Thrown {A} _.

Definition M (S A : Type) : Type := S -> S * outcome A.

Definition ret {S A : Type} (a : A) : M S A := fun s => (s, Returned a).

Definition throw {S A : Type} (e : error) : M S A := fun s => (s, Thrown e).

Definition bind {S A B : Type} (m : M S A) (f : A -> M S B) : M S B :=
  fun s => match m s with
           | (s', Returned a) => f a s'
           | (s', Thrown e) => (s', Thrown e)
           end.

Declare Scope js_scope.
Delimit Scope js_scope with js.
Notation "x <- m ;; k" := (bind m (fun x => k))
  (at level 100, m at next level, right associativity) : js_scope.
Notation "m ;;; k" := (bind m (fun _ => k))
  (at level 100, right associativity) : js_scope.
Open Scope js_scope.

Definition gets {S A : Type} (f : S -> A) : M S A := fun s => (s, Returned (f s)).

Definition modify {S : Type} (f : S -> S) : M S unit := fun s => (f s, Returned tt).

(** Runs a computation on a component of the state. *)
Definition embed {S T A : Type} (get : S -> T) (put : T -> S -> S) (m : M T A) : M S A :=
  fun s => let (t', r) := m (get s) in (put t' s, r).

(** [x.f] where [x] may be [undefined]: reading a property of [undefined]
    throws a TypeError. *)
Definition defined {S A : Type} (what : string) (o : option A) : M S A :=
  match o with
  | Some a => ret a
  | None => throw (TypeError what)
  end.

Definition when {S : Type} (b : bool) (m : M S unit) : M S unit :=
  if b then m else ret tt.

(** [for (let i = ...; ...; i++) body(i)] over the indices it visits. *)
Fixpoint for_each {S : Type} (l : list nat) (body : nat -> M S unit) : M S unit :=
  match l with
  | [] => ret tt
  | i :: l' => body i ;;; for_each l' body
  end.

Definition product (sh : list nat) : nat := foldr Nat.mul 1 sh.

(** [Math.ceil(Math.sqrt(n))]. *)
Definition ceil_sqrt (n : nat) : nat :=
  let r := Nat.sqrt n in if Nat.eqb (r * r) n then r else S r.

(** ** Layer configuration *)

(** The configuration object handed to a layer constructor: the backend
    choice, the number of downstream consumers, the activation name of an
    Activation layer and the [layer] entry of a wrapper ([class_name] and
    [config]). *)
Inductive attrs : Type := Attrs {
  attr_gpu : bool;
  attr_outboundCount : nat;
  attr_activation : option string;
  attr_layer : option (string * attrs)
}.

(** The fields of the base class [Layer] that the two layers use. *)
Record Layer : Type := mkLayer {
  layerClass : string;
  gpu : bool;
  outbound : list (option nat);
  output : option ref
}.

Definition with_layerClass (c : string) (l : Layer) : Layer :=
  mkLayer c (gpu l) (outbound l) (output l).

Definition with_outbound (ob : list (option nat)) (l : Layer) : Layer :=
  mkLayer (layerClass l) (gpu l) ob (output l).

Definition with_output (o : option ref) (l : Layer) : Layer :=
  mkLayer (layerClass l) (gpu l) (outbound l) o.

(** Modelled from the spec: the constructor of the base class Layer
    (Layer.js): the backend is "a static property decided at
    construction", [output] is "lazily created" and the consumers are the
    [outboundCount] of the configuration. *)
Definition Layer_new (a : attrs) : Layer :=
  mkLayer "Layer" (attr_gpu a) (replicate (attr_outboundCount a) None) None.

(** Modelled from the spec: [throwError(message)] of the base class Layer
    raises a ConfigurationError carrying the message. *)
Definition throwError {S A : Type} (message : string) : M S A :=
  throw (ConfigurationError message).

Section Model.
Context `{Env}.

Definition zeros (n : nat) : list elt := replicate n (num 0).

(** ** ndarray views and ndarray-ops *)

(** A typed array read past its end gives [undefined]; stored into a
    float array that is NaN, stored into an integer array it is 0. *)
Definition undefined_as (ty : array_type) : elt :=
  match ty with
  | Float32Array => nan
  | Int32Array => num 0
  end.

(** What is read through a view that starts at [off] and has [n] elements
    in row-major order, for a store into an array of type [ty]. *)
Definition read_range (ty : array_type) (off n : nat) (d : list elt) : list elt :=
  (fun k => default (undefined_as ty) (d !! (off + k))) <$> seq 0 n.

(** Stores [vals] from offset [off] on; a store past the end of a typed
    array is ignored. *)
Fixpoint blit (off : nat) (vals : list elt) (d : list elt) : list elt :=
  match vals with
  | [] => d
  | v :: vals' => blit (S off) vals' (<[off := v]> d)
  end.

(** A view is an offset into the buffer and a shape.  [whole a] is the
    array itself and [pick0 a i] is [a.pick(i, null, ..., null)], which
    needs a leading axis to fix. *)
Definition view : Type := nat * list nat.

Definition whole (a : ndarray elt) : option view := Some (0, shape a).

Definition pick0 (a : ndarray elt) (i : nat) : option view :=
  match shape a with
  | [] => None
  | _ :: sh => Some (i * product sh, sh)
  end.

(** [ops.assign(dest, src)] copies elementwise into an array of type
    [ty].  The two views must have the same shape; outside of that the
    behaviour of the library is not modelled ([None]). *)
Definition assign (ty : array_type) (dest : ndarray elt) (dv : option view)
    (src : ndarray elt) (sv : option view) : option (ndarray elt) :=
  match dv, sv with
  | Some (doff, dsh), Some (soff, ssh) =>
      if decide (dsh = ssh)
      then Some (NDArray (blit doff (read_range ty soff (product ssh) (data src)) (data dest))
                         (shape dest))
      else None
  | _, _ => None
  end.

(** [ops.assigns(dest, v)] *)
Definition assigns (dest : ndarray elt) (v : elt) : ndarray elt :=
  NDArray (blit 0 (replicate (product (shape dest)) v) (data dest)) (shape dest).

(** ** Tensor objects, the machine and its trace *)

(** The fields of a [Tensor] object that the two layers read or write. *)
Record Tensor : Type := mkTensor {
  tensor : ndarray elt;
  arrayType : array_type;
  glTexture : option texid;
  glTextureShape : option (list nat);
  is1D : bool;
  is2DReshaped : bool;
  originalShape : option (list nat);
  indicesForReshaped : option (ndarray elt * ndarray elt)
}.

Definition with_tensor (a : ndarray elt) (t : Tensor) : Tensor :=
  mkTensor a (arrayType t) (glTexture t) (glTextureShape t) (is1D t)
           (is2DReshaped t) (originalShape t) (indicesForReshaped t).

Definition with_glTexture (id : texid) (sh : list nat) (one_d : bool) (t : Tensor) : Tensor :=
  mkTensor (tensor t) (arrayType t) (Some id) (Some sh) one_d
           (is2DReshaped t) (originalShape t) (indicesForReshaped t).

Definition with_is1D (b : bool) (t : Tensor) : Tensor :=
  mkTensor (tensor t) (arrayType t) (glTexture t) (glTextureShape t) b
           (is2DReshaped t) (originalShape t) (indicesForReshaped t).

Definition with_reshaped (b : bool) (os : option (list nat))
    (ix : option (ndarray elt * ndarray elt)) (t : Tensor) : Tensor :=
  mkTensor (tensor t) (arrayType t) (glTexture t) (glTextureShape t) (is1D t) b os ix.

(** The operations recorded in the trace.  What a wrapped layer does
    during one invocation by its wrapper is recorded as one [EvWrapped]
    event that carries the invoked method, the argument (the reference and
    the array it held) and the operations of the wrapped layer. *)
Inductive event : Type :=
| EvNewTensor (r : ref)
| EvCreateGLTexture (r : ref) (id : texid)
| EvReshapeTo2DSquare (r : ref)
| EvTransferFromGLTexture (r : ref)
| EvReshapeFrom2D (r : ref)
| EvReshapeFrom2DSquare (r : ref)
| EvCompileProgram (p : gl_program)
| EvRunProgram (p : gl_program) (out : ref)
| EvActivationFunc (name : string) (r : ref)
| EvWrapped (m : method) (arg : ref) (held : option (ndarray elt)) (sub : list event).

Record machine : Type := Machine {
  heap : list Tensor;
  gpu_mem : list (texture elt);
  trace : list event
}.

Definition emit (ev : event) : M machine unit :=
  modify (fun m => Machine (heap m) (gpu_mem m) (trace m ++ [ev])).

(** Dereferences a Tensor reference; a reference to nothing stands for
    [undefined]. *)
Definition read (r : ref) : M machine Tensor :=
  fun m => defined "tensor" (heap m !! r) m.

Definition write (r : ref) (t : Tensor) : M machine unit :=
  modify (fun m => Machine (<[r := t]> (heap m)) (gpu_mem m) (trace m)).

(** An assignment to fields of the Tensor object [r]. *)
Definition update (r : ref) (f : Tensor -> Tensor) : M machine unit :=
  t <- read r ;;
  write r (f t).

(** Modelled from the spec: the constructor [new Tensor(data, shape, {type})]
    of Tensor.js, "created empty or from a buffer" with
    "data.length == product(shape) always": given an empty [data] the
    buffer is zero-filled for the shape, otherwise [data] is the buffer.
    The object starts without a device allocation and in native layout. *)
Definition new_Tensor (d : list elt) (sh : list nat) (ty : array_type) : M machine ref :=
  r <- gets (fun m => length (heap m)) ;;
  let buf := match d with [] => zeros (product sh) | _ => d end in
  modify (fun m => Machine (heap m ++ [mkTensor (NDArray buf sh) ty None None false false None None])
                           (gpu_mem m) (trace m)) ;;;
  emit (EvNewTensor r) ;;;
  ret r.

(** Modelled from the spec: [createGLTexture(type, format)] of Tensor.js,
    the "acquisition of a device-side allocation mirroring current buffer
    content".  The device addresses 2D grids only: a rank-1 buffer is laid
    out as one row (and marked [is1D], which is what the layers read and
    propagate), a rank-2 buffer as it is, and any other rank is refused. *)
Definition createGLTexture (r : ref) (format : string) : M machine unit :=
  t <- read r ;;
  grid <- match shape (tensor t) with
          | [n] => ret ([1; n], true)
          | [a; b] => ret ([a; b], is1D t)
          | _ => throw (TensorError "cannot create WebGL2 texture")
          end ;;
  id <- gets (fun m => length (gpu_mem m)) ;;
  modify (fun m => Machine (<[r := with_glTexture id grid.1 grid.2 t]> (heap m))
                           (gpu_mem m ++ [Texture grid.1 format (data (tensor t))])
                           (trace m)) ;;;
  emit (EvCreateGLTexture r id).

(** The shape of the flat buffer read back from a texture of shape [sh]:
    the one row of a rank-1 tensor gives back its rank-1 shape. *)
Definition flat_shape (one_d : bool) (sh : list nat) : list nat :=
  match one_d, sh with
  | true, 1 :: rest => rest
  | _, _ => sh
  end.

(** Modelled from the spec: [transferFromGLTexture()] of Tensor.js, the
    inverse of [createGLTexture]: the flat buffer is read back from the
    device allocation with the shape of the texture, a one-row texture of
    a rank-1 tensor giving back its rank-1 shape. *)
Definition transferFromGLTexture (r : ref) : M machine unit :=
  t <- read r ;;
  id <- defined "glTexture" (glTexture t) ;;
  sh <- defined "glTextureShape" (glTextureShape t) ;;
  otex <- gets (fun m => gpu_mem m !! id) ;;
  tex <- defined "texture" otex ;;
  let buf := read_range (arrayType t) 0 (product sh) (texels tex) in
  write r (with_tensor (NDArray buf (flat_shape (is1D t) sh)) t) ;;;
  emit (EvTransferFromGLTexture r).

(** Modelled from the spec: [reshapeTo2DSquare()] of Tensor.js
    ("reshapeToSquare", section 4.1): [side = ceil(sqrt(E))], the data
    copied into the first [E] cells of a zero-filled [side x side] layout,
    the original shape recorded, and the index map giving for the [k]-th
    element in row-major order its row [k / side] and column [k mod side]. *)
Definition reshapeTo2DSquare (r : ref) : M machine unit :=
  t <- read r ;;
  let os := shape (tensor t) in
  let E := product os in
  let side := ceil_sqrt E in
  let row := NDArray ((fun k => num (Z.of_nat (k / side))) <$> seq 0 E) os in
  let col := NDArray ((fun k => num (Z.of_nat (k `mod` side))) <$> seq 0 E) os in
  write r (with_reshaped true (Some os) (Some (row, col))
             (with_tensor (NDArray (blit 0 (data (tensor t)) (zeros (side * side))) [side; side]) t)) ;;;
  emit (EvReshapeTo2DSquare r).

(** Modelled from the spec: the inverse reshape ("reshapeFrom2DSquare",
    section 4.1): "given the square buffer and the retained originalShape,
    extract the first E cells and reinterpret as the original row-major
    buffer".  It is refused on a tensor that is not reshaped. *)
Definition unreshape (t : Tensor) : M machine Tensor :=
  if is2DReshaped t
  then os <- defined "originalShape" (originalShape t) ;;
       ret (with_tensor (NDArray (read_range (arrayType t) 0 (product os) (data (tensor t))) os) t)
  else throw (TensorError "Tensor is not in reshaped 2D representation").

Definition reshapeFrom2DSquare (r : ref) : M machine unit :=
  t <- read r ;;
  t' <- unreshape t ;;
  write r t' ;;;
  emit (EvReshapeFrom2DSquare r).

(** Modelled from the spec: [reshapeFrom2D()] of Tensor.js, the method
    that the Activation layer calls on a reshaped output (line 93).  It is
    not among the sources, and the specification describes the square
    reshape and its inverse only; so nothing is fixed here of what it
    computes: it replaces the array of the tensor by the one the
    environment gives for the fields of the tensor, or it fails. *)
Definition reshapeFrom2D (r : ref) : M machine unit :=
  t <- read r ;;
  match reshape_from_2d (arrayType t) (tensor t) (originalShape t) (indicesForReshaped t) with
  | Some a => write r (with_tensor a t) ;;;
              emit (EvReshapeFrom2D r)
  | None => throw (TensorError "reshapeFrom2D")
  end.

(** ** The device service *)

(** Modelled from the spec: [webgl2.compileProgram(source)], "compileProgram
    (sourceText) -> ProgramHandle", with a "BackendUnavailableError if
    device program compilation fails". *)
Definition compileProgram (p : gl_program) : M machine gl_program :=
  if compiles p
  then emit (EvCompileProgram p) ;;;
       ret p
  else throw (BackendUnavailableError p).

(** [require] of the shader of an activation: the module must exist. *)
Definition require_activation_glsl (name : string) : M machine gl_program :=
  if shader_exists name
  then ret (ActivationProgram name)
  else throw (ModuleNotFound ("../../activations/" ++ name ++ ".glsl")%string).

Definition bound_texture (m : machine) (i : string * option texid)
  : string * option (texture elt) :=
  (i.1, id ← i.2; gpu_mem m !! id).

(** Modelled from the spec: [webgl2.runProgram({program, output, inputs,
    uniforms})], which "binds named inputs/uniforms, executes, writes into
    output's device allocation". *)
Definition runProgram (p : option gl_program) (out : ref)
    (inputs : list (string * option texid)) (uniforms : list (string * option nat))
  : M machine unit :=
  p <- defined "program" p ;;
  t <- read out ;;
  id <- defined "glTexture" (glTexture t) ;;
  otex <- gets (fun m => gpu_mem m !! id) ;;
  tex <- defined "texture" otex ;;
  modify (fun m =>
    Machine (heap m)
            (<[id := Texture (tex_shape tex) (tex_format tex)
                             (kernel p (bound_texture m <$> inputs) uniforms tex)]> (gpu_mem m))
            (trace m)) ;;;
  emit (EvRunProgram p out).

(** [this] and the machine, for a method of a layer object of type [L]. *)
Definition this {L : Type} : M (L * machine) L := gets fst.

Definition set_this {L : Type} (f : L -> L) : M (L * machine) unit :=
  modify (fun s => (f s.1, s.2)).

Definition on_machine {L A : Type} (m : M machine A) : M (L * machine) A :=
  embed snd (fun mc s => (s.1, mc)) m.

End Model.

(** ** The Activation layer *)

Module Activation.
Section Activation.
Context `{Env}.

Record t : Type := mk {
  base : Layer;
  activation : string;
  activationFunc : option (ndarray elt -> ndarray elt);
  program : option gl_program
}.

Definition with_out (o : option ref) (a : t) : t :=
  mk (with_output o (base a)) (activation a) (activationFunc a) (program a).

Definition set_output (o : option ref) : M (t * machine) unit :=
  set_this (with_out o).

Definition constructor (a : attrs) : M machine t :=
  let super := with_layerClass "Activation" (Layer_new a) in
  let activation := default "linear" (attr_activation a) in
  let activationFunc := activations activation in
  if gpu super
  then src <- require_activation_glsl activation ;;
       p <- compileProgram src ;;
       ret (mk super activation activationFunc (Some p))
  else ret (mk super activation activationFunc None).

Definition _callCPU (x : ref) : M (t * machine) unit :=
  xt <- on_machine (read x) ;;
  o <- on_machine (new_Tensor (data (tensor xt)) (shape (tensor xt)) Float32Array) ;;
  set_output (Some o) ;;;
  a <- this ;;
  f <- defined "activationFunc" (activationFunc a) ;;
  out <- defined "output" (output (base a)) ;;
  on_machine (update out (fun ot => with_tensor (f (tensor ot)) ot)) ;;;
  on_machine (emit (EvActivationFunc (activation a) out)).

(** Lines 67-69: [if (!x.glTexture) x.createGLTexture()]. *)
Definition ensure_texture (x : ref) : M machine unit :=
  xt <- read x ;;
  when (bool_decide (glTexture xt = None)) (createGLTexture x "float").

(** Lines 71-81: the output is created when there is none. *)
Definition create_output (x : ref) : M (t * machine) unit :=
  xt <- on_machine (read x) ;;
  sh <- defined "shape" (glTextureShape xt) ;;
  o <- on_machine (new_Tensor [] sh Float32Array) ;;
  set_output (Some o) ;;;
  on_machine (createGLTexture o "float") ;;;
  xt <- on_machine (read x) ;;
  if is1D xt
  then on_machine (update o (with_is1D (is1D xt)))
  else if is2DReshaped xt
  then on_machine (update o (with_reshaped (is2DReshaped xt) (originalShape xt)
                                           (indicesForReshaped xt)))
  else ret tt.

(** Lines 67-87: the computation on the device. *)
Definition compute (x : ref) : M (t * machine) unit :=
  on_machine (ensure_texture x) ;;;
  a <- this ;;
  when (bool_decide (output (base a) = None)) (create_output x) ;;;
  a <- this ;;
  out <- defined "output" (output (base a)) ;;
  xt <- on_machine (read x) ;;
  on_machine (runProgram (program a) out [("x", glTexture xt)] []).

(** Lines 89-95: the GPU -> CPU data transfer. *)
Definition materialize : M (t * machine) unit :=
  a <- this ;;
  when (bool_decide (length (outbound (base a)) = 0))
    (out <- defined "output" (output (base a)) ;;
     on_machine (transferFromGLTexture out) ;;;
     ot <- on_machine (read out) ;;
     when (is2DReshaped ot) (on_machine (reshapeFrom2D out))).

Definition _callGPU (x : ref) : M (t * machine) unit :=
  compute x ;;;
  materialize.

Definition call (x : ref) : M (t * machine) (option ref) :=
  a <- this ;;
  if decide (activation a = "linear")
  then set_output (Some x) ;;;
       a <- this ;;
       ret (output (base a))
  else (if gpu (base a) then _callGPU x else _callCPU x) ;;;
       a <- this ;;
       ret (output (base a)).

End Activation.
End Activation.

(** ** The TimeDistributed wrapper *)

(** What the wrapper uses of the layer it wraps: the catalog of
    constructors ([import * as layers from '../']) for layer objects of
    type [W], the methods [call] and [_callGPU], and the fields [output]
    and [outbound]. *)
Class LayerClass `{Env} (W : Type) : Type := {
  layers : string -> option (attrs -> M machine W);
  wrapped_call : ref -> M (W * machine) (option ref);
  wrapped_callGPU : ref -> M (W * machine) unit;
  wrapped_output : W -> option ref;
  wrapped_outbound : W -> list (option nat);
  wrapped_set_outbound : list (option nat) -> W -> W
}.

Module TimeDistributed.
Section TimeDistributed.
Context `{Env} {W : Type} `{!LayerClass W}.

Record t : Type := mk {
  base : Layer;
  wrappedLayer : W;
  copyTextureProgram : option gl_program;
  mapInputProgram : option gl_program;
  selectSliceProgram : option gl_program;
  copySliceOutputProgram : option gl_program;
  mapSliceOutputProgram : option gl_program;
  inputShape : option (list nat);
  outputShape : option (list nat);
  slice : option ref;
  sliceOutput : option ref;
  outputCopy : option ref;
  rowIndexMaps : option (list ref);
  colIndexMaps : option (list ref);
  outputRowIndexMaps : option (list ref);
  outputColIndexMaps : option (list ref)
}.

Definition with_base (v : Layer) (td : t) : t :=
  mk v (wrappedLayer td) (copyTextureProgram td) (mapInputProgram td) (selectSliceProgram
     td) (copySliceOutputProgram td) (mapSliceOutputProgram td) (inputShape td) (outputShape
     td) (slice td) (sliceOutput td) (outputCopy td) (rowIndexMaps td) (colIndexMaps td)
     (outputRowIndexMaps td) (outputColIndexMaps td).

Definition with_wrappedLayer (v : W) (td : t) : t :=
  mk (base td) v (copyTextureProgram td) (mapInputProgram td) (selectSliceProgram td)
     (copySliceOutputProgram td) (mapSliceOutputProgram td) (inputShape td) (outputShape td)
     (slice td) (sliceOutput td) (outputCopy td) (rowIndexMaps td) (colIndexMaps td)
     (outputRowIndexMaps td) (outputColIndexMaps td).

Definition with_inputShape (v : option (list nat)) (td : t) : t :=
  mk (base td) (wrappedLayer td) (copyTextureProgram td) (mapInputProgram td)
     (selectSliceProgram td) (copySliceOutputProgram td) (mapSliceOutputProgram td) v
     (outputShape td) (slice td) (sliceOutput td) (outputCopy td) (rowIndexMaps td)
     (colIndexMaps td) (outputRowIndexMaps td) (outputColIndexMaps td).

Definition with_outputShape (v : option (list nat)) (td : t) : t :=
  mk (base td) (wrappedLayer td) (copyTextureProgram td) (mapInputProgram td)
     (selectSliceProgram td) (copySliceOutputProgram td) (mapSliceOutputProgram td)
     (inputShape td) v (slice td) (sliceOutput td) (outputCopy td) (rowIndexMaps td)
     (colIndexMaps td) (outputRowIndexMaps td) (outputColIndexMaps td).

Definition with_slice (v : option ref) (td : t) : t :=
  mk (base td) (wrappedLayer td) (copyTextureProgram td) (mapInputProgram td)
     (selectSliceProgram td) (copySliceOutputProgram td) (mapSliceOutputProgram td)
     (inputShape td) (outputShape td) v (sliceOutput td) (outputCopy td) (rowIndexMaps td)
     (colIndexMaps td) (outputRowIndexMaps td) (outputColIndexMaps td).

Definition with_sliceOutput (v : option ref) (td : t) : t :=
  mk (base td) (wrappedLayer td) (copyTextureProgram td) (mapInputProgram td)
     (selectSliceProgram td) (copySliceOutputProgram td) (mapSliceOutputProgram td)
     (inputShape td) (outputShape td) (slice td) v (outputCopy td) (rowIndexMaps td)
     (colIndexMaps td) (outputRowIndexMaps td) (outputColIndexMaps td).

Definition with_outputCopy (v : option ref) (td : t) : t :=
  mk (base td) (wrappedLayer td) (copyTextureProgram td) (mapInputProgram td)
     (selectSliceProgram td) (copySliceOutputProgram td) (mapSliceOutputProgram td)
     (inputShape td) (outputShape td) (slice td) (sliceOutput td) v (rowIndexMaps td)
     (colIndexMaps td) (outputRowIndexMaps td) (outputColIndexMaps td).

Definition with_rowIndexMaps (v : option (list ref)) (td : t) : t :=
  mk (base td) (wrappedLayer td) (copyTextureProgram td) (mapInputProgram td)
     (selectSliceProgram td) (copySliceOutputProgram td) (mapSliceOutputProgram td)
     (inputShape td) (outputShape td) (slice td) (sliceOutput td) (outputCopy td) v
     (colIndexMaps td) (outputRowIndexMaps td) (outputColIndexMaps td).

Definition with_colIndexMaps (v : option (list ref)) (td : t) : t :=
  mk (base td) (wrappedLayer td) (copyTextureProgram td) (mapInputProgram td)
     (selectSliceProgram td) (copySliceOutputProgram td) (mapSliceOutputProgram td)
     (inputShape td) (outputShape td) (slice td) (sliceOutput td) (outputCopy td)
     (rowIndexMaps td) v (outputRowIndexMaps td) (outputColIndexMaps td).

Definition with_outputRowIndexMaps (v : option (list ref)) (td : t) : t :=
  mk (base td) (wrappedLayer td) (copyTextureProgram td) (mapInputProgram td)
     (selectSliceProgram td) (copySliceOutputProgram td) (mapSliceOutputProgram td)
     (inputShape td) (outputShape td) (slice td) (sliceOutput td) (outputCopy td)
     (rowIndexMaps td) (colIndexMaps td) v (outputColIndexMaps td).

Definition with_outputColIndexMaps (v : option (list ref)) (td : t) : t :=
  mk (base td) (wrappedLayer td) (copyTextureProgram td) (mapInputProgram td)
     (selectSliceProgram td) (copySliceOutputProgram td) (mapSliceOutputProgram td)
     (inputShape td) (outputShape td) (slice td) (sliceOutput td) (outputCopy td)
     (rowIndexMaps td) (colIndexMaps td) (outputRowIndexMaps td) v.

Definition set_output (o : option ref) : M (t * machine) unit :=
  set_this (fun td => with_base (with_output o (base td)) td).

(** Runs a method of the wrapped layer on the argument [arg].  The
    operations of the wrapped layer are collected apart and recorded in
    the trace of the wrapper as one [EvWrapped] event. *)
Definition invoke_wrapped {A : Type} (meth : method) (arg : ref) (m : M (W * machine) A)
  : M (t * machine) A :=
  fun s =>
    let (s', r) := m (wrappedLayer s.1, Machine (heap s.2) (gpu_mem s.2) []) in
    ((with_wrappedLayer s'.1 s.1,
      Machine (heap s'.2) (gpu_mem s'.2)
              (trace s.2 ++ [EvWrapped meth arg (tensor <$> heap s.2 !! arg) (trace s'.2)])),
     r).

Definition constructor (a : attrs) : M machine t :=
  let super := with_layerClass "TimeDistributed" (Layer_new a) in
  match attr_layer a with
  | None => throwError "wrapped layer is undefined."
  | Some (class_name, config) =>
      let wrappedLayerAttrs :=
        Attrs (attr_gpu a) (attr_outboundCount config) (attr_activation config)
              (attr_layer config) in
      ctor <- defined "layers[layer.class_name]" (layers class_name) ;;
      w <- ctor wrappedLayerAttrs ;;
      (* prevent GPU -> CPU data transfer by specifying non-empty outbound
         nodes array on internal layer *)
      let w := wrapped_set_outbound [None] w in
      if gpu super
      then p1 <- compileProgram CopyTextureProgram ;;
           p2 <- compileProgram MapInputProgram ;;
           p3 <- compileProgram SelectSliceProgram ;;
           p4 <- compileProgram CopySliceOutputProgram ;;
           p5 <- compileProgram MapSliceOutputProgram ;;
           ret (mk super w (Some p1) (Some p2) (Some p3) (Some p4) (Some p5)
                   None None None None None None None None None)
      else ret (mk super w None None None None None
                   None None None None None None None None None)
  end.

(** [ops.assign(d.tensor<view>, s.tensor<view>)] on two Tensor objects. *)
Definition ops_assign (d : ref) (dv : ndarray elt -> option view)
    (s : ref) (sv : ndarray elt -> option view) : M machine unit :=
  dt <- read d ;;
  st <- read s ;;
  match assign (arrayType dt) (tensor dt) (dv (tensor dt)) (tensor st) (sv (tensor st)) with
  | Some a => write d (with_tensor a dt)
  | None => throw (OutOfContract "ops.assign")
  end.

(** The shape [[timesteps, ...rest]] where [timesteps] was read as
    [shape[0]] and [rest] may come from an index into a shape: an
    [undefined] entry gives no shape a Tensor can be built for. *)
Definition stacked {S : Type} (timesteps : option nat) (rest : option (list nat))
  : M S (list nat) :=
  match timesteps, rest with
  | Some n, Some sh => ret (n :: sh)
  | _, _ => throw (OutOfContract "shape")
  end.

Definition _callCPU (x : ref) : M (t * machine) unit :=
  xt <- on_machine (read x) ;;
  let stepShape := tail (shape (tensor xt)) in
  step <- on_machine (new_Tensor [] stepShape Float32Array) ;;
  on_machine (ops_assign step whole x (fun a => pick0 a 0)) ;;;
  stepOutput <- invoke_wrapped MethodCall step (wrapped_call step) ;;
  stepOutput <- defined "stepOutput" stepOutput ;;
  sot <- on_machine (read stepOutput) ;;
  let stepOutputShape := shape (tensor sot) in
  xt <- on_machine (read x) ;;
  osh <- stacked (head (shape (tensor xt))) (Some stepOutputShape) ;;
  out <- on_machine (new_Tensor [] osh Float32Array) ;;
  set_output (Some out) ;;;
  on_machine (ops_assign out (fun a => pick0 a 0) stepOutput whole) ;;;
  xt <- on_machine (read x) ;;
  let timesteps := default 0 (head (shape (tensor xt))) in
  for_each (seq 1 (timesteps - 1)) (fun i =>
    on_machine (ops_assign step whole x (fun a => pick0 a i)) ;;;
    stepOutput <- invoke_wrapped MethodCall step (wrapped_call step) ;;
    stepOutput <- defined "stepOutput" stepOutput ;;
    td <- this ;;
    out <- defined "output" (output (base td)) ;;
    on_machine (ops_assign out (fun a => pick0 a i) stepOutput whole)).


Definition both_defined {A B : Type} (a : option A) (b : option B) : bool :=
  match a, b with
  | Some _, Some _ => true
  | _, _ => false
  end.

(** [maps[i].glTexture] for one of the index-map collections. *)
Definition map_texture (maps : option (list ref)) (i : nat) : M (t * machine) (option texid) :=
  l <- defined "index maps" maps ;;
  r <- defined "index map" (l !! i) ;;
  mt <- on_machine (read r) ;;
  ret (glTexture mt).

(** [r.glTexture] for a Tensor field of the wrapper. *)
Definition field_texture (r : ref) : M (t * machine) (option texid) :=
  rt <- on_machine (read r) ;;
  ret (glTexture rt).

Definition _createIndexMap (indicesForReshaped : option (ndarray elt * ndarray elt))
  : M (t * machine) unit :=
  td <- this ;;
  if both_defined (rowIndexMaps td) (colIndexMaps td) then ret tt else
  ix <- defined "indicesForReshaped" indicesForReshaped ;;
  indicesRow <- on_machine (new_Tensor (data ix.1) (shape ix.1) Int32Array) ;;
  indicesCol <- on_machine (new_Tensor (data ix.2) (shape ix.2) Int32Array) ;;
  set_this (with_rowIndexMaps (Some [])) ;;;
  set_this (with_colIndexMaps (Some [])) ;;;
  td <- this ;;
  inputShape <- defined "inputShape" (inputShape td) ;;
  let timesteps := default 0 (head inputShape) in
  let sliceShape := tail inputShape in
  for_each (seq 0 timesteps) (fun k =>
    sliceIndicesRow <- on_machine (new_Tensor [] sliceShape Int32Array) ;;
    sliceIndicesCol <- on_machine (new_Tensor [] sliceShape Int32Array) ;;
    on_machine (ops_assign sliceIndicesRow whole indicesRow (fun a => pick0 a k)) ;;;
    on_machine (ops_assign sliceIndicesCol whole indicesCol (fun a => pick0 a k)) ;;;
    on_machine (reshapeTo2DSquare sliceIndicesRow) ;;;
    on_machine (reshapeTo2DSquare sliceIndicesCol) ;;;
    on_machine (createGLTexture sliceIndicesRow "int") ;;;
    on_machine (createGLTexture sliceIndicesCol "int") ;;;
    td <- this ;;
    rows <- defined "rowIndexMaps" (rowIndexMaps td) ;;
    set_this (with_rowIndexMaps (Some (rows ++ [sliceIndicesRow])%list)) ;;;
    td <- this ;;
    cols <- defined "colIndexMaps" (colIndexMaps td) ;;
    set_this (with_colIndexMaps (Some (cols ++ [sliceIndicesCol])%list))).

Definition _createOutputIndexMap (indicesForReshaped : option (ndarray elt * ndarray elt))
  : M (t * machine) unit :=
  td <- this ;;
  if both_defined (outputRowIndexMaps td) (outputColIndexMaps td) then ret tt else
  ix <- defined "indicesForReshaped" indicesForReshaped ;;
  outputSliceIndicesRow <- on_machine (new_Tensor (data ix.1) (shape ix.1) Int32Array) ;;
  outputSliceIndicesCol <- on_machine (new_Tensor (data ix.2) (shape ix.2) Int32Array) ;;
  set_this (with_outputRowIndexMaps (Some [])) ;;;
  set_this (with_outputColIndexMaps (Some [])) ;;;
  td <- this ;;
  oshape <- defined "outputShape" (outputShape td) ;;
  let timesteps := default 0 (head oshape) in
  for_each (seq 0 timesteps) (fun k =>
    td <- this ;;
    oshape <- defined "outputShape" (outputShape td) ;;
    outputIndicesRow <- on_machine (new_Tensor [] oshape Int32Array) ;;
    outputIndicesCol <- on_machine (new_Tensor [] oshape Int32Array) ;;
    on_machine (update outputIndicesRow
                  (fun rt => with_tensor (assigns (tensor rt) (num (-1))) rt)) ;;;
    on_machine (update outputIndicesCol
                  (fun ct => with_tensor (assigns (tensor ct) (num (-1))) ct)) ;;;
    on_machine (ops_assign outputIndicesRow (fun a => pick0 a k) outputSliceIndicesRow whole) ;;;
    on_machine (ops_assign outputIndicesCol (fun a => pick0 a k) outputSliceIndicesCol whole) ;;;
    on_machine (reshapeTo2DSquare outputIndicesRow) ;;;
    on_machine (reshapeTo2DSquare outputIndicesCol) ;;;
    on_machine (createGLTexture outputIndicesRow "int") ;;;
    on_machine (createGLTexture outputIndicesCol "int") ;;;
    td <- this ;;
    rows <- defined "outputRowIndexMaps" (outputRowIndexMaps td) ;;
    set_this (with_outputRowIndexMaps (Some (rows ++ [outputIndicesRow])%list)) ;;;
    td <- this ;;
    cols <- defined "outputColIndexMaps" (outputColIndexMaps td) ;;
    set_this (with_outputColIndexMaps (Some (cols ++ [outputIndicesCol])%list))).

(** The extraction of slice [i] into [this.slice]: lines 195-212 for
    [i = 0] and lines 267-284 inside the loop. *)
Definition select_slice (x : ref) (i : nat) : M (t * machine) unit :=
  td <- this ;;
  inputShape <- defined "inputShape" (inputShape td) ;;
  sl <- defined "slice" (slice td) ;;
  xt <- on_machine (read x) ;;
  if bool_decide (length inputShape <= 2)
  then on_machine (runProgram (selectSliceProgram td) sl
                     [("x", glTexture xt)] [("t", Some i)])
  else rowTex <- map_texture (rowIndexMaps td) i ;;
       colTex <- map_texture (colIndexMaps td) i ;;
       on_machine (runProgram (mapInputProgram td) sl
                     [("x", glTexture xt); ("rowIndexMap", rowTex); ("colIndexMap", colTex)] []).

(** The accumulation of [this.sliceOutput] into [this.output] at
    timestep [i]: lines 237-264 for [i = 0] and lines 289-316 inside the
    loop. *)
Definition write_slice (timesteps : option nat) (i : nat) : M (t * machine) unit :=
  td <- this ;;
  ocopy <- defined "outputCopy" (outputCopy td) ;;
  out <- defined "output" (output (base td)) ;;
  outTex <- field_texture out ;;
  on_machine (runProgram (copyTextureProgram td) ocopy [("source", outTex)] []) ;;;
  td <- this ;;
  inputShape <- defined "inputShape" (inputShape td) ;;
  out <- defined "output" (output (base td)) ;;
  ocopy <- defined "outputCopy" (outputCopy td) ;;
  copyTex <- field_texture ocopy ;;
  so <- defined "sliceOutput" (sliceOutput td) ;;
  sliceTex <- field_texture so ;;
  if bool_decide (length inputShape <= 2)
  then on_machine (runProgram (copySliceOutputProgram td) out
                     [("outputCopy", copyTex); ("sliceOutput", sliceTex)]
                     [("t", Some i); ("timesteps", timesteps)])
  else rowTex <- map_texture (outputRowIndexMaps td) i ;;
       colTex <- map_texture (outputColIndexMaps td) i ;;
       on_machine (runProgram (mapSliceOutputProgram td) out
                     [("outputCopy", copyTex); ("sliceOutput", sliceTex);
                      ("rowIndexMap", rowTex); ("colIndexMap", colTex)] []).

(** [this.wrappedLayer._callGPU(this.slice); this.sliceOutput =
    this.wrappedLayer.output] *)
Definition call_wrapped_on_slice : M (t * machine) unit :=
  td <- this ;;
  sl <- defined "slice" (slice td) ;;
  invoke_wrapped MethodCallGPU sl (wrapped_callGPU sl) ;;;
  set_this (fun td => with_sliceOutput (wrapped_output (wrappedLayer td)) td).

(** Lines 217-235: the output pair is created when there is none. *)
Definition create_output (timesteps : option nat) : M (t * machine) unit :=
  td <- this ;;
  inputShape <- defined "inputShape" (inputShape td) ;;
  so <- defined "sliceOutput" (sliceOutput td) ;;
  sot <- on_machine (read so) ;;
  if bool_decide (length inputShape <= 2)
  then gsh <- defined "glTextureShape" (glTextureShape sot) ;;
       osh <- stacked timesteps ((fun n => [n]) <$> gsh !! 1) ;;
       set_this (with_outputShape (Some osh)) ;;;
       out <- on_machine (new_Tensor [] osh Float32Array) ;;
       set_output (Some out) ;;;
       cp <- on_machine (new_Tensor [] osh Float32Array) ;;
       set_this (with_outputCopy (Some cp)) ;;;
       on_machine (createGLTexture out "float") ;;;
       on_machine (createGLTexture cp "float")
  else rest <- defined "originalShape" (originalShape sot) ;;
       osh <- stacked timesteps (Some rest) ;;
       set_this (with_outputShape (Some osh)) ;;;
       out <- on_machine (new_Tensor [] osh Float32Array) ;;
       set_output (Some out) ;;;
       cp <- on_machine (new_Tensor [] osh Float32Array) ;;
       set_this (with_outputCopy (Some cp)) ;;;
       on_machine (reshapeTo2DSquare out) ;;;
       on_machine (reshapeTo2DSquare cp) ;;;
       on_machine (createGLTexture out "float") ;;;
       on_machine (createGLTexture cp "float") ;;;
       td <- this ;;
       so <- defined "sliceOutput" (sliceOutput td) ;;
       sot <- on_machine (read so) ;;
       _createOutputIndexMap (indicesForReshaped sot).

(** Lines 169-176: the input gets a texture when it has none, after a
    square reshape when its rank is above 2. *)
Definition ensure_input_texture (x : ref) : M machine unit :=
  xt <- read x ;;
  when (bool_decide (glTexture xt = None))
    (if bool_decide (length (shape (tensor xt)) <= 2)
     then createGLTexture x "float"
     else if negb (is2DReshaped xt)
     then reshapeTo2DSquare x ;;;
          createGLTexture x "float"
     else ret tt).

(** Lines 185-193: the slice tensor is created when there is none. *)
Definition create_slice (sliceShape : list nat) : M (t * machine) unit :=
  sl <- on_machine (new_Tensor [] sliceShape Float32Array) ;;
  set_this (with_slice (Some sl)) ;;;
  if bool_decide (length sliceShape <= 2)
  then on_machine (createGLTexture sl "float")
  else on_machine (reshapeTo2DSquare sl) ;;;
       on_machine (createGLTexture sl "float").

(** Lines 163-317: the computation on the device. *)
Definition compute (x : ref) : M (t * machine) unit :=
  xt <- on_machine (read x) ;;
  set_this (with_inputShape (if is2DReshaped xt then originalShape xt
                             else Some (shape (tensor xt)))) ;;;
  on_machine (ensure_input_texture x) ;;;
  td <- this ;;
  inputShape <- defined "inputShape" (inputShape td) ;;
  xt <- on_machine (read x) ;;
  when (bool_decide (2 < length inputShape)) (_createIndexMap (indicesForReshaped xt)) ;;;
  let timesteps := head inputShape in
  let sliceShape := tail inputShape in
  td <- this ;;
  when (bool_decide (slice td = None)) (create_slice sliceShape) ;;;
  select_slice x 0 ;;;
  call_wrapped_on_slice ;;;
  td <- this ;;
  when (bool_decide (output (base td) = None)) (create_output timesteps) ;;;
  write_slice timesteps 0 ;;;
  for_each (seq 1 (default 0 timesteps - 1)) (fun i =>
    select_slice x i ;;;
    call_wrapped_on_slice ;;;
    write_slice timesteps i).

(** Lines 319-325: the GPU -> CPU data transfer. *)
Definition materialize : M (t * machine) unit :=
  td <- this ;;
  when (bool_decide (length (outbound (base td)) = 0))
    (out <- defined "output" (output (base td)) ;;
     on_machine (transferFromGLTexture out) ;;;
     ot <- on_machine (read out) ;;
     when (is2DReshaped ot) (on_machine (reshapeFrom2DSquare out))).

Definition _callGPU (x : ref) : M (t * machine) unit :=
  compute x ;;;
  materialize.

Definition call (x : ref) : M (t * machine) (option ref) :=
  td <- this ;;
  (if gpu (base td) then _callGPU x else _callCPU x) ;;;
  td <- this ;;
  ret (output (base td)).

(** The state after a sequence of calls of the wrapper, one per input,
    whether a call returns or throws. *)
Definition calls (xs : list ref) (s : t * machine) : t * machine :=
  foldl (fun s x => (call x s).1) s xs.

End TimeDistributed.
End TimeDistributed.

(** ** The Activation layer as a wrapped layer *)

(** Modelled from the spec: the layer catalog, "a registry mapping a
    layer-kind tag to a constructor accepting a configuration record",
    here with the entry of the Activation class. *)
#[export] Instance Activation_LayerClass `{Env} : LayerClass Activation.t := {
  layers name :=
    if decide (name = "Activation") then Some Activation.constructor else None;
  wrapped_call := Activation.call;
  wrapped_callGPU := Activation._callGPU;
  wrapped_output a := output (Activation.base a);
  wrapped_outbound a := outbound (Activation.base a);
  wrapped_set_outbound ob a :=
    Activation.mk (with_outbound ob (Activation.base a)) (Activation.activation a)
                  (Activation.activationFunc a) (Activation.program a)
}.

(** ** An environment over the integers *)

Module IntEnv.

Definition relu (a : ndarray Z) : ndarray Z := NDArray (Z.max 0 <$> data a) (shape a).

Definition catalog (name : string) : option (ndarray Z -> ndarray Z) :=
  if decide (name = "linear") then Some (fun a => a)
  else if decide (name = "relu") then Some relu
  else None.

Definition input (name : string) (inputs : list (string * option (texture Z))) : list Z :=
  match list_find (fun i => i.1 = name) inputs with
  | Some (_, (_, Some tex)) => texels tex
  | _ => []
  end.

Definition input_cols (name : string) (inputs : list (string * option (texture Z))) : nat :=
  match list_find (fun i => i.1 = name) inputs with
  | Some (_, (_, Some tex)) => default 0 (tex_shape tex !! 1)
  | _ => 0
  end.

Definition uniform (name : string) (uniforms : list (string * option nat)) : nat :=
  match list_find (fun u => u.1 = name) uniforms with
  | Some (_, (_, Some v)) => v
  | _ => 0
  end.

Definition at_cell (d : list Z) (cols : nat) (row col : Z) : Z :=
  default 0%Z (d !! (Z.to_nat row * cols + Z.to_nat col)).

(** Modelled from the spec: the device programs as section 4.4 describes
    them: the elementwise program of an activation, "select row t",
    "gather via index map", the copy of a texture, and the write of
    [outputCopy] "unchanged everywhere except rows belonging to timestep
    t, where it writes sliceOutput". *)
Definition run (p : gl_program) (inputs : list (string * option (texture Z)))
    (uniforms : list (string * option nat)) (out : texture Z) : list Z :=
  let size := length (texels out) in
  let cols := default 0 (tex_shape out !! 1) in
  match p with
  | ActivationProgram name =>
      match catalog name with
      | Some f => data (f (NDArray (input "x" inputs) (tex_shape out)))
      | None => input "x" inputs
      end
  | CopyTextureProgram => input "source" inputs
  | SelectSliceProgram =>
      take cols (drop (uniform "t" uniforms * cols) (input "x" inputs))
  | MapInputProgram =>
      (fun k => at_cell (input "x" inputs) (input_cols "x" inputs)
                        (default 0%Z (input "rowIndexMap" inputs !! k))
                        (default 0%Z (input "colIndexMap" inputs !! k))) <$> seq 0 size
  | CopySliceOutputProgram =>
      let t := uniform "t" uniforms in
      let copy := input "outputCopy" inputs in
      (take (t * cols) copy ++ take cols (input "sliceOutput" inputs)
         ++ drop (t * cols + cols) copy)%list
  | MapSliceOutputProgram =>
      (fun k => let r := default (-1)%Z (input "rowIndexMap" inputs !! k) in
                if (r <? 0)%Z then default 0%Z (input "outputCopy" inputs !! k)
                else at_cell (input "sliceOutput" inputs) (input_cols "sliceOutput" inputs)
                             r (default 0%Z (input "colIndexMap" inputs !! k))) <$> seq 0 size
  end.

(** Modelled from the spec: in this environment [reshapeFrom2D] is the
    inverse of the square reshape, as section 4.2 has it: the first [E]
    cells of the buffer in the original shape. *)
Definition from_2d (ty : array_type) (a : ndarray Z) (os : option (list nat))
    (ix : option (ndarray Z * ndarray Z)) : option (ndarray Z) :=
  sh ← os;
  Some (NDArray ((fun k => default 0%Z (data a !! k)) <$> seq 0 (product sh)) sh).

#[export] Instance env : Env := {
  elt := Z;
  num z := z;
  nan := 0%Z;
  activations := catalog;
  shader_exists name := bool_decide (is_Some (catalog name));
  compiles _ := true;
  kernel := run;
  reshape_from_2d := from_2d
}.

Definition empty_machine : machine := Machine [] [] [].

(** A machine holding one native tensor. *)
Definition machine_with (d : list Z) (sh : list nat) : machine :=
  Machine [mkTensor (NDArray d sh) Float32Array None None false false None None] [] [].

Definition layer_of (activation : string) (on_gpu : bool) (consumers : list (option nat))
  : Activation.t :=
  Activation.mk (mkLayer "Activation" on_gpu consumers None) activation (catalog activation)
                (if on_gpu then Some (ActivationProgram activation) else None).

Definition wrapper_of (activation : string) (on_gpu : bool) (consumers : list (option nat))
  : TimeDistributed.t (W:=Activation.t) :=
  let p := fun q : gl_program => if on_gpu then Some q else None in
  TimeDistributed.mk (mkLayer "TimeDistributed" on_gpu consumers None)
    (layer_of activation on_gpu [None])
    (p CopyTextureProgram) (p MapInputProgram) (p SelectSliceProgram)
    (p CopySliceOutputProgram) (p MapSliceOutputProgram)
    None None None None None None None None None.

(** What an Activation layer of the catalog computes on the CPU path. *)
Definition on_copy (f : ndarray Z -> ndarray Z) (a : ndarray Z) : ndarray Z :=
  f (NDArray (match data a with [] => zeros (product (shape a)) | _ => data a end)
             (shape a)).

End IntEnv.

(** * Specifications *)

(** An invariant [I] of the state that a computation keeps whether it
    returns or throws, with a property [Q] of the value it returns. *)
Definition hoare {S A : Type} (I : S -> Prop) (m : M S A) (Q : A -> Prop) : Prop :=
  forall s, I s -> I (m s).1 /\ forall a, (m s).2 = Returned a -> Q a.

(** What holds of the state when a computation started under [Pre]
    returns. *)
Definition triple {S A : Type} (Pre : S -> Prop) (m : M S A) (Post : S -> Prop) : Prop :=
  forall s s' a, Pre s -> m s = (s', Returned a) -> Post s'.

(** An invariant of a layer method: [P] on the layer object and [J] on the
    machine. *)
Definition both {L Mc : Type} (P : L -> Prop) (J : Mc -> Prop) (s : L * Mc) : Prop :=
  P s.1 /\ J s.2.

Section Specifications.
Context `{Env}.

(** The operations that take a result off the device. *)
Definition off_device (ev : event) : bool :=
  match ev with
  | EvTransferFromGLTexture _ | EvReshapeFrom2D _ | EvReshapeFrom2DSquare _ => true
  | _ => false
  end.

Definition on_device (ev : event) : Prop := off_device ev = false.

(** The operations of the Tensor objects and of the device service other
    than those that take a result off the device. *)
Definition basic (ev : event) : bool :=
  match ev with
  | EvNewTensor _ | EvCreateGLTexture _ _ | EvReshapeTo2DSquare _
  | EvCompileProgram _ | EvRunProgram _ _ | EvActivationFunc _ _ => true
  | _ => false
  end.

(** An invocation of the wrapped layer during which nothing was taken off
    the device. *)
Definition wrapped_on_device (ev : event) : Prop :=
  match ev with
  | EvWrapped _ _ _ sub => Forall on_device sub
  | _ => True
  end.

(** The arrays on which the wrapped layer's [call] was invoked, in order. *)
Definition call_arguments (evs : list event) : list (option (ndarray elt)) :=
  omap (fun ev => match ev with
                  | EvWrapped MethodCall _ held _ => Some held
                  | _ => None
                  end) evs.

(** The slice [a[t, ...]] as an array of its own: what
    [ops.assign(step.tensor, a.pick(t, null, ..., null))] stores in a
    float tensor [step] of the shape of a slice. *)
Definition slice_at (a : ndarray elt) (t : nat) : ndarray elt :=
  NDArray (read_range Float32Array (t * product (tail (shape a))) (product (tail (shape a)))
                      (data a))
          (tail (shape a)).

(** The trace is [t0] followed by operations that all satisfy [ok]. *)
Definition extends_by (ok : event -> Prop) (t0 : list event) (m : machine) : Prop :=
  exists evs, trace m = t0 ++ evs /\ Forall ok evs.

(** The tensor [o], allocated before the [n]-th, has the texture [id]. *)
Definition has_texture (n : nat) (o : ref) (id : texid) (m : machine) : Prop :=
  n <= length (heap m) /\ o < n /\ exists t, heap m !! o = Some t /\ glTexture t = Some id.

(** The tensor [o] is resident on the device. *)
Definition device_resident (o : ref) (m : machine) : Prop :=
  exists t id, heap m !! o = Some t /\ glTexture t = Some id.

(** The shape a tensor has for the callers of the engine. *)
Definition logical_shape (t : Tensor) : option (list nat) :=
  if is2DReshaped t then originalShape t
  else flat_shape (is1D t) <$> glTextureShape t.

(** The flat buffer holds the tensor in its logical shape. *)
Definition flat_and_logical (t : Tensor) : Prop :=
  Some (shape (tensor t)) = logical_shape t /\
  length (data (tensor t)) = product (shape (tensor t)).

(** What makes a property [J] of the machine an invariant of the
    operations on tensors: it survives the recording of an operation that
    satisfies [ok], the allocation of a tensor without texture (whose
    reference then satisfies [fresh]), an assignment to a tensor that
    keeps its texture, the creation of a texture for a tensor that is
    [fresh] or has none, and a write to device memory. *)
Record stable (ok : event -> Prop) (fresh : ref -> Prop) (J : machine -> Prop) : Prop := {
  stable_emit : forall m ev, ok ev -> J m ->
    J (Machine (heap m) (gpu_mem m) (trace m ++ [ev]));
  stable_alloc : forall m t, glTexture t = None -> J m ->
    J (Machine (heap m ++ [t]) (gpu_mem m) (trace m));
  stable_fresh : forall m, J m -> fresh (length (heap m));
  stable_write : forall m r t t', heap m !! r = Some t -> glTexture t' = glTexture t -> J m ->
    J (Machine (<[r := t']> (heap m)) (gpu_mem m) (trace m));
  stable_texture : forall m r t t' g, heap m !! r = Some t ->
    fresh r \/ glTexture t = None -> J m ->
    J (Machine (<[r := t']> (heap m)) g (trace m));
  stable_gpu : forall m g, J m -> J (Machine (heap m) g (trace m))
}.

(** The layer has an output and it is resident on the device. *)
Definition output_resident (l : Layer) (m : machine) : Prop :=
  exists o, output l = Some o /\ device_resident o m.

(** What is known of an output of the Activation layer after the
    transfer: when it is not reshaped, its flat buffer holds it in its
    logical shape; for a reshaped output the buffer is what
    [reshapeFrom2D] left. *)
Definition flat_unless_reshaped (t : Tensor) : Prop :=
  is2DReshaped t = false -> flat_and_logical t.

(** The terminal policy of the device path, between the layer and the
    machine before a call and after it: the operations recorded are
    operations on the device, followed, exactly when the layer has no
    consumers, by the transfer of the output from the device and, for a
    reshaped output, the operation [undo] of the layer on it; the output
    is then [settled], and otherwise it is resident on the device. *)
Definition terminal_policy (undo : ref -> event) (settled : Tensor -> Prop)
    (before after : Layer) (m m' : machine) : Prop :=
  exists o evs, output after = Some o /\ Forall on_device evs /\
    (length (outbound before) = 0 ->
       exists t, heap m' !! o = Some t /\ settled t /\
         trace m' = trace m ++ evs ++
                    EvTransferFromGLTexture o :: (if is2DReshaped t then [undo o] else [])) /\
    (length (outbound before) <> 0 ->
       trace m' = trace m ++ evs /\ device_resident o m').

(** The output of the layer is the same Tensor object with the same
    texture in both states. *)
Definition same_output_resources (l1 : Layer) (m1 : machine) (l2 : Layer) (m2 : machine)
  : Prop :=
  exists o id t1 t2, output l1 = Some o /\ output l2 = Some o /\
    heap m1 !! o = Some t1 /\ heap m2 !! o = Some t2 /\
    glTexture t1 = Some id /\ glTexture t2 = Some id.

(** The state of the CPU path of the wrapper once the slices below [k]
    are done, for the input [x] (holding [xt]), the scratch tensor [step]
    and the output [o] of shape [T :: sosh]: the input is as it was,
    [step] has the shape of a slice, the output holds [F] of slice [t] at
    every [t < k], and since the trace [t0] the wrapped layer's [call] was
    invoked on the slices [0 .. k-1], in this order. *)
Definition cpu_invariant {W : Type} (F : ndarray elt -> ndarray elt) (good : W -> Prop)
    (x step o : ref) (xt : Tensor) (T : nat) (sosh : list nat) (t0 : list event) (k : nat)
    (s : TimeDistributed.t (W:=W) * machine) : Prop :=
  good (TimeDistributed.wrappedLayer s.1) /\
  output (TimeDistributed.base s.1) = Some o /\
  heap s.2 !! x = Some xt /\
  (exists stept, heap s.2 !! step = Some stept /\
     shape (tensor stept) = tail (shape (tensor xt)) /\
     length (data (tensor stept)) = product (tail (shape (tensor xt))) /\
     arrayType stept = Float32Array) /\
  (exists ot, heap s.2 !! o = Some ot /\
     shape (tensor ot) = T :: sosh /\
     length (data (tensor ot)) = T * product sosh /\
     arrayType ot = Float32Array /\
     forall t, t < k -> slice_at (tensor ot) t = F (slice_at (tensor xt) t)) /\
  x <> step /\ step <> o /\ x <> o /\
  exists evs, trace s.2 = t0 ++ evs /\
    call_arguments evs = (fun t => Some (slice_at (tensor xt) t)) <$> seq 0 k.

(** The result of the wrapped layer, which the wrapper holds as
    [sliceOutput], is resident on the device. *)
Definition slice_output_resident (s : TimeDistributed.t (W:=Activation.t) * machine) : Prop :=
  exists wo, TimeDistributed.sliceOutput s.1 = Some wo /\
    output (Activation.base (TimeDistributed.wrappedLayer s.1)) = Some wo /\
    device_resident wo s.2.

(** The wrapped layer has the sentinel [[null]] as its consumers. *)
Definition sentinel (td : TimeDistributed.t (W:=Activation.t)) : Prop :=
  outbound (Activation.base (TimeDistributed.wrappedLayer td)) = [None].

End Specifications.

(** ** Specifications of the constructors and of single calls *)

Section Behaviour.
Context `{Env}.

(** The invocations of the wrapped layer, in order: the method and the
    tensor it was invoked on. *)
Definition wrapped_calls (evs : list event) : list (method * ref) :=
  omap (fun ev => match ev with
                  | EvWrapped meth arg _ _ => Some (meth, arg)
                  | _ => None
                  end) evs.

(** An operation of the layer itself, not an invocation of a wrapped
    layer. *)
Definition plain (ev : event) : Prop :=
  match ev with
  | EvWrapped _ _ _ _ => False
  | _ => True
  end.

(** Since the trace [t0] the wrapped layer was invoked as [l] says. *)
Definition invoked (t0 : list event) (l : list (method * ref)) (m : machine) : Prop :=
  exists evs, trace m = t0 ++ evs /\ wrapped_calls evs = l.

(** The operations of the CPU path: the allocation of a tensor, the
    application of an activation function, and an invocation of the wrapped
    layer's [call] during which nothing else was done. *)
Fixpoint cpu_only (ev : event) : bool :=
  match ev with
  | EvNewTensor _ | EvActivationFunc _ _ => true
  | EvWrapped MethodCall _ _ sub => forallb cpu_only sub
  | _ => false
  end.

(** The device memory is [g0], and since the trace [t0] only operations of
    the CPU path were recorded. *)
Definition off_gpu (g0 : list (texture elt)) (t0 : list event) (m : machine) : Prop :=
  gpu_mem m = g0 /\ exists evs, trace m = t0 ++ evs /\ forallb cpu_only evs = true.

Definition on_cpu (a : Activation.t) : Prop := gpu (Activation.base a) = false.

Definition wrapper_on_cpu (td : TimeDistributed.t (W:=Activation.t)) : Prop :=
  gpu (TimeDistributed.base td) = false /\ on_cpu (TimeDistributed.wrappedLayer td).

(** The tensor [o] is in native layout: it is not reshaped and records no
    original shape. *)
Definition native_layout (o : ref) (m : machine) : Prop :=
  exists t, heap m !! o = Some t /\ is2DReshaped t = false /\ originalShape t = None.

(** What lines 74-80 give a newly created output [ot] of the layout of
    the input [xt]: the mark of a rank-1 tensor, or else, for a reshaped
    input, the metadata of its reshape; the [else if] copies no reshape
    metadata for an input that is marked rank-1. *)
Definition layout_taken_from (xt ot : Tensor) : Prop :=
  is1D ot = is1D xt /\
  if is1D xt
  then is2DReshaped ot = false /\ originalShape ot = None /\ indicesForReshaped ot = None
  else is2DReshaped ot = is2DReshaped xt /\
       if is2DReshaped xt
       then originalShape ot = originalShape xt /\
            indicesForReshaped ot = indicesForReshaped xt
       else originalShape ot = None /\ indicesForReshaped ot = None.

(** A wrapper that has not been called: it has no output and no slice
    yet, and the Activation layer it wraps has no output either. *)
Definition uncalled (td : TimeDistributed.t (W:=Activation.t)) : Prop :=
  output (TimeDistributed.base td) = None /\
  TimeDistributed.slice td = None /\
  output (Activation.base (TimeDistributed.wrappedLayer td)) = None.

(** The five programs of the wrapper, in the order in which lines 34-38
    compile them. *)
Definition wrapper_programs : list gl_program :=
  [CopyTextureProgram; MapInputProgram; SelectSliceProgram; CopySliceOutputProgram;
   MapSliceOutputProgram].

(** The tensor [r] of the heap [hp] has a texture among the first [g]
    textures of the device. *)
Definition textured (hp : list Tensor) (g : nat) (r : ref) : Prop :=
  exists t id, hp !! r = Some t /\ glTexture t = Some id /\ id < g.

(** The output that lines 72-80 of the Activation layer create for an
    input [xt] with a texture of shape [sh], once it has the texture
    [id]. *)
Definition output_for (xt : Tensor) (sh : list nat) (id : texid) : Tensor :=
  let ot := with_glTexture id sh false
              (mkTensor (NDArray (zeros (product sh)) sh) Float32Array
                        None None false false None None) in
  if is1D xt then with_is1D (is1D xt) ot
  else if is2DReshaped xt
       then with_reshaped (is2DReshaped xt) (originalShape xt) (indicesForReshaped xt) ot
       else ot.

(** The slice that lines 185-193 of the wrapper create for slices of
    rank 1 and length [n]: one row on the device. *)
Definition row_slice (n : nat) (id : texid) : Tensor :=
  with_glTexture id [1; n] true
    (mkTensor (NDArray (zeros (product [n])) [n]) Float32Array
              None None false false None None).

(** The output, and its copy, that lines 217-235 of the wrapper create
    for an input of rank at most 2. *)
Definition stacked_output (sh : list nat) (id : texid) : Tensor :=
  with_glTexture id sh false
    (mkTensor (NDArray (zeros (product sh)) sh) Float32Array
              None None false false None None).

(** The state of a wrapper between two steps on the device: the wrapper
    object is [td], the heap is [hp] and the device holds [g] textures. *)
Definition at_rest (td : TimeDistributed.t (W:=Activation.t)) (hp : list Tensor) (g : nat)
    (s : TimeDistributed.t (W:=Activation.t) * machine) : Prop :=
  s.1 = td /\ heap s.2 = hp /\ length (gpu_mem s.2) = g.

(** A wrapper that has been called on the device: it holds its slice,
    the output of the wrapped layer, its output and the copy of its
    output, all of them with textures, the wrapped layer has consumers,
    and the output is a tensor of shape [sho] in native layout. *)
Definition warm (sl wo o cp : ref) (sho : list nat)
    (s : TimeDistributed.t (W:=Activation.t) * machine) : Prop :=
  let td := s.1 in
  let hp := heap s.2 in
  let g := length (gpu_mem s.2) in
  (gpu (TimeDistributed.base td) = true /\
   TimeDistributed.slice td = Some sl /\
   TimeDistributed.sliceOutput td = Some wo /\
   output (TimeDistributed.base td) = Some o /\
   TimeDistributed.outputCopy td = Some cp) /\
  (is_Some (TimeDistributed.selectSliceProgram td) /\
   is_Some (TimeDistributed.copyTextureProgram td) /\
   is_Some (TimeDistributed.copySliceOutputProgram td) /\
   is_Some (Activation.program (TimeDistributed.wrappedLayer td))) /\
  (output (Activation.base (TimeDistributed.wrappedLayer td)) = Some wo /\
   length (outbound (Activation.base (TimeDistributed.wrappedLayer td))) <> 0) /\
  (textured hp g sl /\ textured hp g wo /\ textured hp g o /\ textured hp g cp) /\
  exists ot, hp !! o = Some ot /\ shape (tensor ot) = sho /\
             glTextureShape ot = Some sho /\ is1D ot = false /\ is2DReshaped ot = false.

Section WrapperBehaviour.
Context {W : Type} `{!LayerClass W}.

(** The fields that the slices of one call are taken with. *)
Definition slicing (sh : option (list nat)) (sl : ref) (td : TimeDistributed.t (W:=W)) : Prop :=
  TimeDistributed.inputShape td = sh /\ TimeDistributed.slice td = Some sl.

(** The wrapper runs on the device and holds these tensors as its slice,
    its output and the copy of its output. *)
Definition device_tensors (sl o c : ref) (td : TimeDistributed.t (W:=W)) : Prop :=
  gpu (TimeDistributed.base td) = true /\
  TimeDistributed.slice td = Some sl /\
  output (TimeDistributed.base td) = Some o /\
  TimeDistributed.outputCopy td = Some c.

(** The row and column index maps of one side built so far: [k] of each,
    all of them tensors allocated since the heap had [n] cells and
    resident on the device. *)
Definition maps_built (rows_of cols_of : TimeDistributed.t (W:=W) -> option (list ref))
    (n k : nat) (s : TimeDistributed.t (W:=W) * machine) : Prop :=
  n <= length (heap s.2) /\
  exists rows cols,
    rows_of s.1 = Some rows /\ cols_of s.1 = Some cols /\
    length rows = k /\ length cols = k /\
    Forall (fun r => n <= r /\ device_resident r s.2) (rows ++ cols).

Definition index_maps_built : nat -> nat -> TimeDistributed.t (W:=W) * machine -> Prop :=
  maps_built TimeDistributed.rowIndexMaps TimeDistributed.colIndexMaps.

Definition output_index_maps_built
  : nat -> nat -> TimeDistributed.t (W:=W) * machine -> Prop :=
  maps_built TimeDistributed.outputRowIndexMaps TimeDistributed.outputColIndexMaps.

(** One round of the loop of [_createIndexMap] (lines 105-116), as it
    stands in [TimeDistributed._createIndexMap]. *)
Definition index_map_round (indicesRow indicesCol : ref) (sliceShape : list nat) (k : nat)
  : M (TimeDistributed.t (W:=W) * machine) unit :=
  sliceIndicesRow <- on_machine (new_Tensor [] sliceShape Int32Array) ;;
  sliceIndicesCol <- on_machine (new_Tensor [] sliceShape Int32Array) ;;
  on_machine (TimeDistributed.ops_assign sliceIndicesRow whole indicesRow (fun a => pick0 a k)) ;;;
  on_machine (TimeDistributed.ops_assign sliceIndicesCol whole indicesCol (fun a => pick0 a k)) ;;;
  on_machine (reshapeTo2DSquare sliceIndicesRow) ;;;
  on_machine (reshapeTo2DSquare sliceIndicesCol) ;;;
  on_machine (createGLTexture sliceIndicesRow "int") ;;;
  on_machine (createGLTexture sliceIndicesCol "int") ;;;
  td <- this ;;
  rows <- defined "rowIndexMaps" (TimeDistributed.rowIndexMaps td) ;;
  set_this (TimeDistributed.with_rowIndexMaps (Some (rows ++ [sliceIndicesRow])%list)) ;;;
  td <- this ;;
  cols <- defined "colIndexMaps" (TimeDistributed.colIndexMaps td) ;;
  set_this (TimeDistributed.with_colIndexMaps (Some (cols ++ [sliceIndicesCol])%list)).

(** One round of the loop of [_createOutputIndexMap] (lines 141-154), as
    it stands in [TimeDistributed._createOutputIndexMap]. *)
Definition output_index_map_round (outputSliceIndicesRow outputSliceIndicesCol : ref) (k : nat)
  : M (TimeDistributed.t (W:=W) * machine) unit :=
  td <- this ;;
  oshape <- defined "outputShape" (TimeDistributed.outputShape td) ;;
  outputIndicesRow <- on_machine (new_Tensor [] oshape Int32Array) ;;
  outputIndicesCol <- on_machine (new_Tensor [] oshape Int32Array) ;;
  on_machine (update outputIndicesRow
                (fun rt => with_tensor (assigns (tensor rt) (num (-1))) rt)) ;;;
  on_machine (update outputIndicesCol
                (fun ct => with_tensor (assigns (tensor ct) (num (-1))) ct)) ;;;
  on_machine (TimeDistributed.ops_assign outputIndicesRow (fun a => pick0 a k)
                outputSliceIndicesRow whole) ;;;
  on_machine (TimeDistributed.ops_assign outputIndicesCol (fun a => pick0 a k)
                outputSliceIndicesCol whole) ;;;
  on_machine (reshapeTo2DSquare outputIndicesRow) ;;;
  on_machine (reshapeTo2DSquare outputIndicesCol) ;;;
  on_machine (createGLTexture outputIndicesRow "int") ;;;
  on_machine (createGLTexture outputIndicesCol "int") ;;;
  td <- this ;;
  rows <- defined "outputRowIndexMaps" (TimeDistributed.outputRowIndexMaps td) ;;
  set_this (TimeDistributed.with_outputRowIndexMaps (Some (rows ++ [outputIndicesRow])%list)) ;;;
  td <- this ;;
  cols <- defined "outputColIndexMaps" (TimeDistributed.outputColIndexMaps td) ;;
  set_this (TimeDistributed.with_outputColIndexMaps (Some (cols ++ [outputIndicesCol])%list)).

End WrapperBehaviour.

End Behaviour.

(** * Properties *)

(** ** Lists as heaps *)

Lemma lookup_snoc {A : Type} (l : list A) (x : A) : (l ++ [x]) !! length l = Some x.
Proof. by apply list_lookup_middle. Qed.

Lemma insert_snoc {A : Type} (l : list A) (x y : A) :
  <[length l := y]> (l ++ [x]) = l ++ [y].
Proof. rewrite insert_app_r_alt by done. by rewrite Nat.sub_diag. Qed.

(** ** Rules for invariants *)

Section HoareRules.
Context {S : Type} (I : S -> Prop).

Lemma hoare_ret {A : Type} (a : A) (Q : A -> Prop) : Q a -> hoare I (ret a) Q.
Proof. intros HQ s HI. split; [done|]. by intros a' [= <-]. Qed.

Lemma hoare_throw {A : Type} (e : error) (Q : A -> Prop) : hoare I (throw e) Q.
Proof. intros s HI. split; [done|]. by intros a' [=]. Qed.

Lemma hoare_bind {A B : Type} (m : M S A) (f : A -> M S B) (Q : A -> Prop) (Q' : B -> Prop) :
  hoare I m Q -> (forall a, Q a -> hoare I (f a) Q') -> hoare I (bind m f) Q'.
Proof.
  intros Hm Hf s HI. unfold bind. destruct (Hm s HI) as [HI1 HQ].
  destruct (m s) as [s1 [a|e]]; simpl in *.
  - by apply Hf; [apply HQ|].
  - split; [done|]. by intros a' [=].
Qed.

Lemma hoare_weaken {A : Type} (m : M S A) (Q Q' : A -> Prop) :
  hoare I m Q -> (forall a, Q a -> Q' a) -> hoare I m Q'.
Proof. intros Hm HQ s HI. destruct (Hm s HI) as [? ?]. split; [done|]. eauto. Qed.

Lemma hoare_gets {A : Type} (f : S -> A) (Q : A -> Prop) :
  (forall s, I s -> Q (f s)) -> hoare I (gets f) Q.
Proof. intros HQ s HI. split; [done|]. intros a [= <-]. by apply HQ. Qed.

Lemma hoare_modify (f : S -> S) (Q : unit -> Prop) :
  (forall s, I s -> I (f s)) -> Q tt -> hoare I (modify f) Q.
Proof. intros Hf HQ s HI. split; [by apply Hf|]. by intros [] _. Qed.

Lemma hoare_defined {A : Type} (what : string) (o : option A) :
  hoare I (defined what o) (fun a => o = Some a).
Proof. destruct o; [by apply hoare_ret|apply hoare_throw]. Qed.

Lemma hoare_when (b : bool) (m : M S unit) (Q : unit -> Prop) :
  Q tt -> (b = true -> hoare I m Q) -> hoare I (when b m) Q.
Proof. intros HQ Hm. destruct b; [by apply Hm|by apply hoare_ret]. Qed.

Lemma hoare_for_each (l : list nat) (body : nat -> M S unit) :
  (forall i, i ∈ l -> hoare I (body i) (fun _ => True)) ->
  hoare I (for_each l body) (fun _ => True).
Proof.
  induction l as [|i l IH]; intros Hbody; simpl.
  - by apply hoare_ret.
  - eapply hoare_bind; [apply Hbody; left|].
    intros _ _. apply IH. intros j Hj. apply Hbody. by right.
Qed.

Lemma hoare_stacked (timesteps : option nat) (rest : option (list nat)) :
  hoare I (TimeDistributed.stacked timesteps rest) (fun _ => True).
Proof.
  unfold TimeDistributed.stacked.
  destruct timesteps, rest; first [by apply hoare_ret|apply hoare_throw].
Qed.

End HoareRules.

Section LayerRules.
Context `{Env} {L : Type} (P : L -> Prop) (J : machine -> Prop).

Lemma hoare_this : hoare (both P J) (this (L:=L)) P.
Proof. apply hoare_gets. by intros s [? ?]. Qed.

Lemma hoare_set_this (f : L -> L) (Q : unit -> Prop) :
  (forall l, P l -> P (f l)) -> Q tt -> hoare (both P J) (set_this f) Q.
Proof. intros Hf HQ. apply hoare_modify; [|done]. intros s [? ?]. split; simpl; auto. Qed.

Lemma hoare_on_machine {A : Type} (m : M machine A) (Q : A -> Prop) :
  hoare J m Q -> hoare (both P J) (on_machine m) Q.
Proof.
  intros Hm [l mc] [HP HJ]. unfold on_machine, embed. simpl in *.
  destruct (Hm mc HJ) as [HJ' HQ]. destruct (m mc) as [mc' r]. simpl in *.
  by repeat split.
Qed.

End LayerRules.

(** ** The operations on tensors keep a stable invariant *)

Section StableOperations.
Context `{Env} (ok : event -> Prop) (fresh : ref -> Prop) (J : machine -> Prop).
Context (Hstable : stable ok fresh J).
Context (ok_basic : forall ev, basic ev = true -> ok ev).

Lemma stable_read (r : ref) : hoare J (read r) (fun _ => True).
Proof. intros m HJ. unfold read. destruct (heap m !! r); simpl; by split. Qed.

Lemma stable_emit_ok (ev : event) : ok ev -> hoare J (emit ev) (fun _ => True).
Proof. intros Hok m HJ. split; [|done]. by apply (stable_emit _ _ _ Hstable). Qed.

Lemma stable_new_Tensor (d : list elt) (sh : list nat) (ty : array_type) :
  hoare J (new_Tensor d sh ty) fresh.
Proof.
  intros m HJ. unfold new_Tensor, bind, gets, modify, emit, ret. simpl. split.
  - apply (stable_emit _ _ _ Hstable (Machine _ _ _)); [by apply ok_basic|].
    by apply (stable_alloc _ _ _ Hstable).
  - intros a [= <-]. by apply (stable_fresh _ _ _ Hstable).
Qed.

Lemma stable_update (r : ref) (f : Tensor -> Tensor) :
  (forall t, glTexture (f t) = glTexture t) -> hoare J (update r f) (fun _ => True).
Proof.
  intros Hf m HJ. unfold update, bind, read, write, modify.
  destruct (heap m !! r) as [t|] eqn:Hr; simpl; [|by split].
  split; [|done]. by eapply (stable_write _ _ _ Hstable).
Qed.

Lemma stable_createGLTexture_at (r : ref) (format : string) (m : machine) :
  fresh r \/ (exists t, heap m !! r = Some t /\ glTexture t = None) ->
  J m -> J (createGLTexture r format m).1.
Proof.
  intros Hr HJ. unfold createGLTexture, bind, read.
  destruct (heap m !! r) as [t|] eqn:Ht; simpl; [|done].
  assert (fresh r \/ glTexture t = None) as Hr'.
  { destruct Hr as [?|(t' & [= <-] & ?)]; auto. }
  destruct (shape (tensor t)) as [|a [|b [|c sh]]]; simpl; try done.
  - apply (stable_emit _ _ _ Hstable (Machine _ _ _)); [by apply ok_basic|].
    by eapply (stable_texture _ _ _ Hstable).
  - apply (stable_emit _ _ _ Hstable (Machine _ _ _)); [by apply ok_basic|].
    by eapply (stable_texture _ _ _ Hstable).
Qed.

Lemma stable_createGLTexture (r : ref) (format : string) :
  fresh r -> hoare J (createGLTexture r format) (fun _ => True).
Proof. intros Hr m HJ. split; [|done]. apply stable_createGLTexture_at; auto. Qed.

Lemma stable_reshapeTo2DSquare (r : ref) : hoare J (reshapeTo2DSquare r) (fun _ => True).
Proof.
  intros m HJ. unfold reshapeTo2DSquare, bind, read, write, modify, emit.
  destruct (heap m !! r) as [t|] eqn:Hr; simpl; [|by split].
  split; [|done].
  apply (stable_emit _ _ _ Hstable (Machine _ _ _)); [by apply ok_basic|].
  by eapply (stable_write _ _ _ Hstable).
Qed.

Lemma stable_ensure_texture (x : ref) : hoare J (Activation.ensure_texture x) (fun _ => True).
Proof.
  intros m HJ. split; [|done]. unfold Activation.ensure_texture, bind, read.
  destruct (heap m !! x) as [t|] eqn:Hx; simpl; [|done].
  case_bool_decide as Hnone; simpl; [|done].
  apply stable_createGLTexture_at; eauto.
Qed.

Lemma stable_runProgram (p : option gl_program) (out : ref)
    (inputs : list (string * option texid)) (uniforms : list (string * option nat)) :
  hoare J (runProgram p out inputs uniforms) (fun _ => True).
Proof.
  intros m HJ. split; [|done]. unfold runProgram, bind, read, defined, gets, modify, emit.
  destruct p as [p|]; simpl; [|done].
  destruct (heap m !! out) as [t|]; simpl; [|done].
  destruct (glTexture t) as [id|]; simpl; [|done].
  destruct (gpu_mem m !! id) as [tex|]; simpl; [|done].
  apply (stable_emit _ _ _ Hstable (Machine _ _ _)); [by apply ok_basic|].
  by apply (stable_gpu _ _ _ Hstable).
Qed.

Lemma stable_transferFromGLTexture (r : ref) :
  ok (EvTransferFromGLTexture r) -> hoare J (transferFromGLTexture r) (fun _ => True).
Proof.
  intros Hok m HJ. split; [|done].
  unfold transferFromGLTexture, bind, read, defined, gets, write, modify, emit.
  destruct (heap m !! r) as [t|] eqn:Hr; simpl; [|done].
  destruct (glTexture t) as [id|]; simpl; [|done].
  destruct (glTextureShape t) as [sh|]; simpl; [|done].
  destruct (gpu_mem m !! id) as [tex|]; simpl; [|done].
  apply (stable_emit _ _ _ Hstable (Machine _ _ _)); [done|].
  by eapply (stable_write _ _ _ Hstable).
Qed.

Lemma stable_reshapeFrom2D (r : ref) :
  ok (EvReshapeFrom2D r) -> hoare J (reshapeFrom2D r) (fun _ => True).
Proof.
  intros Hok m HJ. split; [|done].
  unfold reshapeFrom2D, bind, read, defined, write, modify, emit.
  destruct (heap m !! r) as [t|] eqn:Hr; simpl; [|done].
  destruct (reshape_from_2d _ _ _ _) as [a|]; simpl; [|done].
  apply (stable_emit _ _ _ Hstable (Machine _ _ _)); [done|].
  by eapply (stable_write _ _ _ Hstable).
Qed.

Lemma stable_reshapeFrom2DSquare (r : ref) :
  ok (EvReshapeFrom2DSquare r) -> hoare J (reshapeFrom2DSquare r) (fun _ => True).
Proof.
  intros Hok m HJ. split; [|done].
  unfold reshapeFrom2DSquare, unreshape, bind, read, defined, write, modify, emit.
  destruct (heap m !! r) as [t|] eqn:Hr; simpl; [|done].
  destruct (is2DReshaped t); simpl; [|done].
  destruct (originalShape t) as [os|]; simpl; [|done].
  apply (stable_emit _ _ _ Hstable (Machine _ _ _)); [done|].
  by eapply (stable_write _ _ _ Hstable).
Qed.

Lemma stable_ops_assign (d : ref) (dv : ndarray elt -> option view)
    (src : ref) (sv : ndarray elt -> option view) :
  hoare J (TimeDistributed.ops_assign d dv src sv) (fun _ => True).
Proof.
  intros m HJ. split; [|done]. unfold TimeDistributed.ops_assign, bind, read, write, modify.
  destruct (heap m !! d) as [dt|] eqn:Hd; simpl; [|done].
  destruct (heap m !! src) as [st|]; simpl; [|done].
  destruct (assign _ _ _ _ _); simpl; [|done].
  by eapply (stable_write _ _ _ Hstable).
Qed.

Lemma stable_ensure_input_texture (x : ref) :
  hoare J (TimeDistributed.ensure_input_texture x) (fun _ => True).
Proof.
  intros m HJ. split; [|done]. unfold TimeDistributed.ensure_input_texture, bind, read.
  destruct (heap m !! x) as [t|] eqn:Hx; simpl; [|done].
  case_bool_decide as Hnone; simpl; [|done].
  case_bool_decide; simpl.
  { apply stable_createGLTexture_at; eauto. }
  destruct (is2DReshaped t); simpl; [done|].
  pose proof (stable_reshapeTo2DSquare x m HJ) as [HJ' _].
  unfold reshapeTo2DSquare, bind, read, write, modify, emit in *.
  rewrite Hx in *. simpl in *.
  apply stable_createGLTexture_at; [|done]. right. simpl.
  eexists. split; [apply list_lookup_insert_eq; by eapply lookup_lt_Some|done].
Qed.

End StableOperations.

Ltac guards :=
  repeat match goal with
         | H : bool_decide _ = true |- _ => apply bool_decide_eq_true_1 in H
         | H : bool_decide _ = false |- _ => apply bool_decide_eq_false_1 in H
         end.

(** The recorded operation is allowed: by assumption, or because the
    layer has no consumers. *)
Ltac ok_event :=
  guards;
  first
  [ by auto
  | match goal with
    | Hterm : forall a, _ -> length _ = 0 -> forall ev, off_device ev = true -> _ |- _ =>
        eapply Hterm; [eassumption|eassumption|reflexivity]
    end ].

(** Steps through a computation, one bind at a time. *)
Ltac hoare_prim :=
  first
  [ eapply stable_read; eassumption
  | eapply stable_new_Tensor; eassumption
  | eapply stable_update; [eassumption|by intros []]
  | eapply stable_createGLTexture; eassumption
  | eapply stable_reshapeTo2DSquare; eassumption
  | eapply stable_ensure_texture; eassumption
  | eapply stable_ensure_input_texture; eassumption
  | eapply stable_ops_assign; eassumption
  | eapply stable_runProgram; eassumption
  | eapply stable_emit_ok; [eassumption|ok_event]
  | eapply stable_transferFromGLTexture; [eassumption|ok_event]
  | eapply stable_reshapeFrom2D; [eassumption|ok_event]
  | eapply stable_reshapeFrom2DSquare; [eassumption|ok_event] ].

Ltac hoare_true :=
  try (lazymatch goal with
       | |- hoare (A:=?A) ?I ?m ?Q => is_evar Q; unify Q (fun _ : A => True)
       end).

Ltac hoare_leaf :=
  lazymatch goal with
  | |- hoare _ (ret _) _ => hoare_true; by apply hoare_ret
  | |- hoare _ (throw _) _ => apply hoare_throw
  | |- hoare _ (throwError _) _ => apply hoare_throw
  | |- hoare _ this _ => apply hoare_this
  | |- hoare _ (defined _ _) _ => apply hoare_defined
  | |- hoare _ (TimeDistributed.stacked _ _) _ => hoare_true; apply hoare_stacked
  | |- hoare _ (on_machine _) _ => apply hoare_on_machine; hoare_prim
  | |- hoare _ (set_this _) _ => hoare_true; apply hoare_set_this; [by auto|done]
  end.

Ltac hoare_step :=
  lazymatch goal with
  | |- hoare _ (bind _ _) _ => eapply hoare_bind; [|intros ? ?]
  | |- hoare _ (when _ _) _ => hoare_true; apply hoare_when; [done|intros ?]
  | |- hoare _ (for_each _ _) _ => hoare_true; apply hoare_for_each; intros ? ?
  | |- hoare _ (if ?b then _ else _) _ => hoare_true; destruct b eqn:?
  | |- hoare _ (match ?o with Some _ => _ | None => _ end) _ => hoare_true; destruct o eqn:?
  | |- _ => hoare_leaf
  end.

(** ** Stable invariants *)

Section StableInvariants.
Context `{Env}.

Lemma stable_trivial : stable (fun _ => True) (fun _ => True) (fun _ => True).
Proof. by split. Qed.

Lemma stable_extends_by (ok : event -> Prop) (t0 : list event) :
  stable ok (fun _ => True) (extends_by ok t0).
Proof.
  split; try done.
  intros m ev Hok (evs & Htr & Hall). exists (evs ++ [ev]). simpl. split.
  - by rewrite Htr, app_assoc.
  - apply Forall_app. by split; [|apply Forall_singleton].
Qed.

Lemma stable_has_texture (n : nat) (o : ref) (id : texid) :
  stable (fun _ => True) (fun r => n <= r) (has_texture n o id).
Proof.
  split.
  - by intros m ev _ ?.
  - intros m t _ (Hn & Ho & t0 & Hlook & Htex). unfold has_texture. simpl. split_and!; [|done|].
    + rewrite length_app. lia.
    + exists t0. split; [|done]. by apply lookup_app_l_Some.
  - by intros m (Hn & _).
  - intros m r t t' Hr Hsame (Hn & Ho & t0 & Hlook & Htex). unfold has_texture. simpl.
    split_and!; [by rewrite length_insert|done|].
    destruct (decide (r = o)) as [->|Hne].
    + exists t'. split; [apply list_lookup_insert_eq; by eapply lookup_lt_Some|].
      rewrite Hsame. assert (Some t = Some t0) as [= ->] by (rewrite <- Hr; exact Hlook).
      done.
    + exists t0. by rewrite list_lookup_insert_ne.
  - intros m r t t' g Hr Hcan (Hn & Ho & t0 & Hlook & Htex). unfold has_texture. simpl.
    split_and!; [by rewrite length_insert|done|].
    assert (r <> o) as Hne.
    { intros ->. destruct Hcan as [?|Hnone]; [lia|].
      assert (Some t = Some t0) as [= ->] by (rewrite <- Hr; exact Hlook). congruence. }
    exists t0. by rewrite list_lookup_insert_ne.
  - by intros m g ?.
Qed.

Lemma basic_on_device (ev : event) : basic ev = true -> on_device ev.
Proof. by destruct ev. Qed.

Lemma basic_wrapped_on_device (ev : event) : basic ev = true -> wrapped_on_device ev.
Proof. by destruct ev. Qed.

Lemma off_device_wrapped_on_device (ev : event) : off_device ev = true -> wrapped_on_device ev.
Proof. by destruct ev. Qed.

End StableInvariants.

(** ** Invocations of the wrapped layer *)

Section Invocation.
Context `{Env} {W : Type} `{!LayerClass W}.

(** An invocation keeps an invariant of the wrapper when the method keeps
    a matching invariant of the wrapped layer, started on an empty
    trace. *)
Lemma hoare_invoke_wrapped {A : Type} (meth : method) (arg : ref) (m : M (W * machine) A)
    (Pw : W -> Prop) (Jw : machine -> Prop)
    (P : TimeDistributed.t (W:=W) -> Prop) (J : machine -> Prop) :
  hoare (both Pw Jw) m (fun _ => True) ->
  (forall td mc, P td -> J mc ->
     Pw (TimeDistributed.wrappedLayer td) /\ Jw (Machine (heap mc) (gpu_mem mc) [])) ->
  (forall td mc w' mc' held, P td -> J mc -> Pw w' -> Jw mc' ->
     P (TimeDistributed.with_wrappedLayer w' td) /\
     J (Machine (heap mc') (gpu_mem mc')
                (trace mc ++ [EvWrapped meth arg held (trace mc')]))) ->
  hoare (both P J) (TimeDistributed.invoke_wrapped meth arg m) (fun _ => True).
Proof.
  intros Hm Hin Hout [td mc] [HP HJ]. split; [|done].
  unfold TimeDistributed.invoke_wrapped. simpl.
  destruct (Hin td mc HP HJ) as [HPw HJw].
  destruct (Hm (TimeDistributed.wrappedLayer td, Machine (heap mc) (gpu_mem mc) []))
    as [[HPw' HJw'] _]; [done|].
  destruct (m _) as [[w' mc'] r]. simpl in *.
  by apply Hout.
Qed.

Lemma hoare_anything {L Mc A : Type} (m : M (L * Mc) A) :
  hoare (both (fun _ => True) (fun _ => True)) m (fun _ => True).
Proof. by intros s _. Qed.

End Invocation.

(** ** The Activation layer keeps a stable invariant *)

Section ActivationInvariant.
Context `{Env} (ok : event -> Prop) (fresh : ref -> Prop) (J : machine -> Prop).
Context (Hstable : stable ok fresh J).
Context (ok_basic : forall ev, basic ev = true -> ok ev).
Context (P : Activation.t -> Prop).

Lemma activation_create_output (x : ref) :
  (forall a o, P a -> P (Activation.with_out o a)) ->
  hoare (both P J) (Activation.create_output x) (fun _ => True).
Proof.
  intros HP. unfold Activation.create_output, Activation.set_output.
  repeat hoare_step.
Qed.

(** [P] may depend on the output only for layers that have one, and
    taking a result off the device must be allowed for a layer without
    consumers. *)
Context (P_output : forall a, P a -> output (Activation.base a) = None ->
                    forall a' o, P a' -> P (Activation.with_out o a')).
Context (P_terminal : forall a, P a -> length (outbound (Activation.base a)) = 0 ->
                      forall ev, off_device ev = true -> ok ev).

Lemma activation_compute (x : ref) :
  hoare (both P J) (Activation.compute x) (fun _ => True).
Proof.
  unfold Activation.compute. repeat hoare_step.
  apply activation_create_output. guards. eauto.
Qed.

Lemma activation_materialize :
  hoare (both P J) Activation.materialize (fun _ => True).
Proof.
  unfold Activation.materialize. repeat hoare_step.
Qed.

Lemma activation_callGPU (x : ref) :
  hoare (both P J) (Activation._callGPU x) (fun _ => True).
Proof.
  unfold Activation._callGPU. eapply hoare_bind; [apply activation_compute|].
  intros _ _. apply activation_materialize.
Qed.

Lemma activation_callCPU (x : ref) :
  (forall a o, P a -> P (Activation.with_out o a)) ->
  hoare (both P J) (Activation._callCPU x) (fun _ => True).
Proof.
  intros HP. unfold Activation._callCPU, Activation.set_output.
  repeat hoare_step.
Qed.

Lemma activation_call (x : ref) :
  (forall a o, P a -> P (Activation.with_out o a)) ->
  hoare (both P J) (Activation.call x) (fun _ => True).
Proof.
  intros HP. unfold Activation.call, Activation.set_output.
  eapply hoare_bind; [apply hoare_this|]. intros a _. case_decide.
  - repeat hoare_step.
  - eapply hoare_bind; [|intros _ _; repeat hoare_step].
    destruct (gpu _); [apply activation_callGPU|by apply activation_callCPU].
Qed.

End ActivationInvariant.

(** ** The wrapper keeps a stable invariant *)

Section WrapperInvariant.
Context `{Env} {W : Type} `{!LayerClass W}.
Context (ok : event -> Prop) (fresh : ref -> Prop) (J : machine -> Prop).
Context (Hstable : stable ok fresh J).
Context (ok_basic : forall ev, basic ev = true -> ok ev).
Context (P : TimeDistributed.t (W:=W) -> Prop).

(** [P] does not depend on the scratch fields of the wrapper. *)
Context (P_inputShape : forall td v, P td -> P (TimeDistributed.with_inputShape v td)).
Context (P_outputShape : forall td v, P td -> P (TimeDistributed.with_outputShape v td)).
Context (P_slice : forall td v, P td -> P (TimeDistributed.with_slice v td)).
Context (P_sliceOutput : forall td v, P td -> P (TimeDistributed.with_sliceOutput v td)).
Context (P_outputCopy : forall td v, P td -> P (TimeDistributed.with_outputCopy v td)).

Lemma wrapper_select_slice (x : ref) (i : nat) :
  hoare (both P J) (TimeDistributed.select_slice x i) (fun _ => True).
Proof. unfold TimeDistributed.select_slice, TimeDistributed.map_texture. repeat hoare_step. Qed.

Lemma wrapper_write_slice (timesteps : option nat) (i : nat) :
  hoare (both P J) (TimeDistributed.write_slice timesteps i) (fun _ => True).
Proof.
  unfold TimeDistributed.write_slice, TimeDistributed.map_texture,
    TimeDistributed.field_texture.
  repeat hoare_step.
Qed.

Lemma wrapper_create_slice (sliceShape : list nat) :
  hoare (both P J) (TimeDistributed.create_slice sliceShape) (fun _ => True).
Proof. unfold TimeDistributed.create_slice. repeat hoare_step. Qed.

(** [P] may depend on a pair of index-map collections only when both
    exist. *)
Context (P_rows : forall td, P td ->
           TimeDistributed.both_defined (TimeDistributed.rowIndexMaps td) (TimeDistributed.colIndexMaps td) = false ->
           forall td' v, P td' -> P (TimeDistributed.with_rowIndexMaps v td')).
Context (P_cols : forall td, P td ->
           TimeDistributed.both_defined (TimeDistributed.rowIndexMaps td) (TimeDistributed.colIndexMaps td) = false ->
           forall td' v, P td' -> P (TimeDistributed.with_colIndexMaps v td')).
Context (P_outputRows : forall td, P td ->
           TimeDistributed.both_defined (TimeDistributed.outputRowIndexMaps td)
                        (TimeDistributed.outputColIndexMaps td) = false ->
           forall td' v, P td' -> P (TimeDistributed.with_outputRowIndexMaps v td')).
Context (P_outputCols : forall td, P td ->
           TimeDistributed.both_defined (TimeDistributed.outputRowIndexMaps td)
                        (TimeDistributed.outputColIndexMaps td) = false ->
           forall td' v, P td' -> P (TimeDistributed.with_outputColIndexMaps v td')).

Lemma wrapper_createIndexMap (ix : option (ndarray elt * ndarray elt)) :
  hoare (both P J) (TimeDistributed._createIndexMap ix) (fun _ => True).
Proof.
  unfold TimeDistributed._createIndexMap.
  eapply hoare_bind; [apply hoare_this|]. intros td HP.
  destruct (TimeDistributed.both_defined _ _) eqn:Hb; [by apply hoare_ret|].
  assert (forall td' v, P td' -> P (TimeDistributed.with_rowIndexMaps v td')) by eauto.
  assert (forall td' v, P td' -> P (TimeDistributed.with_colIndexMaps v td')) by eauto.
  repeat hoare_step.
Qed.

Lemma wrapper_createOutputIndexMap (ix : option (ndarray elt * ndarray elt)) :
  hoare (both P J) (TimeDistributed._createOutputIndexMap ix) (fun _ => True).
Proof.
  unfold TimeDistributed._createOutputIndexMap.
  eapply hoare_bind; [apply hoare_this|]. intros td HP.
  destruct (TimeDistributed.both_defined _ _) eqn:Hb; [by apply hoare_ret|].
  assert (forall td' v, P td' -> P (TimeDistributed.with_outputRowIndexMaps v td')) by eauto.
  assert (forall td' v, P td' -> P (TimeDistributed.with_outputColIndexMaps v td')) by eauto.
  repeat hoare_step.
Qed.

Lemma wrapper_create_output (timesteps : option nat) :
  (forall td o, P td ->
     P (TimeDistributed.with_base (with_output o (TimeDistributed.base td)) td)) ->
  hoare (both P J) (TimeDistributed.create_output timesteps) (fun _ => True).
Proof.
  intros HP. unfold TimeDistributed.create_output, TimeDistributed.set_output.
  repeat first [ hoare_step | apply wrapper_createOutputIndexMap ].
Qed.

(** [P] may depend on the output only for wrappers that have one, taking
    a result off the device must be allowed for a wrapper without
    consumers, and an invocation of the wrapped layer keeps the
    invariant. *)
Context (P_output : forall td, P td -> output (TimeDistributed.base td) = None ->
           forall td' o, P td' ->
             P (TimeDistributed.with_base (with_output o (TimeDistributed.base td')) td')).
Context (P_terminal : forall td, P td -> length (outbound (TimeDistributed.base td)) = 0 ->
           forall ev, off_device ev = true -> ok ev).
Context (wrapped_callGPU_keeps : forall sl,
           hoare (both P J)
                 (TimeDistributed.invoke_wrapped MethodCallGPU sl (wrapped_callGPU sl))
                 (fun _ => True)).

Lemma wrapper_call_wrapped_on_slice :
  hoare (both P J) TimeDistributed.call_wrapped_on_slice (fun _ => True).
Proof.
  unfold TimeDistributed.call_wrapped_on_slice. repeat hoare_step.
  hoare_true. apply wrapped_callGPU_keeps.
Qed.

Lemma wrapper_compute (x : ref) :
  hoare (both P J) (TimeDistributed.compute x) (fun _ => True).
Proof.
  unfold TimeDistributed.compute.
  repeat first
    [ hoare_step
    | apply wrapper_select_slice
    | apply wrapper_write_slice
    | apply wrapper_create_slice
    | apply wrapper_createIndexMap
    | apply wrapper_call_wrapped_on_slice
    | hoare_true; apply wrapper_select_slice
    | hoare_true; apply wrapper_write_slice
    | hoare_true; apply wrapper_call_wrapped_on_slice ].
  apply wrapper_create_output. guards. eauto.
Qed.

Lemma wrapper_materialize :
  hoare (both P J) TimeDistributed.materialize (fun _ => True).
Proof. unfold TimeDistributed.materialize. repeat hoare_step. Qed.

Lemma wrapper_callGPU (x : ref) :
  hoare (both P J) (TimeDistributed._callGPU x) (fun _ => True).
Proof.
  unfold TimeDistributed._callGPU. eapply hoare_bind; [apply wrapper_compute|].
  intros _ _. apply wrapper_materialize.
Qed.

(** On the CPU path the output is assigned in every call. *)
Context (P_set_output : forall td o, P td ->
           P (TimeDistributed.with_base (with_output o (TimeDistributed.base td)) td)).
Context (wrapped_call_keeps : forall step,
           hoare (both P J)
                 (TimeDistributed.invoke_wrapped MethodCall step (wrapped_call step))
                 (fun _ => True)).

Lemma wrapper_callCPU (x : ref) :
  hoare (both P J) (TimeDistributed._callCPU x) (fun _ => True).
Proof.
  unfold TimeDistributed._callCPU, TimeDistributed.set_output.
  repeat first [ hoare_step | hoare_true; apply wrapped_call_keeps ].
Qed.

Lemma wrapper_call (x : ref) :
  hoare (both P J) (TimeDistributed.call x) (fun _ => True).
Proof.
  unfold TimeDistributed.call.
  eapply hoare_bind; [apply hoare_this|]. intros td _.
  eapply hoare_bind; [|intros _ _; repeat hoare_step].
  destruct (gpu _); [apply wrapper_callGPU|apply wrapper_callCPU].
Qed.

Lemma wrapper_calls (xs : list ref) (s : TimeDistributed.t (W:=W) * machine) :
  both P J s -> both P J (TimeDistributed.calls xs s).
Proof.
  revert s. induction xs as [|x xs IH]; intros s Hs; simpl; [done|].
  apply IH. by apply wrapper_call.
Qed.

End WrapperInvariant.

(** ** Rules for what holds on return *)

Section TripleRules.
Context {S : Type}.

Lemma bind_returned {A B : Type} (m : M S A) (f : A -> M S B) (s s' : S) (b : B) :
  bind m f s = (s', Returned b) ->
  exists s1 a, m s = (s1, Returned a) /\ f a s1 = (s', Returned b).
Proof. unfold bind. destruct (m s) as [s1 [a|e]]; [eauto|done]. Qed.

Lemma triple_weaken {A : Type} (Pre Pre' Post Post' : S -> Prop) (m : M S A) :
  triple Pre m Post -> (forall s, Pre' s -> Pre s) -> (forall s, Post s -> Post' s) ->
  triple Pre' m Post'.
Proof. intros Hm Hpre Hpost s s' a Hs Hrun. eauto. Qed.

(** The last computation of a sequence decides. *)
Lemma triple_bind_last {A B : Type} (Pre Post : S -> Prop) (m : M S A) (f : A -> M S B) :
  (forall a, triple (fun _ => True) (f a) Post) -> triple Pre (bind m f) Post.
Proof.
  intros Hf s s' b _ Hrun. apply bind_returned in Hrun as (s1 & a & _ & Hrun).
  by eapply Hf.
Qed.

Lemma triple_bind {A B : Type} (Pre Mid Post : S -> Prop) (m : M S A) (f : A -> M S B) :
  triple Pre m Mid -> (forall a, triple Mid (f a) Post) -> triple Pre (bind m f) Post.
Proof.
  intros Hm Hf s s' b Hs Hrun. apply bind_returned in Hrun as (s1 & a & Hrun1 & Hrun).
  eapply Hf; [|done]. by eapply Hm.
Qed.

(** Under an invariant, with what is known of the value passed on. *)
Lemma triple_bind_hoare {A B : Type} (I Post : S -> Prop) (Q : A -> Prop)
    (m : M S A) (f : A -> M S B) :
  hoare I m Q -> (forall a, Q a -> triple I (f a) Post) -> triple I (bind m f) Post.
Proof.
  intros Hm Hf s s' b Hs Hrun. apply bind_returned in Hrun as (s1 & a & Hrun1 & Hrun).
  destruct (Hm s Hs) as [HI HQ]. rewrite Hrun1 in HI, HQ. simpl in *.
  eapply Hf; [by apply HQ|done|done].
Qed.

Lemma triple_hoare {A : Type} (I : S -> Prop) (Q : A -> Prop) (m : M S A) :
  hoare I m Q -> triple I m I.
Proof. intros Hm s s' a Hs Hrun. destruct (Hm s Hs) as [HI _]. by rewrite Hrun in HI. Qed.

Lemma triple_when (Pre Post : S -> Prop) (b : bool) (m : M S unit) :
  (forall s, Pre s -> Post s) -> triple Pre m Post -> triple Pre (when b m) Post.
Proof.
  intros Himp Hm. destruct b; [done|]. intros s s' a Hs [= <- _]. by apply Himp.
Qed.

Lemma triple_for_each (Post : S -> Prop) (l : list nat) (body : nat -> M S unit) :
  (forall i, triple (fun _ => True) (body i) Post) -> triple Post (for_each l body) Post.
Proof.
  intros Hbody. induction l as [|i l IH]; simpl.
  - by intros s s' a Hs [= <- _].
  - eapply triple_bind; [|intros _; apply IH].
    eapply triple_weaken; [apply Hbody|done|done].
Qed.

End TripleRules.

Section Residency.
Context `{Env}.

Lemma runProgram_returned (p : option gl_program) (out : ref)
    (inputs : list (string * option texid)) (uniforms : list (string * option nat))
    (m m' : machine) (a : unit) :
  runProgram p out inputs uniforms m = (m', Returned a) ->
  heap m' = heap m /\ device_resident out m'.
Proof.
  unfold runProgram, bind, read, defined, gets, modify, emit, device_resident.
  destruct p as [p|]; simpl; [|done].
  destruct (heap m !! out) as [t|] eqn:Ht; simpl; [|done].
  destruct (glTexture t) as [id|] eqn:Hid; simpl; [|done].
  destruct (gpu_mem m !! id) as [tex|]; simpl; [|done].
  intros [= <-]. simpl. eauto.
Qed.

(** A program run on the output of the layer object [l] leaves it
    resident. *)
Lemma triple_runProgram_output {L : Type} (base : L -> Layer) (l : L)
    (p : option gl_program) (out : ref)
    (inputs : list (string * option texid)) (uniforms : list (string * option nat)) :
  output (base l) = Some out ->
  triple (both (fun l' => l' = l) (fun _ => True))
         (on_machine (runProgram p out inputs uniforms))
         (fun s => output_resident (base s.1) s.2).
Proof.
  intros Hout [l' m] s' a [Hl _]. simpl in Hl. subst l'. unfold on_machine, embed. simpl.
  destruct (runProgram _ _ _ _ m) as [m' r] eqn:Hrun. intros [= <- ->]. simpl.
  apply runProgram_returned in Hrun as [_ Hres]. by exists out.
Qed.

Lemma triple_this {L A : Type} (Pre : L * machine -> Prop) (Post : L * machine -> Prop)
    (f : L -> M (L * machine) A) :
  (forall l, triple (both (fun l' => l' = l) (fun _ => True)) (f l) Post) ->
  triple Pre (bind this f) Post.
Proof.
  intros Hf s s' b _ Hrun. apply bind_returned in Hrun as (s1 & l & [= <- <-] & Hrun).
  by eapply (Hf s.1).
Qed.

Lemma activation_compute_resident (x : ref) :
  triple (fun _ => True) (Activation.compute x)
         (fun s => output_resident (Activation.base s.1) s.2).
Proof.
  pose proof stable_trivial as Htriv.
  unfold Activation.compute.
  do 3 (apply triple_bind_last; intros ?).
  apply triple_this. intros layer.
  eapply triple_bind_hoare; [apply hoare_defined|]. intros out Hout. simpl in Hout.
  eapply triple_bind_hoare; [hoare_step|]. intros xt _.
  by apply (triple_runProgram_output Activation.base).
Qed.

Section Wrapper.
Context {W : Type} `{!LayerClass W}.

Lemma write_slice_resident (timesteps : option nat) (i : nat) :
  triple (fun _ => True) (TimeDistributed.write_slice (W:=W) timesteps i)
         (fun s => output_resident (TimeDistributed.base s.1) s.2).
Proof.
  pose proof stable_trivial as Htriv.
  unfold TimeDistributed.write_slice, TimeDistributed.field_texture,
    TimeDistributed.map_texture.
  do 5 (apply triple_bind_last; intros ?).
  apply triple_this. intros td.
  eapply triple_bind_hoare; [apply hoare_defined|]. intros inputShape _.
  eapply triple_bind_hoare; [apply hoare_defined|]. intros out Hout. simpl in Hout.
  do 4 (eapply triple_bind_hoare; [solve [repeat hoare_step]|]; intros ? _).
  case_bool_decide.
  - by apply (triple_runProgram_output TimeDistributed.base).
  - do 2 (eapply triple_bind_hoare; [solve [repeat hoare_step]|]; intros ? _).
    by apply (triple_runProgram_output TimeDistributed.base).
Qed.

Lemma wrapper_compute_resident (x : ref) :
  triple (fun _ => True) (TimeDistributed.compute (W:=W) x)
         (fun s => output_resident (TimeDistributed.base s.1) s.2).
Proof.
  unfold TimeDistributed.compute.
  do 13 (apply triple_bind_last; intros ?).
  eapply triple_bind; [apply write_slice_resident|]. intros _.
  apply triple_for_each. intros i.
  do 2 (apply triple_bind_last; intros ?).
  apply write_slice_resident.
Qed.

End Wrapper.

End Residency.

(** ** The transfer from the device *)

Section Materialize.
Context `{Env}.

Lemma product_flat_shape (one_d : bool) (sh : list nat) :
  product (flat_shape one_d sh) = product sh.
Proof.
  destruct one_d, sh as [|[|[|n]] rest]; simpl; try done; lia.
Qed.

Lemma length_read_range (ty : array_type) (off n : nat) (d : list elt) :
  length (read_range ty off n d) = n.
Proof. unfold read_range. by rewrite length_fmap, length_seq. Qed.

(** What a transfer followed by the inverse reshape of a reshaped tensor
    does to the machine when both return. *)
Lemma transfer_and_undo (undo_op : ref -> M machine unit) (undo : ref -> event)
    (out : ref) (m m' : machine) :
  (forall r mc, undo_op r mc =
     (t <- read r ;; t' <- unreshape t ;; write r t' ;;; emit (undo r)) mc) ->
  (transferFromGLTexture out ;;; ot <- read out ;;
   when (is2DReshaped ot) (undo_op out)) m = (m', Returned tt) ->
  exists t, heap m' !! out = Some t /\ flat_and_logical t /\
    trace m' = trace m ++ EvTransferFromGLTexture out ::
                          (if is2DReshaped t then [undo out] else []).
Proof.
  intros Hundo.
  unfold transferFromGLTexture, bind, read, defined, gets, write, modify, emit.
  destruct (heap m !! out) as [t|] eqn:Hout; simpl; [|done].
  destruct (glTexture t) as [id|]; simpl; [|done].
  destruct (glTextureShape t) as [sh|] eqn:Hsh; simpl; [|done].
  destruct (gpu_mem m !! id) as [tex|]; simpl; [|done].
  apply lookup_lt_Some in Hout as Hlt.
  rewrite list_lookup_insert_eq by done. simpl.
  destruct (is2DReshaped t) eqn:Hre; simpl.
  - rewrite Hundo. unfold unreshape, bind, read, defined, write, modify, emit. simpl.
    rewrite list_lookup_insert_eq by done. simpl. rewrite Hre.
    destruct (originalShape t) as [os|] eqn:Hos; simpl; [|done].
    intros [= <-]. simpl. eexists. split.
    { apply list_lookup_insert_eq. by rewrite length_insert. }
    simpl. rewrite Hre. split.
    + split; simpl; [|by rewrite length_read_range].
      unfold logical_shape. simpl. by rewrite Hre.
    + by rewrite <- app_assoc.
  - intros [= <-]. simpl. eexists. split; [by apply list_lookup_insert_eq|].
    simpl. rewrite Hre. split; [|done].
    split; simpl.
    + unfold logical_shape. simpl. by rewrite Hre, Hsh.
    + by rewrite length_read_range, product_flat_shape.
Qed.

Lemma activation_materialize_returned (a : Activation.t) (m : machine)
    (s' : Activation.t * machine) :
  Activation.materialize (a, m) = (s', Returned tt) ->
  s'.1 = a /\
  (length (outbound (Activation.base a)) <> 0 -> s'.2 = m) /\
  (length (outbound (Activation.base a)) = 0 ->
     exists o t, output (Activation.base a) = Some o /\ heap s'.2 !! o = Some t /\
       flat_unless_reshaped t /\
       trace s'.2 = trace m ++ EvTransferFromGLTexture o ::
                              (if is2DReshaped t then [EvReshapeFrom2D o] else [])).
Proof.
  unfold Activation.materialize. unfold bind at 1. unfold this, gets. simpl.
  case_bool_decide as Hlen; simpl.
  - unfold bind at 1. unfold defined.
    destruct (output (Activation.base a)) as [out|] eqn:Hout; simpl; [|done].
    intros Hrun.
    assert (exists m', s' = (a, m') /\
              (transferFromGLTexture out ;;; ot <- read out ;;
               when (is2DReshaped ot) (reshapeFrom2D out)) m = (m', Returned tt))
      as (m' & -> & Hm).
    { revert Hrun. unfold bind, on_machine, embed. simpl.
      destruct (transferFromGLTexture out m) as [m1 [[]|e]]; simpl; [|done].
      destruct (read out m1) as [m2 [ot|e]]; simpl; [|done].
      destruct (is2DReshaped ot); simpl.
      - destruct (reshapeFrom2D out m2) as [m3 [[]|e]]; simpl; [|done].
        intros [= <-]. eauto.
      - intros [= <-]. eauto. }
    simpl. split; [done|]. split; [done|]. intros _.
    exists out. revert Hm.
    unfold transferFromGLTexture, bind, read, defined, gets, write, modify, emit.
    destruct (heap m !! out) as [t|] eqn:Hlook; simpl; [|done].
    destruct (glTexture t) as [id|]; simpl; [|done].
    destruct (glTextureShape t) as [sh|] eqn:Hsh; simpl; [|done].
    destruct (gpu_mem m !! id) as [tex|]; simpl; [|done].
    apply lookup_lt_Some in Hlook as Hlt.
    rewrite list_lookup_insert_eq by done. simpl.
    destruct (is2DReshaped t) eqn:Hre; simpl.
    + unfold reshapeFrom2D, bind, read, defined, write, modify, emit. simpl.
      rewrite list_lookup_insert_eq by done. simpl.
      destruct (reshape_from_2d _ _ _ _) as [arr|]; simpl; [|done].
      intros [= <-]. simpl. eexists. split; [done|]. split.
      { apply list_lookup_insert_eq. by rewrite length_insert. }
      unfold flat_unless_reshaped. simpl. rewrite Hre.
      split; [done|]. by rewrite <- app_assoc.
    + intros [= <-]. simpl. eexists. split; [done|].
      split; [by apply list_lookup_insert_eq|].
      unfold flat_unless_reshaped. simpl. rewrite Hre. split; [|done].
      intros _. split; simpl.
      * unfold logical_shape. simpl. by rewrite Hre, Hsh.
      * by rewrite length_read_range, product_flat_shape.
  - intros [= <-]. simpl. split; [done|]. split; [done|]. done.
Qed.

Lemma wrapper_materialize_returned {W : Type} `{!LayerClass W}
    (td : TimeDistributed.t (W:=W)) (m : machine) (s' : TimeDistributed.t * machine) :
  TimeDistributed.materialize (td, m) = (s', Returned tt) ->
  s'.1 = td /\
  (length (outbound (TimeDistributed.base td)) <> 0 -> s'.2 = m) /\
  (length (outbound (TimeDistributed.base td)) = 0 ->
     exists o t, output (TimeDistributed.base td) = Some o /\ heap s'.2 !! o = Some t /\
       flat_and_logical t /\
       trace s'.2 = trace m ++ EvTransferFromGLTexture o ::
                              (if is2DReshaped t then [EvReshapeFrom2DSquare o] else [])).
Proof.
  unfold TimeDistributed.materialize. unfold bind at 1. unfold this, gets. simpl.
  case_bool_decide as Hlen; simpl.
  - unfold bind at 1. unfold defined.
    destruct (output (TimeDistributed.base td)) as [out|] eqn:Hout; simpl; [|done].
    intros Hrun.
    assert (exists m', s' = (td, m') /\
              (transferFromGLTexture out ;;; ot <- read out ;;
               when (is2DReshaped ot) (reshapeFrom2DSquare out)) m = (m', Returned tt))
      as (m' & -> & Hm).
    { revert Hrun. unfold bind, on_machine, embed. simpl.
      destruct (transferFromGLTexture out m) as [m1 [[]|e]]; simpl; [|done].
      destruct (read out m1) as [m2 [ot|e]]; simpl; [|done].
      destruct (is2DReshaped ot); simpl.
      - destruct (reshapeFrom2DSquare out m2) as [m3 [[]|e]]; simpl; [|done].
        intros [= <-]. eauto.
      - intros [= <-]. eauto. }
    simpl. split; [done|]. split; [done|]. intros _.
    apply (transfer_and_undo reshapeFrom2DSquare EvReshapeFrom2DSquare) in Hm
      as (t & ? & ? & ?); [|done].
    by exists out, t.
  - intros [= <-]. simpl. split; [done|]. split; [done|]. done.
Qed.

End Materialize.

(** ** Stores into typed arrays *)

Section Blit.
Context `{Env}.

Lemma length_blit (vals : list elt) (off : nat) (d : list elt) :
  length (blit off vals d) = length d.
Proof.
  revert off d. induction vals as [|v vals IH]; intros off d; simpl; [done|].
  by rewrite IH, length_insert.
Qed.

Lemma blit_lookup (vals : list elt) (off : nat) (d : list elt) (j : nat) :
  blit off vals d !! j =
  if decide (off <= j < off + length vals /\ j < length d)
  then vals !! (j - off) else d !! j.
Proof.
  revert off d. induction vals as [|v vals IH]; intros off d; simpl.
  - case_decide; [lia|done].
  - rewrite IH, length_insert.
    destruct (decide (j = off)) as [->|Hne].
    + rewrite decide_False by lia.
      case_decide.
      * rewrite Nat.sub_diag. simpl. apply list_lookup_insert_eq. lia.
      * rewrite list_insert_ge by lia. done.
    + rewrite list_lookup_insert_ne by done.
      case_decide; case_decide; try lia; [|done].
      by replace (j - off) with (S (j - S off)) by lia.
Qed.

Lemma read_range_ext (ty : array_type) (off n : nat) (d d' : list elt) :
  (forall k, k < n -> d !! (off + k) = d' !! (off + k)) ->
  read_range ty off n d = read_range ty off n d'.
Proof.
  intros Hext. unfold read_range. apply list_eq. intros i.
  rewrite !list_lookup_fmap.
  destruct (seq 0 n !! i) as [k|] eqn:Hk; simpl; [|done].
  apply lookup_seq in Hk as [-> Hlt]. simpl. by rewrite Hext.
Qed.

Lemma read_range_exact (ty : array_type) (d : list elt) :
  read_range ty 0 (length d) d = d.
Proof.
  unfold read_range. apply list_eq. intros i. rewrite list_lookup_fmap.
  destruct (decide (i < length d)) as [Hlt|Hge].
  - rewrite lookup_seq_lt by done. simpl.
    destruct (d !! i) eqn:Hi; [done|]. apply lookup_ge_None in Hi. lia.
  - rewrite lookup_seq_ge by lia. simpl. symmetry. apply lookup_ge_None. lia.
Qed.

(** A store that fits is read back as it was stored. *)
Lemma read_range_blit_same (ty : array_type) (off : nat) (vals d : list elt) :
  off + length vals <= length d ->
  read_range ty off (length vals) (blit off vals d) = vals.
Proof.
  intros Hfit. trans (read_range ty 0 (length vals) vals); [|apply read_range_exact].
  unfold read_range. apply list_eq. intros i. rewrite !list_lookup_fmap.
  destruct (seq 0 (length vals) !! i) as [k|] eqn:Hk; simpl; [|done].
  apply lookup_seq in Hk as [-> Hlt]. simpl.
  rewrite blit_lookup, decide_True by lia. by replace (off + i - off) with i by lia.
Qed.

(** A store leaves the ranges it does not meet as they were. *)
Lemma read_range_blit_other (ty : array_type) (off off' n : nat) (vals d : list elt) :
  off' + n <= off \/ off + length vals <= off' ->
  read_range ty off' n (blit off vals d) = read_range ty off' n d.
Proof.
  intros Hapart. apply read_range_ext. intros k Hk.
  rewrite blit_lookup, decide_False by lia. done.
Qed.

Lemma blit_whole (vals d : list elt) : length vals = length d -> blit 0 vals d = vals.
Proof.
  intros Hlen. apply list_eq. intros j. rewrite blit_lookup.
  case_decide as Hin; [by rewrite Nat.sub_0_r|].
  rewrite !(proj2 (lookup_ge_None _ _)); [done|lia|lia].
Qed.

End Blit.

(** ** The Activation layer *)

Section ActivationProperties.
Context `{Env}.

Lemma call_linear (a : Activation.t) (m : machine) (x : ref) :
  Activation.activation a = "linear" ->
  Activation.call x (a, m) = ((Activation.with_out (Some x) a, m), Returned (Some x)).
Proof.
  intros Hlin. unfold Activation.call, bind, this, gets. simpl.
  destruct (decide (Activation.activation a = "linear")) as [_|Hne]; [|done].
  reflexivity.
Qed.

(** The buffer that [new Tensor(data, shape)] holds. *)
Lemma call_cpu (a : Activation.t) (m : machine) (x : ref) (xt : Tensor)
    (f : ndarray elt -> ndarray elt) :
  gpu (Activation.base a) = false ->
  Activation.activation a <> "linear" ->
  Activation.activationFunc a = Some f ->
  heap m !! x = Some xt ->
  let o := length (heap m) in
  let buf := match data (tensor xt) with
             | [] => zeros (product (shape (tensor xt)))
             | _ => data (tensor xt)
             end in
  let out := mkTensor (f (NDArray buf (shape (tensor xt)))) Float32Array
                      None None false false None None in
  Activation.call x (a, m)
  = ((Activation.with_out (Some o) a,
      Machine (heap m ++ [out]) (gpu_mem m)
              (trace m ++ [EvNewTensor o; EvActivationFunc (Activation.activation a) o])),
     Returned (Some o)).
Proof.
  intros Hcpu Hne Hf Hx o buf out.
  unfold Activation.call, bind, this, gets. simpl.
  destruct (decide (Activation.activation a = "linear")) as [|_]; [done|].
  rewrite Hcpu.
  unfold Activation._callCPU, Activation.set_output, set_this, new_Tensor, emit, update,
    write, modify, bind, this, gets, on_machine, embed, read, defined, ret. simpl.
  rewrite Hx. simpl. rewrite Hf. simpl.
  rewrite lookup_snoc. simpl.
  rewrite insert_snoc. rewrite <- !app_assoc. reflexivity.
Qed.

(** C4. Calling an Activation layer whose activation is 'linear' returns
    the reference it was given, that is the very same Tensor object, on the
    CPU and on the device path alike: the machine after the call is the
    machine before it, so no tensor was allocated (the heap is the same),
    no tensor was modified, and no operation was performed (the trace is
    the same); the only effect is that [this.output] now is [x]. *)
Theorem linear_call_returns_input (a : Activation.t) (m : machine) (x : ref) :
  Activation.activation a = "linear" ->
  Activation.call x (a, m) = ((Activation.with_out (Some x) a, m), Returned (Some x)).
Proof. apply call_linear. Qed.

(** C10. An Activation layer constructed from a configuration without an
    activation name is the 'linear' variant: on the CPU path the
    construction succeeds without touching the machine, and whenever the
    construction succeeds (on the device path the shader of 'linear' has
    to be found) every call returns the reference it was given and leaves
    the machine as it was. *)
Theorem default_activation_is_passthrough (cfg : attrs) (m : machine) :
  attr_activation cfg = None ->
  (attr_gpu cfg = false -> exists a, Activation.constructor cfg m = (m, Returned a)) /\
  (forall m' a, Activation.constructor cfg m = (m', Returned a) ->
     Activation.activation a = "linear" /\
     forall x m1, Activation.call x (a, m1)
                  = ((Activation.with_out (Some x) a, m1), Returned (Some x))).
Proof.
  intros Hnone. unfold Activation.constructor. rewrite Hnone. simpl. split.
  - intros Hg. rewrite Hg. eexists. reflexivity.
  - intros m' a Hc.
    assert (Activation.activation a = "linear") as Hlin.
    { destruct (attr_gpu cfg).
      - unfold bind, require_activation_glsl, compileProgram, emit, modify, ret, throw in Hc.
        destruct (shader_exists "linear"); simpl in Hc; [|by inversion Hc].
        destruct (compiles _); simpl in Hc; by inversion Hc.
      - by inversion Hc. }
    split; [done|]. intros x m1. by apply call_linear.
Qed.

(** C3 (as amended). The constructor of an Activation layer does not
    check the name against the catalog and never raises a
    ConfigurationError.  With a name that the catalog does not have, the
    construction on the CPU path succeeds and leaves the activation
    function undefined; the failure comes with the first call of a name
    other than 'linear', as the TypeError of calling [undefined]. *)
Theorem unknown_activation_fails_at_call (cfg : attrs) (m : machine) (name : string) :
  attr_activation cfg = Some name ->
  activations name = None ->
  (attr_gpu cfg = false ->
     exists a, Activation.constructor cfg m = (m, Returned a) /\
       Activation.activation a = name /\ Activation.activationFunc a = None /\
       (name <> "linear" -> forall m1 x xt, heap m1 !! x = Some xt ->
          (Activation.call x (a, m1)).2 = Thrown (TypeError "activationFunc"))) /\
  (forall m' msg, Activation.constructor cfg m <> (m', Thrown (ConfigurationError msg))).
Proof.
  intros Hname Hcat. unfold Activation.constructor. rewrite Hname. simpl. split.
  - intros Hg. rewrite Hg. eexists. split; [reflexivity|]. rewrite Hcat. simpl.
    split; [done|]. split; [done|]. intros Hne m1 x xt Hx.
    unfold Activation.call, bind, this, gets. simpl.
    destruct (decide (name = "linear")) as [|_]; [done|]. rewrite Hg.
    unfold Activation._callCPU, bind, on_machine, embed, read, defined. simpl.
    rewrite Hx. reflexivity.
  - intros m' msg. destruct (attr_gpu cfg); [|done].
    unfold bind, require_activation_glsl, compileProgram, emit, modify, ret, throw.
    destruct (shader_exists name); simpl; [|done].
    by destruct (compiles _).
Qed.

(** C7. On the CPU path a call of a layer with a non-linear activation of
    the catalog allocates one new Tensor, whose buffer is the function
    applied to a copy of the data of [x] with the shape of [x], and
    returns it; the heap is the old heap followed by that tensor, so [x]
    and every other tensor are as they were. *)
Theorem cpu_call_works_on_a_copy (a : Activation.t) (m : machine) (x : ref) (xt : Tensor)
    (f : ndarray elt -> ndarray elt) :
  gpu (Activation.base a) = false ->
  Activation.activation a <> "linear" ->
  Activation.activationFunc a = Some f ->
  heap m !! x = Some xt ->
  length (data (tensor xt)) = product (shape (tensor xt)) ->
  let o := length (heap m) in
  let copy := NDArray (data (tensor xt)) (shape (tensor xt)) in
  let out := mkTensor (f copy) Float32Array None None false false None None in
  Activation.call x (a, m)
  = ((Activation.with_out (Some o) a,
      Machine (heap m ++ [out]) (gpu_mem m)
              (trace m ++ [EvNewTensor o; EvActivationFunc (Activation.activation a) o])),
     Returned (Some o))
  /\ o <> x
  /\ (heap m ++ [out]) !! x = Some xt.
Proof.
  intros Hcpu Hne Hf Hx Hwf o copy out. split; [|split].
  - rewrite (call_cpu a m x xt f) by done.
    assert (match data (tensor xt) with
            | [] => zeros (product (shape (tensor xt)))
            | _ :: _ => data (tensor xt)
            end = data (tensor xt)) as ->; [|done].
    destruct (data (tensor xt)) eqn:Hd; [|done].
    simpl in Hwf. by rewrite <- Hwf.
  - apply lookup_lt_Some in Hx. unfold o. lia.
  - by apply lookup_app_l_Some.
Qed.

End ActivationProperties.

(** ** The TimeDistributed wrapper: construction *)

Section WrapperConstruction.
Context `{Env} {W : Type} `{!LayerClass W}.

(** C9. Without a [layer] entry in the configuration the constructor of
    the wrapper raises the ConfigurationError "wrapped layer is
    undefined." before anything else happens: the machine is untouched, so
    no wrapped layer was looked up or constructed.  With a [layer] entry
    the check passes: a ConfigurationError can then only be one that the
    constructor of the wrapped layer raised itself. *)
Theorem missing_wrapped_layer_is_refused (cfg : attrs) (m : machine) :
  (attr_layer cfg = None ->
     TimeDistributed.constructor (W:=W) cfg m
     = (m, Thrown (ConfigurationError "wrapped layer is undefined."))) /\
  (forall class_name config, attr_layer cfg = Some (class_name, config) ->
     forall m' msg,
       TimeDistributed.constructor (W:=W) cfg m = (m', Thrown (ConfigurationError msg)) ->
       exists ctor, layers class_name = Some ctor /\
         ctor (Attrs (attr_gpu cfg) (attr_outboundCount config) (attr_activation config)
                     (attr_layer config)) m
         = (m', Thrown (ConfigurationError msg))).
Proof.
  unfold TimeDistributed.constructor. split.
  - intros ->. reflexivity.
  - intros class_name config -> m' msg. unfold bind, defined.
    destruct (layers class_name) as [ctor|]; simpl; [|done].
    destruct (ctor _ m) as [m1 [w|e]] eqn:Hctor.
    + destruct (attr_gpu cfg); simpl; [|done].
      unfold compileProgram, bind.
      repeat (destruct (compiles _); simpl; [|done]). done.
    + intros [= -> ->]. by exists ctor.
Qed.

End WrapperConstruction.

(** ** The TimeDistributed wrapper: index maps *)

Section WrapperIndexMaps.
Context `{Env} {W : Type} `{!LayerClass W}.

Lemma invoke_wrapped_keeps_fields {A : Type} (meth : method) (arg : ref)
    (m : M (W * machine) A) (P : TimeDistributed.t (W:=W) -> Prop) :
  (forall td w, P td -> P (TimeDistributed.with_wrappedLayer w td)) ->
  hoare (both P (fun _ => True)) (TimeDistributed.invoke_wrapped meth arg m) (fun _ => True).
Proof.
  intros HP.
  apply (hoare_invoke_wrapped meth arg m (fun _ => True) (fun _ => True)); [|done|].
  - apply hoare_anything.
  - intros td mc w' mc' held HPtd _ _ _. split; [by apply HP|done].
Qed.

Lemma calls_keep_fields (P : TimeDistributed.t (W:=W) -> Prop) (xs : list ref)
    (s : TimeDistributed.t (W:=W) * machine) :
  (forall td v, P td -> P (TimeDistributed.with_inputShape v td)) ->
  (forall td v, P td -> P (TimeDistributed.with_outputShape v td)) ->
  (forall td v, P td -> P (TimeDistributed.with_slice v td)) ->
  (forall td v, P td -> P (TimeDistributed.with_sliceOutput v td)) ->
  (forall td v, P td -> P (TimeDistributed.with_outputCopy v td)) ->
  (forall td w, P td -> P (TimeDistributed.with_wrappedLayer w td)) ->
  (forall td o, P td ->
     P (TimeDistributed.with_base (with_output o (TimeDistributed.base td)) td)) ->
  (forall td, P td ->
     TimeDistributed.both_defined (TimeDistributed.rowIndexMaps td)
                                  (TimeDistributed.colIndexMaps td) = false ->
     forall td' v, P td' -> P (TimeDistributed.with_rowIndexMaps v td') /\
                            P (TimeDistributed.with_colIndexMaps v td')) ->
  (forall td, P td ->
     TimeDistributed.both_defined (TimeDistributed.outputRowIndexMaps td)
                                  (TimeDistributed.outputColIndexMaps td) = false ->
     forall td' v, P td' -> P (TimeDistributed.with_outputRowIndexMaps v td') /\
                            P (TimeDistributed.with_outputColIndexMaps v td')) ->
  P s.1 -> P (TimeDistributed.calls xs s).1.
Proof.
  intros H1 H2 H3 H4 H5 H6 H7 H8 H9 HP.
  eapply (wrapper_calls (fun _ => True) (fun _ => True) (fun _ => True) stable_trivial
            (fun _ _ => I) P); try done.
  - intros td Htd Hb td' v Htd'. by apply (H8 td).
  - intros td Htd Hb td' v Htd'. by apply (H8 td).
  - intros td Htd Hb td' v Htd'. by apply (H9 td).
  - intros td Htd Hb td' v Htd'. by apply (H9 td).
  - intros sl. by apply invoke_wrapped_keeps_fields.
  - intros sl. by apply invoke_wrapped_keeps_fields.
Qed.

(** C8. Once the row and the column index maps of the input side exist,
    the builder returns at once without touching the state, and after any
    sequence of calls of the wrapper (whether they return or throw) the
    two collections are the ones that existed; the same holds for the two
    collections of the output side. *)
Theorem index_maps_are_built_once (s : TimeDistributed.t (W:=W) * machine) (xs : list ref) :
  (forall rows cols,
     TimeDistributed.rowIndexMaps s.1 = Some rows ->
     TimeDistributed.colIndexMaps s.1 = Some cols ->
     (forall ix, TimeDistributed._createIndexMap ix s = (s, Returned tt)) /\
     TimeDistributed.rowIndexMaps (TimeDistributed.calls xs s).1 = Some rows /\
     TimeDistributed.colIndexMaps (TimeDistributed.calls xs s).1 = Some cols) /\
  (forall rows cols,
     TimeDistributed.outputRowIndexMaps s.1 = Some rows ->
     TimeDistributed.outputColIndexMaps s.1 = Some cols ->
     (forall ix, TimeDistributed._createOutputIndexMap ix s = (s, Returned tt)) /\
     TimeDistributed.outputRowIndexMaps (TimeDistributed.calls xs s).1 = Some rows /\
     TimeDistributed.outputColIndexMaps (TimeDistributed.calls xs s).1 = Some cols).
Proof.
  split; intros rows cols Hrows Hcols; split.
  - intros ix. unfold TimeDistributed._createIndexMap, bind, this, gets. simpl.
    rewrite Hrows, Hcols. by destruct s.
  - apply (calls_keep_fields
             (fun td => TimeDistributed.rowIndexMaps td = Some rows /\
                        TimeDistributed.colIndexMaps td = Some cols)); try done.
    + intros td Htd Hb. destruct Htd as [Hr Hc]. by rewrite Hr, Hc in Hb.
  - intros ix. unfold TimeDistributed._createOutputIndexMap, bind, this, gets. simpl.
    rewrite Hrows, Hcols. by destruct s.
  - apply (calls_keep_fields
             (fun td => TimeDistributed.outputRowIndexMaps td = Some rows /\
                        TimeDistributed.outputColIndexMaps td = Some cols)); try done.
    + intros td Htd Hb. destruct Htd as [Hr Hc]. by rewrite Hr, Hc in Hb.
Qed.

End WrapperIndexMaps.

(** ** The device path of both layers *)

Section DevicePath.
Context `{Env}.

Lemma activation_compute_on_device (x : ref) (a : Activation.t) (m : machine)
    (s1 : Activation.t * machine) (r : outcome unit) :
  Activation.compute x (a, m) = (s1, r) ->
  outbound (Activation.base s1.1) = outbound (Activation.base a) /\
  extends_by on_device (trace m) s1.2.
Proof.
  intros Hrun.
  pose proof (activation_compute on_device (fun _ => True) (extends_by on_device (trace m))
                (stable_extends_by _ _) basic_on_device
                (fun a' => outbound (Activation.base a') = outbound (Activation.base a))) as Hc.
  destruct (Hc ltac:(done) x (a, m)) as [[HP HJ] _].
  { split; [done|]. exists []. by rewrite app_nil_r. }
  by rewrite Hrun in HP, HJ.
Qed.

Lemma wrapper_compute_on_device {W : Type} `{!LayerClass W} (x : ref)
    (td : TimeDistributed.t (W:=W)) (m : machine)
    (s1 : TimeDistributed.t * machine) (r : outcome unit) :
  TimeDistributed.compute x (td, m) = (s1, r) ->
  outbound (TimeDistributed.base s1.1) = outbound (TimeDistributed.base td) /\
  extends_by on_device (trace m) s1.2.
Proof.
  intros Hrun.
  pose proof (wrapper_compute on_device (fun _ => True) (extends_by on_device (trace m))
                (stable_extends_by _ _) basic_on_device
                (fun td' => outbound (TimeDistributed.base td')
                            = outbound (TimeDistributed.base td))) as Hc.
  destruct (Hc ltac:(done) ltac:(done) ltac:(done) ltac:(done) ltac:(done)
               ltac:(done) ltac:(done) ltac:(done) ltac:(done) ltac:(done)) with (x:=x) (s:=(td, m))
    as [[HP HJ] _].
  { intros sl.
    apply (hoare_invoke_wrapped _ _ _ (fun _ => True) (fun _ => True)); [|done|].
    - apply hoare_anything.
    - intros td0 mc w' mc' held HP (evs & Htr & Hall) _ _. split; [done|].
      exists (evs ++ [EvWrapped MethodCallGPU sl held (trace mc')]). simpl. split.
      + by rewrite Htr, app_assoc.
      + apply Forall_app. split; [done|]. by apply Forall_singleton. }
  { split; [done|]. exists []. by rewrite app_nil_r. }
  by rewrite Hrun in HP, HJ.
Qed.

(** On the device path a call of a layer whose activation is not 'linear'
    is [_callGPU], and what it returns is [this.output]. *)
Lemma activation_call_on_device (a : Activation.t) (m : machine) (x : ref)
    (s' : Activation.t * machine) (r : option ref) :
  gpu (Activation.base a) = true ->
  Activation.activation a <> "linear" ->
  Activation.call x (a, m) = (s', Returned r) ->
  Activation._callGPU x (a, m) = (s', Returned tt) /\ r = output (Activation.base s'.1).
Proof.
  intros Hgpu Hne. unfold Activation.call, bind, this, gets. simpl.
  destruct (decide (Activation.activation a = "linear")) as [|_]; [done|].
  rewrite Hgpu.
  destruct (Activation._callGPU x (a, m)) as [s1 [[]|e]]; simpl; [|done].
  by intros [= <- <-].
Qed.

Lemma wrapper_call_on_device {W : Type} `{!LayerClass W}
    (td : TimeDistributed.t (W:=W)) (m : machine) (x : ref)
    (s' : TimeDistributed.t * machine) (r : option ref) :
  gpu (TimeDistributed.base td) = true ->
  TimeDistributed.call x (td, m) = (s', Returned r) ->
  TimeDistributed._callGPU x (td, m) = (s', Returned tt) /\
  r = output (TimeDistributed.base s'.1).
Proof.
  intros Hgpu. unfold TimeDistributed.call, bind, this, gets. simpl.
  rewrite Hgpu.
  destruct (TimeDistributed._callGPU x (td, m)) as [s1 [[]|e]]; simpl; [|done].
  by intros [= <- <-].
Qed.

(** C2 (as amended). For an Activation layer on the device path whose
    activation is not 'linear', and for the wrapper on the device path
    (around any layer), every [call] that returns has returned
    [this.output], and the operations it recorded are all operations on
    the device, followed, exactly when the list of consumers is empty, by
    the transfer of the output from its texture and, when the output is
    reshaped, by [reshapeFrom2D] (Activation) or [reshapeFrom2DSquare]
    (wrapper) on it.  With no consumers the output of the wrapper then
    holds its flat buffer in its logical shape, and so does an output of
    the Activation layer that is not reshaped; with consumers nothing is
    transferred or reshaped back and the output is resident on the
    device. *)
Theorem device_path_materializes_iff_terminal {W : Type} `{!LayerClass W} :
  (forall (a : Activation.t) (m : machine) (x : ref) (s' : Activation.t * machine)
          (r : option ref),
     gpu (Activation.base a) = true ->
     Activation.activation a <> "linear" ->
     Activation.call x (a, m) = (s', Returned r) ->
     r = output (Activation.base s'.1) /\
     terminal_policy EvReshapeFrom2D flat_unless_reshaped
                     (Activation.base a) (Activation.base s'.1) m s'.2) /\
  (forall (td : TimeDistributed.t (W:=W)) (m : machine) (x : ref)
          (s' : TimeDistributed.t * machine) (r : option ref),
     gpu (TimeDistributed.base td) = true ->
     TimeDistributed.call x (td, m) = (s', Returned r) ->
     r = output (TimeDistributed.base s'.1) /\
     terminal_policy EvReshapeFrom2DSquare flat_and_logical
                     (TimeDistributed.base td) (TimeDistributed.base s'.1) m s'.2).
Proof.
  split.
  - intros a m x s' r Hgpu Hne Hcall.
    apply activation_call_on_device in Hcall as [Hrun ->]; [|done|done].
    split; [done|]. unfold Activation._callGPU in Hrun.
    apply bind_returned in Hrun as ([a1 m1] & [] & Hcomp & Hmat).
    destruct (activation_compute_on_device _ _ _ _ _ Hcomp) as [Hob (evs & Htr & Hon)].
    destruct (activation_compute_resident x (a, m) (a1, m1) tt I Hcomp) as (o & Hout & Hres).
    apply activation_materialize_returned in Hmat as (Hl & Hnon & Hterm).
    simpl in *. rewrite Hob in Hnon, Hterm. rewrite Hl.
    exists o, evs. split; [done|]. split; [done|]. split.
    + intros Hlen. destruct (Hterm Hlen) as (o' & t & Hout' & Hlook & Hflat & Htr').
      assert (o' = o) as -> by congruence.
      exists t. split; [done|]. split; [done|]. by rewrite Htr', Htr, <- app_assoc.
    + intros Hlen. by rewrite (Hnon Hlen).
  - intros td m x s' r Hgpu Hcall.
    apply wrapper_call_on_device in Hcall as [Hrun ->]; [|done].
    split; [done|]. unfold TimeDistributed._callGPU in Hrun.
    apply bind_returned in Hrun as ([td1 m1] & [] & Hcomp & Hmat).
    destruct (wrapper_compute_on_device _ _ _ _ _ Hcomp) as [Hob (evs & Htr & Hon)].
    destruct (wrapper_compute_resident x (td, m) (td1, m1) tt I Hcomp) as (o & Hout & Hres).
    apply wrapper_materialize_returned in Hmat as (Hl & Hnon & Hterm).
    simpl in *. rewrite Hob in Hnon, Hterm. rewrite Hl.
    exists o, evs. split; [done|]. split; [done|]. split.
    + intros Hlen. destruct (Hterm Hlen) as (o' & t & Hout' & Hlook & Hflat & Htr').
      assert (o' = o) as -> by congruence.
      exists t. split; [done|]. split; [done|]. by rewrite Htr', Htr, <- app_assoc.
    + intros Hlen. by rewrite (Hnon Hlen).
Qed.

Lemma resident_has_texture (o : ref) (m : machine) :
  device_resident o m -> exists id, has_texture (length (heap m)) o id m.
Proof.
  intros (t & id & Hlook & Htex). exists id. split; [done|].
  split; [by eapply lookup_lt_Some|]. eauto.
Qed.

Lemma activation_keeps_texture (n : nat) (o : ref) (id : texid) (x : ref) :
  hoare (both (fun a => output (Activation.base a) = Some o) (has_texture n o id))
        (Activation._callGPU x) (fun _ => True) /\
  hoare (both (fun a => output (Activation.base a) = Some o) (has_texture n o id))
        Activation.materialize (fun _ => True) /\
  hoare (both (fun _ => True) (has_texture n o id)) (Activation._callGPU x) (fun _ => True).
Proof.
  split; [|split].
  - apply (activation_callGPU (fun _ => True) _ _ (stable_has_texture n o id)); try done.
    intros a Ha Hnone. congruence.
  - by apply (activation_materialize (fun _ => True) _ _ (stable_has_texture n o id)).
  - by apply (activation_callGPU (fun _ => True) _ _ (stable_has_texture n o id)).
Qed.

Lemma wrapper_keeps_texture (n : nat) (o : ref) (id : texid) (x : ref) :
  let P := fun td : TimeDistributed.t (W:=Activation.t) =>
             output (TimeDistributed.base td) = Some o in
  hoare (both P (has_texture n o id)) (TimeDistributed._callGPU x) (fun _ => True) /\
  hoare (both P (has_texture n o id)) TimeDistributed.materialize (fun _ => True).
Proof.
  intros P.
  assert (forall sl, hoare (both P (has_texture n o id))
            (TimeDistributed.invoke_wrapped MethodCallGPU sl (Activation._callGPU sl))
            (fun _ => True)) as Hwrapped.
  { intros sl.
    apply (hoare_invoke_wrapped _ _ _ (fun _ => True) (has_texture n o id)).
    - apply activation_keeps_texture.
    - by intros td mc _ ?.
    - by intros td mc w' mc' held ? _ _ ?. }
  split.
  - apply (wrapper_callGPU (fun _ => True) _ _ (stable_has_texture n o id)); try done.
    intros td Htd Hnone. unfold P in Htd. congruence.
  - by apply (wrapper_materialize (fun _ => True) _ _ (stable_has_texture n o id)).
Qed.

(** [_callGPU] changes neither the backend nor the activation of the
    layer. *)
Lemma activation_callGPU_keeps_variant (x : ref) (a : Activation.t) (m : machine) :
  let a' := (Activation._callGPU x (a, m)).1.1 in
  gpu (Activation.base a') = gpu (Activation.base a) /\
  Activation.activation a' = Activation.activation a.
Proof.
  intros a'.
  destruct (activation_callGPU (fun _ => True) (fun _ => True) (fun _ => True)
              stable_trivial (fun _ _ => I)
              (fun b => gpu (Activation.base b) = gpu (Activation.base a) /\
                        Activation.activation b = Activation.activation a))
    with (x:=x) (s:=(a, m)) as [[HP _] _]; done.
Qed.

Lemma wrapper_callGPU_keeps_backend (x : ref) (td : TimeDistributed.t (W:=Activation.t))
    (m : machine) :
  gpu (TimeDistributed.base (TimeDistributed._callGPU x (td, m)).1.1)
  = gpu (TimeDistributed.base td).
Proof.
  set (P := fun t' : TimeDistributed.t (W:=Activation.t) =>
              gpu (TimeDistributed.base t') = gpu (TimeDistributed.base td)).
  destruct (wrapper_callGPU (fun _ => True) (fun _ => True) (fun _ => True) stable_trivial
              (fun _ _ => I) P) with (x:=x) (s:=(td, m)) as [[HP _] _]; try done.
  intros sl.
  apply (hoare_invoke_wrapped _ _ _ (fun _ => True) (fun _ => True)); [|done|done].
  by apply (activation_callGPU (fun _ => True) (fun _ => True) (fun _ => True)
              stable_trivial (fun _ _ => I) (fun _ => True)).
Qed.

(** C5 (as amended). For an Activation layer on the device path whose
    activation is not 'linear', and for the wrapper on the device path
    (around an Activation layer): when a [call] returns and a second
    [call], on any input, returns as well, both have returned the same
    Tensor object, which is the output of the layer after each of them,
    and that object has after the second call the texture it had after
    the first: nothing was allocated for the output again. *)
Theorem second_call_reuses_output :
  (forall (a : Activation.t) (m : machine) (x1 x2 : ref) (s1 s2 : Activation.t * machine)
          (r1 r2 : option ref),
     gpu (Activation.base a) = true ->
     Activation.activation a <> "linear" ->
     Activation.call x1 (a, m) = (s1, Returned r1) ->
     Activation.call x2 s1 = (s2, Returned r2) ->
     r1 = output (Activation.base s1.1) /\ r2 = r1 /\
     same_output_resources (Activation.base s1.1) s1.2 (Activation.base s2.1) s2.2) /\
  (forall (td : TimeDistributed.t (W:=Activation.t)) (m : machine) (x1 x2 : ref)
          (s1 s2 : TimeDistributed.t * machine) (r1 r2 : option ref),
     gpu (TimeDistributed.base td) = true ->
     TimeDistributed.call x1 (td, m) = (s1, Returned r1) ->
     TimeDistributed.call x2 s1 = (s2, Returned r2) ->
     r1 = output (TimeDistributed.base s1.1) /\ r2 = r1 /\
     same_output_resources (TimeDistributed.base s1.1) s1.2
                           (TimeDistributed.base s2.1) s2.2).
Proof.
  split.
  - intros a m x1 x2 s1 s2 r1 r2 Hgpu Hne Hcall1 Hcall2.
    apply activation_call_on_device in Hcall1 as [Hrun1 ->]; [|done|done].
    destruct s1 as [a1 m1].
    destruct (activation_callGPU_keeps_variant x1 a m) as [Hgpu1 Hne1].
    rewrite Hrun1 in Hgpu1, Hne1. simpl in Hgpu1, Hne1.
    apply activation_call_on_device in Hcall2 as [Hrun2 ->];
      [|by rewrite Hgpu1|by rewrite Hne1].
    unfold Activation._callGPU in Hrun1.
    apply bind_returned in Hrun1 as (smid & [] & Hcomp & Hmat).
    destruct (activation_compute_resident x1 (a, m) smid tt I Hcomp) as (o & Hout & Hres).
    apply resident_has_texture in Hres as (id & Htex).
    destruct (activation_keeps_texture (length (heap smid.2)) o id x2) as (Hcall & Hm & _).
    destruct (Hm smid) as [[Hout1 Htex1] _]; [done|]. rewrite Hmat in Hout1, Htex1.
    destruct (Hcall (a1, m1)) as [[Hout2 Htex2] _]; [done|]. rewrite Hrun2 in Hout2, Htex2.
    simpl in *. split; [done|]. split; [congruence|].
    destruct Htex1 as (_ & _ & t1 & ? & ?). destruct Htex2 as (_ & _ & t2 & ? & ?).
    by exists o, id, t1, t2.
  - intros td m x1 x2 s1 s2 r1 r2 Hgpu Hcall1 Hcall2.
    apply wrapper_call_on_device in Hcall1 as [Hrun1 ->]; [|done].
    destruct s1 as [td1 m1].
    pose proof (wrapper_callGPU_keeps_backend x1 td m) as Hgpu1.
    rewrite Hrun1 in Hgpu1. simpl in Hgpu1.
    apply wrapper_call_on_device in Hcall2 as [Hrun2 ->]; [|by rewrite Hgpu1].
    unfold TimeDistributed._callGPU in Hrun1.
    apply bind_returned in Hrun1 as (smid & [] & Hcomp & Hmat).
    destruct (wrapper_compute_resident x1 (td, m) smid tt I Hcomp) as (o & Hout & Hres).
    apply resident_has_texture in Hres as (id & Htex).
    destruct (wrapper_keeps_texture (length (heap smid.2)) o id x2) as (Hcall & Hm).
    destruct (Hm smid) as [[Hout1 Htex1] _]; [done|]. rewrite Hmat in Hout1, Htex1.
    destruct (Hcall (td1, m1)) as [[Hout2 Htex2] _]; [done|]. rewrite Hrun2 in Hout2, Htex2.
    simpl in *. split; [done|]. split; [congruence|].
    destruct Htex1 as (_ & _ & t1 & ? & ?). destruct Htex2 as (_ & _ & t2 & ? & ?).
    by exists o, id, t1, t2.
Qed.

End DevicePath.

(** ** The TimeDistributed wrapper around an Activation layer *)

Section WrappedActivation.
Context `{Env}.

Lemma sentinel_activation (t0 : list event) :
  let Pw := fun a => outbound (Activation.base a) = [None] in
  (forall x, hoare (both Pw (extends_by on_device t0)) (Activation._callGPU x) (fun _ => True)) /\
  (forall x, hoare (both Pw (extends_by on_device t0)) (Activation.call x) (fun _ => True)).
Proof.
  intros Pw.
  assert (forall a, Pw a -> length (outbound (Activation.base a)) = 0 ->
                    forall ev, off_device ev = true -> on_device ev) as Hterm.
  { intros a Ha Hlen. unfold Pw in Ha. by rewrite Ha in Hlen. }
  split; intros x.
  - by apply (activation_callGPU on_device (fun _ => True) _ (stable_extends_by _ _)
                basic_on_device).
  - by apply (activation_call on_device (fun _ => True) _ (stable_extends_by _ _)
                basic_on_device).
Qed.

Lemma sentinel_invocation {A : Type} (meth : method) (arg : ref)
    (m : M (Activation.t * machine) A) (t0 : list event) :
  hoare (both (fun a => outbound (Activation.base a) = [None]) (extends_by on_device []))
        m (fun _ => True) ->
  hoare (both sentinel (extends_by wrapped_on_device t0))
        (TimeDistributed.invoke_wrapped meth arg m) (fun _ => True).
Proof.
  intros Hm.
  apply (hoare_invoke_wrapped meth arg m
           (fun a => outbound (Activation.base a) = [None]) (extends_by on_device []));
    [done| |].
  - intros td mc Hs _. split; [done|]. by exists [].
  - intros td mc w' mc' held Hs (evs & Htr & Hall) Hw' (sub & Hsub & Hon). split; [done|].
    exists (evs ++ [EvWrapped meth arg held (trace mc')]). simpl. split.
    + by rewrite Htr, app_assoc.
    + apply Forall_app. split; [done|]. apply Forall_singleton. simpl. by rewrite Hsub.
Qed.

Lemma sentinel_calls (xs : list ref) (t0 : list event)
    (s : TimeDistributed.t (W:=Activation.t) * machine) :
  both sentinel (extends_by wrapped_on_device t0) s ->
  both sentinel (extends_by wrapped_on_device t0) (TimeDistributed.calls xs s).
Proof.
  apply (wrapper_calls wrapped_on_device (fun _ => True) _ (stable_extends_by _ _)
           basic_wrapped_on_device sentinel); try done.
  - intros td _ _ ev. apply off_device_wrapped_on_device.
  - intros sl. apply sentinel_invocation. apply sentinel_activation.
  - intros sl. apply sentinel_invocation. apply sentinel_activation.
Qed.

Lemma constructor_sets_sentinel (cfg : attrs) (m0 m : machine)
    (td : TimeDistributed.t (W:=Activation.t)) :
  TimeDistributed.constructor cfg m0 = (m, Returned td) ->
  both sentinel (extends_by wrapped_on_device (trace m0)) (td, m).
Proof.
  unfold TimeDistributed.constructor.
  destruct (attr_layer cfg) as [[class_name config]|]; [|done].
  unfold bind, defined. simpl. case_decide; simpl; [|done].
  unfold Activation.constructor. simpl.
  unfold bind, require_activation_glsl, compileProgram, emit, modify, ret, throw.
  destruct (attr_gpu cfg); simpl.
  - destruct (shader_exists _); simpl; [|done].
    repeat (destruct (compiles _); simpl; [|done]).
    intros [= <- <-]. split; [done|]. eexists. simpl. split.
    + rewrite <- !app_assoc. reflexivity.
    + by repeat constructor.
  - intros [= <- <-]. split; [done|]. exists []. by rewrite app_nil_r.
Qed.

Lemma has_texture_resident (n : nat) (o : ref) (id : texid) (m : machine) :
  has_texture n o id m -> device_resident o m.
Proof. intros (_ & _ & t & ? & ?). by exists t, id. Qed.

Lemma activation_callGPU_resident (x : ref) :
  triple (fun _ => True) (Activation._callGPU x)
         (fun s => output_resident (Activation.base s.1) s.2).
Proof.
  intros s s' [] _ Hrun. unfold Activation._callGPU in Hrun.
  apply bind_returned in Hrun as (smid & [] & Hcomp & Hmat).
  destruct (activation_compute_resident x s smid tt I Hcomp) as (o & Hout & Hres).
  apply resident_has_texture in Hres as (id & Htex).
  destruct (activation_keeps_texture (length (heap smid.2)) o id x) as (_ & Hm & _).
  destruct (Hm smid) as [[Hout1 Htex1] _]; [done|]. rewrite Hmat in Hout1, Htex1.
  exists o. split; [done|]. by eapply has_texture_resident.
Qed.

Lemma call_wrapped_on_slice_resident :
  triple (fun _ => True) (TimeDistributed.call_wrapped_on_slice (W:=Activation.t))
         slice_output_resident.
Proof.
  intros [td mc] s' [] _ Hrun. unfold TimeDistributed.call_wrapped_on_slice in Hrun.
  apply bind_returned in Hrun as (s1 & td1 & [= <- <-] & Hrun).
  apply bind_returned in Hrun as (s2 & sl & Hsl & Hrun).
  unfold defined in Hsl. destruct (TimeDistributed.slice td) as [sl0|]; [|done].
  injection Hsl as <- <-.
  apply bind_returned in Hrun as (s3 & [] & Hinv & [= <-]).
  unfold TimeDistributed.invoke_wrapped in Hinv. simpl in Hinv.
  destruct (Activation._callGPU sl0 _) as [[w' mc'] r] eqn:Hw. simpl in Hinv.
  injection Hinv as <- ->.
  apply activation_callGPU_resident in Hw as (wo & Hout & t & id & Hlook & Htex); [|done].
  exists wo. simpl in *. split; [done|]. split; [done|]. by exists t, id.
Qed.

(** A part of the wrapper's computation that keeps the textures of the
    tensors that have one keeps the result of the wrapped layer
    resident. *)
Lemma keeps_slice_output_resident {A : Type}
    (B : M (TimeDistributed.t (W:=Activation.t) * machine) A) :
  (forall n wo id,
     hoare (both (fun td => TimeDistributed.sliceOutput td = Some wo /\
                            output (Activation.base (TimeDistributed.wrappedLayer td)) = Some wo)
                 (has_texture n wo id)) B (fun _ => True)) ->
  triple slice_output_resident B slice_output_resident.
Proof.
  intros HB s s' a (wo & Hso & Hout & Hres) Hrun.
  apply resident_has_texture in Hres as (id & Htex).
  destruct (HB (length (heap s.2)) wo id s) as [[[Hso' Hout'] Htex'] _]; [done|].
  rewrite Hrun in *.
  exists wo. split; [done|]. split; [done|]. by eapply has_texture_resident.
Qed.

Lemma wrapper_callGPU_slice_output_resident (x : ref) :
  triple (fun _ => True) (TimeDistributed._callGPU (W:=Activation.t) x)
         slice_output_resident.
Proof.
  assert (forall ts i, triple slice_output_resident
            (TimeDistributed.write_slice (W:=Activation.t) ts i) slice_output_resident)
    as Hwrite.
  { intros ts i. apply keeps_slice_output_resident. intros n wo id.
    by apply (wrapper_write_slice (fun _ => True) _ _ (stable_has_texture n wo id)). }
  unfold TimeDistributed._callGPU, TimeDistributed.compute.
  eapply triple_bind; [|intros _].
  - do 10 (apply triple_bind_last; intros ?).
    eapply triple_bind; [apply call_wrapped_on_slice_resident|]. intros _.
    eapply triple_bind; [|intros td].
    { eapply (triple_hoare _ (fun _ => True)). intros s Hs. by split. }
    eapply triple_bind; [|intros _].
    { apply triple_when; [done|]. apply keeps_slice_output_resident. intros n wo id.
      apply (wrapper_create_output (fun _ => True) _ _ (stable_has_texture n wo id));
        done. }
    eapply triple_bind; [apply Hwrite|]. intros _.
    apply triple_for_each. intros i.
    apply triple_bind_last. intros _.
    eapply triple_bind; [apply call_wrapped_on_slice_resident|]. intros _.
    apply Hwrite.
  - apply keeps_slice_output_resident. intros n wo id.
    by apply (wrapper_materialize (fun _ => True) _ _ (stable_has_texture n wo id)).
Qed.

(** C6. The constructor of the wrapper leaves the wrapped layer with the
    one-element list [[null]] as its consumers, and no call of the wrapper
    changes that; so in every state reached by calls of the wrapper the
    test [outbound.length === 0] of the wrapped layer fails, and in the
    trace of everything done since the construction started no
    invocation of the wrapped layer contains a transfer from the device
    or an inverse reshape.  After a further call on the device path that
    returns, the result of the wrapped layer, which the wrapper holds as
    [sliceOutput], is resident on the device. *)
Theorem wrapped_layer_never_leaves_the_device (cfg : attrs) (m0 m : machine)
    (td : TimeDistributed.t (W:=Activation.t)) (xs : list ref) :
  TimeDistributed.constructor cfg m0 = (m, Returned td) ->
  let s := TimeDistributed.calls xs (td, m) in
  outbound (Activation.base (TimeDistributed.wrappedLayer s.1)) = [None] /\
  length (outbound (Activation.base (TimeDistributed.wrappedLayer s.1))) <> 0 /\
  (exists evs, trace s.2 = trace m0 ++ evs /\ Forall wrapped_on_device evs) /\
  (forall x s', TimeDistributed._callGPU x s = (s', Returned tt) ->
                slice_output_resident s').
Proof.
  intros Hc s.
  destruct (sentinel_calls xs (trace m0) (td, m)) as [Hs Htr].
  { by eapply constructor_sets_sentinel. }
  fold s in Hs, Htr. unfold sentinel in Hs.
  split; [done|]. split; [by rewrite Hs|]. split; [done|].
  intros x s' Hrun. by eapply wrapper_callGPU_slice_output_resident.
Qed.

End WrappedActivation.

(** ** The CPU path of the wrapper *)

Section Evaluation.
Context {S : Type}.

Lemma bind_run {A B : Type} (m : M S A) (f : A -> M S B) (s s1 : S) (a : A) :
  m s = (s1, Returned a) -> bind m f s = f a s1.
Proof. intros Hm. unfold bind. by rewrite Hm. Qed.

(** A run whose outcome is a return is the pair of its final state and
    that return. *)
Lemma run_returned {A} (r : S * outcome A) (v : A) :
  r.2 = Returned v -> r = (r.1, Returned v).
Proof. destruct r as [s o]. simpl. by intros ->. Qed.

End Evaluation.

Section CPUPath.
Context `{Env} {W : Type} `{!LayerClass W}.
Import TimeDistributed.

Lemma on_machine_run {A : Type} (m : M machine A) (td : t (W:=W)) (mc mc' : machine)
    (r : outcome A) :
  m mc = (mc', r) -> on_machine m (td, mc) = ((td, mc'), r).
Proof. intros Hm. unfold on_machine, embed. simpl. by rewrite Hm. Qed.

Lemma read_run (r : ref) (tn : Tensor) (mc : machine) :
  heap mc !! r = Some tn -> read r mc = (mc, Returned tn).
Proof. intros Hr. unfold read. by rewrite Hr. Qed.

Lemma ops_assign_run (d src : ref) (dv sv : ndarray elt -> option view)
    (dt st : Tensor) (a : ndarray elt) (mc : machine) :
  heap mc !! d = Some dt -> heap mc !! src = Some st ->
  assign (arrayType dt) (tensor dt) (dv (tensor dt)) (tensor st) (sv (tensor st)) = Some a ->
  ops_assign d dv src sv mc
  = (Machine (<[d := with_tensor a dt]> (heap mc)) (gpu_mem mc) (trace mc), Returned tt).
Proof.
  intros Hd Hs Ha. unfold ops_assign, bind, read, write, modify. rewrite Hd. simpl.
  rewrite Hs. simpl. by rewrite Ha.
Qed.

Lemma slice_at_wf (a : ndarray elt) (i : nat) :
  length (data (slice_at a i)) = product (shape (slice_at a i)).
Proof. unfold slice_at. simpl. apply length_read_range. Qed.

(** The wrapped layer, as far as the CPU path of the wrapper relies on
    it: in a state that satisfies [good], a call on a tensor returns a
    tensor that holds [F] of what the argument held, keeps [good], and
    leaves the tensors that existed as they were; the shape of the result
    depends on the shape of the argument only, and the result of a
    well-formed argument is well-formed. *)
Context (F : ndarray elt -> ndarray elt) (good : W -> Prop).
Context (call_contract : forall w mc step st,
  good w -> heap mc !! step = Some st ->
  exists w' mc' so sot,
    wrapped_call step (w, mc) = ((w', mc'), Returned (Some so)) /\ good w' /\
    heap mc `prefix_of` heap mc' /\ heap mc' !! so = Some sot /\ tensor sot = F (tensor st)).
Context (F_shape : forall a b, shape a = shape b -> shape (F a) = shape (F b)).
Context (F_wf : forall a, length (data a) = product (shape a) ->
                          length (data (F a)) = product (shape (F a))).

(** Slice [i] of [x] is copied into [step] and the wrapped layer is
    called on it. *)
Lemma fill_and_call {B : Type} (k : option ref -> M (t (W:=W) * machine) B)
    (td : t) (mc : machine) (x step i : nat) (xt stept : Tensor) :
  good (wrappedLayer td) ->
  heap mc !! x = Some xt -> heap mc !! step = Some stept -> x <> step ->
  shape (tensor stept) = tail (shape (tensor xt)) ->
  length (data (tensor stept)) = product (tail (shape (tensor xt))) ->
  arrayType stept = Float32Array ->
  shape (tensor xt) <> [] ->
  exists w' mc' so sot,
    (on_machine (ops_assign step whole x (fun a => pick0 a i)) ;;;
     stepOutput <- invoke_wrapped MethodCall step (wrapped_call step) ;;
     k stepOutput) (td, mc)
    = k (Some so) (with_wrappedLayer w' td, mc') /\
    good w' /\
    <[step := with_tensor (slice_at (tensor xt) i) stept]> (heap mc) `prefix_of` heap mc' /\
    heap mc' !! so = Some sot /\ tensor sot = F (slice_at (tensor xt) i) /\
    exists sub, trace mc' = trace mc ++
                  [EvWrapped MethodCall step (Some (slice_at (tensor xt) i)) sub].
Proof.
  intros Hgood Hx Hstep Hne Hsh Hlen Hty Hrank.
  assert (assign (arrayType stept) (tensor stept) (whole (tensor stept)) (tensor xt)
                 (pick0 (tensor xt) i) = Some (slice_at (tensor xt) i)) as Hassign.
  { unfold assign, whole, pick0, slice_at. rewrite Hsh.
    destruct (shape (tensor xt)) as [|T rest] eqn:Hxsh; [done|]. simpl.
    rewrite decide_True by done. rewrite Hty. f_equal. f_equal.
    apply blit_whole. rewrite length_read_range. by rewrite Hlen. }
  apply lookup_lt_Some in Hstep as Hlt.
  destruct (call_contract (wrappedLayer td)
              (Machine (<[step := with_tensor (slice_at (tensor xt) i) stept]> (heap mc))
                       (gpu_mem mc) []) step
              (with_tensor (slice_at (tensor xt) i) stept) Hgood)
    as (w' & mc' & so & sot & Hcall & Hgood' & Hpre & Hso & Hsot).
  { simpl. by apply list_lookup_insert_eq. }
  simpl in Hpre.
  exists w', (Machine (heap mc') (gpu_mem mc')
                      (trace mc ++ [EvWrapped MethodCall step
                                      (Some (slice_at (tensor xt) i)) (trace mc')])),
    so, sot.
  split; [|split; [done|split; [done|split; [done|split; [done|by eexists]]]]].
  erewrite bind_run; [|apply on_machine_run; by eapply ops_assign_run].
  unfold bind at 1. unfold invoke_wrapped. simpl.
  match goal with
  | |- context [wrapped_call step ?s] =>
      replace (wrapped_call step s) with ((w', mc'), Returned (A:=option ref) (Some so))
        by (symmetry; exact Hcall)
  end.
  simpl. rewrite list_lookup_insert_eq by done. reflexivity.
Qed.

(** The result of the wrapped layer is stored as slice [i] of the
    output. *)
Lemma store_slice (o so : ref) (i T : nat) (sosh : list nat) (ot sot : Tensor) (mc : machine) :
  heap mc !! o = Some ot -> heap mc !! so = Some sot ->
  shape (tensor ot) = T :: sosh -> shape (tensor sot) = sosh ->
  length (data (tensor sot)) = product sosh ->
  length (data (tensor ot)) = T * product sosh ->
  arrayType ot = Float32Array -> i < T ->
  exists ot',
    ops_assign o (fun a => pick0 a i) so whole mc
    = (Machine (<[o := ot']> (heap mc)) (gpu_mem mc) (trace mc), Returned tt) /\
    shape (tensor ot') = T :: sosh /\
    length (data (tensor ot')) = T * product sosh /\
    arrayType ot' = Float32Array /\
    slice_at (tensor ot') i = tensor sot /\
    forall t, t <> i -> slice_at (tensor ot') t = slice_at (tensor ot) t.
Proof.
  intros Ho Hso Hosh Hsosh Hsolen Holen Hty Hi.
  exists (with_tensor (NDArray (blit (i * product sosh) (data (tensor sot)) (data (tensor ot)))
                               (T :: sosh)) ot).
  split; [|split; [done|split; [by simpl; rewrite length_blit|split; [done|split]]]].
  - eapply ops_assign_run; [done|done|].
    unfold assign, pick0, whole. rewrite Hosh, Hsosh, Hty. rewrite decide_True by done.
    assert (read_range Float32Array 0 (product sosh) (data (tensor sot)) = data (tensor sot))
      as ->; [|done].
    rewrite <- Hsolen. apply read_range_exact.
  - unfold slice_at. simpl.
    assert (read_range Float32Array (i * product sosh) (product sosh)
              (blit (i * product sosh) (data (tensor sot)) (data (tensor ot)))
            = data (tensor sot)) as ->.
    { rewrite <- Hsolen at 2. apply read_range_blit_same. rewrite Hsolen, Holen. nia. }
    destruct (tensor sot) as [d sh]. simpl in *. by subst.
  - intros t Ht. unfold slice_at. simpl. rewrite Hosh. simpl. f_equal.
    apply read_range_blit_other. rewrite Hsolen. nia.
Qed.

Lemma call_arguments_snoc (evs : list event) (step : ref) (held : option (ndarray elt))
    (sub : list event) :
  call_arguments (evs ++ [EvWrapped MethodCall step held sub]) = call_arguments evs ++ [held].
Proof. unfold call_arguments. by rewrite omap_app. Qed.

Lemma call_arguments_plain (evs : list event) (ev : event) :
  basic ev = true -> call_arguments (evs ++ [ev]) = call_arguments evs.
Proof.
  intros Hb. unfold call_arguments. rewrite omap_app. destruct ev; try done; simpl;
    by rewrite app_nil_r.
Qed.

Lemma shape_of_result (xt : Tensor) (i : nat) :
  shape (F (slice_at (tensor xt) i)) = shape (F (slice_at (tensor xt) 0)).
Proof. by apply F_shape. Qed.

(** The loop over the slices [k, ..., k + n - 1]. *)
Lemma cpu_loop (x step o : ref) (xt : Tensor) (T : nat) (t0 : list event) (n : nat) :
  let sosh := shape (F (slice_at (tensor xt) 0)) in
  shape (tensor xt) <> [] ->
  forall k s,
    cpu_invariant F good x step o xt T sosh t0 k s -> k + n <= T ->
    exists s',
      for_each (seq k n) (fun i =>
        on_machine (ops_assign step whole x (fun a => pick0 a i)) ;;;
        stepOutput <- invoke_wrapped MethodCall step (wrapped_call step) ;;
        stepOutput <- defined "stepOutput" stepOutput ;;
        td <- this ;;
        out <- defined "output" (output (base td)) ;;
        on_machine (ops_assign out (fun a => pick0 a i) stepOutput whole)) s
      = (s', Returned tt) /\
      cpu_invariant F good x step o xt T sosh t0 (k + n) s'.
Proof.
  intros sosh Hrank. induction n as [|n IH]; intros k [td mc] Hinv Hle; simpl.
  { exists (td, mc). split; [done|]. by rewrite Nat.add_0_r. }
  destruct Hinv as (Hgood & Hout & Hx & (stept & Hstep & Hssh & Hslen & Hsty) &
                    (ot & Ho & Hosh & Holen & Hoty & Hdone) & Hxs & Hso & Hxo &
                    evs & Htr & Hargs).
  simpl in *.
  destruct (fill_and_call
              (fun stepOutput =>
                 stepOutput <- defined "stepOutput" stepOutput ;;
                 td <- this ;;
                 out <- defined "output" (output (base td)) ;;
                 on_machine (ops_assign out (fun a => pick0 a k) stepOutput whole))
              td mc x step k xt stept Hgood Hx Hstep Hxs Hssh Hslen Hsty Hrank)
    as (w' & mc' & so & sot & Hrun & Hgood' & Hpre & Hsot & HF & sub & Htr').
  assert (heap mc' !! x = Some xt) as Hx'.
  { eapply prefix_lookup_Some; [|done]. by rewrite list_lookup_insert_ne. }
  assert (heap mc' !! o = Some ot) as Ho'.
  { eapply prefix_lookup_Some; [|done]. by rewrite list_lookup_insert_ne. }
  assert (heap mc' !! step = Some (with_tensor (slice_at (tensor xt) k) stept)) as Hstep'.
  { eapply prefix_lookup_Some; [|done]. apply list_lookup_insert_eq.
    by eapply lookup_lt_Some. }
  destruct (store_slice o so k T sosh ot sot mc' Ho' Hsot Hosh) as
    (ot' & Hstore & Hosh' & Holen' & Hoty' & Hk & Hother); [| |done|done|lia|].
  { rewrite HF. apply shape_of_result. }
  { rewrite HF. rewrite F_wf by apply slice_at_wf. f_equal. apply shape_of_result. }
  apply lookup_lt_Some in Ho' as Holt.
  destruct (IH (S k) (with_wrappedLayer w' td,
                      Machine (<[o := ot']> (heap mc')) (gpu_mem mc') (trace mc')))
    as (s' & Hloop & Hinv'); [|lia|].
  { split; [done|]. split; [done|]. simpl. split; [by rewrite list_lookup_insert_ne|].
    split.
    { eexists. split; [by rewrite list_lookup_insert_ne|]. simpl.
      split; [done|]. split; [apply length_read_range|done]. }
    split.
    { exists ot'. split; [by apply list_lookup_insert_eq|].
      split; [done|]. split; [done|]. split; [done|].
      intros t Ht. destruct (decide (t = k)) as [->|Hne].
      - by rewrite Hk, HF.
      - rewrite Hother by done. apply Hdone. lia. }
    split; [done|]. split; [done|]. split; [done|].
    eexists. split.
    { rewrite Htr', Htr, <- app_assoc. reflexivity. }
    rewrite call_arguments_snoc, Hargs.
    trans ((fun t => Some (slice_at (tensor xt) t)) <$> seq 0 (S k)); [|done].
    by rewrite seq_S, fmap_app. }
  exists s'. split; [|by replace (k + S n) with (S k + n) by lia].
  rewrite <- Hloop. unfold bind at 1.
  cut (forall (rest : M (t (W:=W) * machine) unit) (r : t * machine * outcome unit),
         r = rest (with_wrappedLayer w' td, Machine (<[o := ot']> (heap mc')) (gpu_mem mc')
                                                    (trace mc')) ->
         match (on_machine (ops_assign step whole x (fun a => pick0 a k)) ;;;
                stepOutput <- invoke_wrapped MethodCall step (wrapped_call step) ;;
                stepOutput <- defined "stepOutput" stepOutput ;;
                td0 <- this ;;
                out <- defined "output" (output (base td0)) ;;
                on_machine (ops_assign out (fun a => pick0 a k) stepOutput whole)) (td, mc)
         with
         | (s1, Returned a) => rest s1
         | (s1, Thrown e) => (s1, Thrown e)
         end = r).
  { intros Hcut. by apply Hcut. }
  intros rest r ->. rewrite Hrun.
  unfold bind, defined, this, gets, ret. simpl. rewrite Hout. simpl.
  erewrite on_machine_run by exact Hstore. done.
Qed.

(** C1. On the CPU path, for an input [x] whose time axis has length
    [T >= 1] and a wrapped layer that computes [F] (see the section
    above), a call of the wrapper returns its output [o]; the wrapped
    layer's [call] was invoked exactly [T] times, the [t]-th time on the
    slice [x[t, ...]]; the output has the shape [T :: stepOutputShape],
    where [stepOutputShape] is the shape of the first result; and for
    every [t < T] the slice [t] of the output is [F] of the slice [t] of
    the input. *)
Theorem cpu_path_maps_wrapped_layer_over_slices (td : t (W:=W)) (m : machine) (x : ref)
    (xt : Tensor) (T : nat) (rest : list nat) :
  gpu (base td) = false ->
  good (wrappedLayer td) ->
  heap m !! x = Some xt ->
  shape (tensor xt) = T :: rest ->
  1 <= T ->
  exists s' o ot evs,
    call x (td, m) = (s', Returned (Some o)) /\
    heap s'.2 !! o = Some ot /\
    shape (tensor ot) = T :: shape (F (slice_at (tensor xt) 0)) /\
    (forall i, i < T -> slice_at (tensor ot) i = F (slice_at (tensor xt) i)) /\
    trace s'.2 = trace m ++ evs /\
    call_arguments evs = (fun i => Some (slice_at (tensor xt) i)) <$> seq 0 T /\
    length (call_arguments evs) = T.
Proof.
  intros Hcpu Hgood Hx Hsh HT.
  set (sosh := shape (F (slice_at (tensor xt) 0))).
  set (step := length (heap m)).
  set (step0 := mkTensor (NDArray (zeros (product rest)) rest) Float32Array
                         None None false false None None).
  set (m1 := Machine (heap m ++ [step0]) (gpu_mem m) (trace m ++ [EvNewTensor step])).
  apply lookup_lt_Some in Hx as Hxlt.
  assert (heap m1 !! x = Some xt) as Hx1 by by apply lookup_app_l_Some.
  assert (heap m1 !! step = Some step0) as Hstep1 by apply lookup_snoc.
  assert (x <> step) as Hxs by (unfold step; lia).
  assert (shape (tensor xt) <> []) as Hrank by by rewrite Hsh.
  destruct (fill_and_call
              (fun stepOutput =>
                 stepOutput <- defined "stepOutput" stepOutput ;;
                 sot <- on_machine (read stepOutput) ;;
                 let stepOutputShape := shape (tensor sot) in
                 xt <- on_machine (read x) ;;
                 osh <- stacked (head (shape (tensor xt))) (Some stepOutputShape) ;;
                 out <- on_machine (new_Tensor [] osh Float32Array) ;;
                 set_output (Some out) ;;;
                 on_machine (ops_assign out (fun a => pick0 a 0) stepOutput whole) ;;;
                 xt <- on_machine (read x) ;;
                 let timesteps := default 0 (head (shape (tensor xt))) in
                 for_each (seq 1 (timesteps - 1)) (fun i =>
                   on_machine (ops_assign step whole x (fun a => pick0 a i)) ;;;
                   stepOutput <- invoke_wrapped MethodCall step (wrapped_call step) ;;
                   stepOutput <- defined "stepOutput" stepOutput ;;
                   td <- this ;;
                   out <- defined "output" (output (base td)) ;;
                   on_machine (ops_assign out (fun a => pick0 a i) stepOutput whole)))
              td m1 x step 0 xt step0 Hgood Hx1 Hstep1 Hxs)
    as (w' & mc' & so & sot & Hrun & Hgood' & Hpre & Hsot & HF & sub & Htr');
    [by rewrite Hsh|by rewrite Hsh; simpl; unfold zeros; rewrite length_replicate|done|done|].
  assert (heap mc' !! x = Some xt) as Hx'.
  { eapply prefix_lookup_Some; [|done]. by rewrite list_lookup_insert_ne. }
  assert (heap mc' !! step = Some (with_tensor (slice_at (tensor xt) 0) step0)) as Hstep'.
  { eapply prefix_lookup_Some; [|done]. apply list_lookup_insert_eq.
    by eapply lookup_lt_Some. }
  set (o := length (heap mc')).
  set (out0 := mkTensor (NDArray (zeros (product (T :: sosh))) (T :: sosh)) Float32Array
                        None None false false None None).
  set (mc2 := Machine (heap mc' ++ [out0]) (gpu_mem mc') (trace mc' ++ [EvNewTensor o])).
  apply lookup_lt_Some in Hx' as Hxlt'. apply lookup_lt_Some in Hstep' as Hsteplt'.
  assert (shape (tensor sot) = sosh) as Hsosh by by rewrite HF.
  destruct (store_slice o so 0 T sosh out0 sot mc2) as
    (ot' & Hstore & Hosh' & Holen' & Hoty' & Hk & Hother);
    [apply lookup_snoc|by apply lookup_app_l_Some|done|done| |
     by simpl; unfold zeros; rewrite length_replicate|done|lia|].
  { rewrite HF. rewrite F_wf by apply slice_at_wf. done. }
  assert (ops_assign o (fun a => pick0 a 0) so whole mc2
          = (Machine (heap mc' ++ [ot']) (gpu_mem mc') (trace mc' ++ [EvNewTensor o]),
             Returned tt)) as Hstore2.
  { etrans; [exact Hstore|]. f_equal. unfold mc2. simpl. f_equal. apply insert_snoc. }
  clear Hstore.
  destruct (cpu_loop x step o xt T (trace m) (T - 1) Hrank 1
              (with_base (with_output (Some o) (base (with_wrappedLayer w' td)))
                         (with_wrappedLayer w' td),
               Machine (heap mc' ++ [ot']) (gpu_mem mc') (trace mc' ++ [EvNewTensor o])))
    as (s' & Hloop & Hinv); [|lia|].
  { split; [done|]. split; [done|]. simpl.
    split; [by apply lookup_app_l_Some|]. split.
    { eexists. split; [by apply lookup_app_l_Some|]. simpl. rewrite Hsh. simpl.
      split; [done|]. split; [apply length_read_range|done]. }
    split.
    { exists ot'. split; [apply lookup_snoc|]. split; [done|]. split; [done|].
      split; [done|]. intros i Hi. replace i with 0 by lia. by rewrite Hk, HF. }
    split; [done|]. split; [unfold o; lia|]. split; [unfold o; lia|].
    eexists. split.
    { rewrite Htr'. simpl. rewrite <- !app_assoc. reflexivity. }
    reflexivity. }
  replace (1 + (T - 1)) with T in Hinv by lia.
  destruct Hinv as (_ & Hout & _ & _ & (ot & Ho & Hosh & _ & _ & Hdone) & _ & _ & _ &
                    evs & Htr & Hargs).
  exists s', o, ot, evs.
  split; [|split; [done|split; [done|split; [done|split; [done|split; [done|]]]]]].
  2: { by rewrite Hargs, length_fmap, length_seq. }
  unfold call. erewrite bind_run by reflexivity. simpl. rewrite Hcpu.
  cut (_callCPU x (td, m) = (s', Returned tt)).
  { intros Hcall. erewrite bind_run by exact Hcall.
    unfold bind, this, gets, ret. simpl. by rewrite Hout. }
  unfold _callCPU.
  erewrite bind_run by (apply on_machine_run; by apply read_run).
  erewrite (bind_run (on_machine (new_Tensor _ _ _)) _ _ (td, m1) step);
    [|by rewrite Hsh].
  cbv beta zeta in Hrun |- *. rewrite Hrun.
  unfold bind at 1. unfold defined, ret.
  erewrite bind_run by (apply on_machine_run; by apply read_run).
  erewrite bind_run by (apply on_machine_run; by apply read_run).
  rewrite Hsh, Hsosh. simpl.
  erewrite (bind_run (ret _) _ _ _ _) by reflexivity.
  erewrite (bind_run (on_machine (new_Tensor _ _ _)) _ _ (_, mc2) o) by reflexivity.
  erewrite (bind_run (set_output _)) by reflexivity.
  erewrite bind_run by (apply on_machine_run; exact Hstore2).
  erewrite bind_run.
  2: { apply on_machine_run. apply read_run. simpl. by apply lookup_app_l_Some. }
  rewrite Hsh. exact Hloop.
Qed.

End CPUPath.

(** ** The Activation layer meets what the CPU path relies on *)

Section ActivationContract.
Context `{Env}.

Lemma activation_call_contract (name : string) (f : ndarray elt -> ndarray elt)
    (w : Activation.t) (mc : machine) (step : ref) (st : Tensor) :
  name <> "linear" ->
  gpu (Activation.base w) = false /\ Activation.activation w = name /\
    Activation.activationFunc w = Some f ->
  heap mc !! step = Some st ->
  exists w' mc' so sot,
    wrapped_call step (w, mc) = ((w', mc'), Returned (Some so)) /\
    (gpu (Activation.base w') = false /\ Activation.activation w' = name /\
       Activation.activationFunc w' = Some f) /\
    heap mc `prefix_of` heap mc' /\ heap mc' !! so = Some sot /\
    tensor sot = f (NDArray (match data (tensor st) with
                             | [] => zeros (product (shape (tensor st)))
                             | _ => data (tensor st)
                             end) (shape (tensor st))).
Proof.
  intros Hne (Hcpu & Hname & Hf) Hstep. simpl.
  eexists _, _, _, _. split.
  { apply (call_cpu w mc step st f); [done|by rewrite Hname|done|done]. }
  split; [done|]. split; [by apply prefix_app_r|]. split; [apply lookup_snoc|done].
Qed.

End ActivationContract.

(** ** Rules for runs *)

Section RunRules.
Context {S : Type}.

Lemma hoare_keeps {A : Type} (I : S -> Prop) (m : M S A) (s s' : S) (r : outcome A) :
  hoare I m (fun _ => True) -> I s -> m s = (s', r) -> I s'.
Proof. intros Hm HI Hrun. destruct (Hm s HI) as [HI' _]. by rewrite Hrun in HI'. Qed.

(** A loop whose body takes the invariant from one index to the next. *)
Lemma triple_for_each_indexed (Inv : nat -> S -> Prop) (l : list nat)
    (body : nat -> M S unit) (k : nat) :
  (forall i j, triple (Inv j) (body i) (Inv (Datatypes.S j))) ->
  triple (Inv k) (for_each l body) (Inv (k + length l)).
Proof.
  intros Hbody. revert k. induction l as [|i l IH]; intros k; simpl.
  - intros s s' a Hs [= <- _]. by rewrite Nat.add_0_r.
  - eapply triple_bind; [apply Hbody|]. intros _.
    replace (k + Datatypes.S (length l)) with (Datatypes.S k + length l) by lia. apply IH.
Qed.

Lemma defined_run {A : Type} (what : string) (o : option A) (a : A) (s : S) :
  o = Some a -> defined what o s = (s, Returned a).
Proof. by intros ->. Qed.

(** A loop whose body returns and keeps the invariant returns, and keeps
    it. *)
Lemma for_each_returns (Inv : S -> Prop) (l : list nat) (body : nat -> M S unit)
    (s : S) :
  Inv s ->
  (forall i s, i ∈ l -> Inv s -> exists s', body i s = (s', Returned tt) /\ Inv s') ->
  exists s', for_each l body s = (s', Returned tt) /\ Inv s'.
Proof.
  revert s. induction l as [|i l IH]; intros s Hs Hbody; simpl.
  - by exists s.
  - destruct (Hbody i s) as (s1 & Hrun & Hs1); [left|done|].
    erewrite bind_run by exact Hrun.
    apply IH; [done|]. intros j s2 Hj. apply Hbody. by right.
Qed.

End RunRules.


(** ** Single operations *)

Section Steps.
Context `{Env}.

Lemma on_machine_returns {L A : Type} (mm : M machine A) (l : L) (mc mc' : machine)
    (r : outcome A) :
  mm mc = (mc', r) -> on_machine mm (l, mc) = ((l, mc'), r).
Proof. intros Hm. unfold on_machine, embed. simpl. by rewrite Hm. Qed.

Lemma runProgram_run (p : gl_program) (out : ref) (ot : Tensor) (id : texid)
    (tex : texture elt) (inputs : list (string * option texid))
    (uniforms : list (string * option nat)) (m : machine) :
  heap m !! out = Some ot -> glTexture ot = Some id -> gpu_mem m !! id = Some tex ->
  runProgram (Some p) out inputs uniforms m
  = (Machine (heap m)
             (<[id := Texture (tex_shape tex) (tex_format tex)
                              (kernel p (bound_texture m <$> inputs) uniforms tex)]> (gpu_mem m))
             (trace m ++ [EvRunProgram p out]),
     Returned tt).
Proof.
  intros Ho Hid Htex. unfold runProgram, bind, read, defined, gets, modify, emit, ret. simpl.
  rewrite Ho. simpl. rewrite Hid. simpl. rewrite Htex. reflexivity.
Qed.

Lemma createGLTexture_run (r : ref) (format : string) (t : Tensor) (a b : nat) (m : machine) :
  heap m !! r = Some t -> shape (tensor t) = [a; b] ->
  createGLTexture r format m
  = (Machine (<[r := with_glTexture (length (gpu_mem m)) [a; b] (is1D t) t]> (heap m))
             (gpu_mem m ++ [Texture [a; b] format (data (tensor t))])
             (trace m ++ [EvCreateGLTexture r (length (gpu_mem m))]),
     Returned tt).
Proof.
  intros Hr Hsh. unfold createGLTexture, bind, read, defined, gets, modify, emit, ret. simpl.
  rewrite Hr. simpl. rewrite Hsh. reflexivity.
Qed.

Lemma transferFromGLTexture_run (r : ref) (t : Tensor) (id : texid) (sh : list nat)
    (tex : texture elt) (m : machine) :
  heap m !! r = Some t -> glTexture t = Some id -> glTextureShape t = Some sh ->
  gpu_mem m !! id = Some tex ->
  transferFromGLTexture r m
  = (Machine (<[r := with_tensor (NDArray (read_range (arrayType t) 0 (product sh) (texels tex))
                                         (flat_shape (is1D t) sh)) t]> (heap m))
             (gpu_mem m) (trace m ++ [EvTransferFromGLTexture r]),
     Returned tt).
Proof.
  intros Hr Hid Hsh Htex.
  unfold transferFromGLTexture, bind, read, defined, gets, write, modify, emit, ret. simpl.
  rewrite Hr. simpl. rewrite Hid. simpl. rewrite Hsh. simpl. rewrite Htex. reflexivity.
Qed.

Lemma on_machine_inv {L A : Type} (mm : M machine A) (l : L) (mc : machine)
    (s' : L * machine) (r : outcome A) :
  on_machine mm (l, mc) = (s', r) -> exists mc', mm mc = (mc', r) /\ s' = (l, mc').
Proof.
  unfold on_machine, embed. simpl. destruct (mm mc) as [mc' r']. intros [= <- <-]. eauto.
Qed.

(** What a returning [createGLTexture] did to the heap. *)
Lemma createGLTexture_heap (r : ref) (format : string) (m m' : machine) :
  createGLTexture r format m = (m', Returned tt) ->
  exists t grid one_d,
    heap m !! r = Some t /\
    heap m' = <[r := with_glTexture (length (gpu_mem m)) grid one_d t]> (heap m) /\
    (length (shape (tensor t)) = 2 -> one_d = is1D t).
Proof.
  unfold createGLTexture, bind, read, defined, gets, modify, emit, ret, throw.
  destruct (heap m !! r) as [t|] eqn:Hr; simpl; [|done].
  destruct (shape (tensor t)) as [|a [|b [|c sh]]] eqn:Hsh; simpl; try done.
  - intros [= <-]. simpl. exists t, [1; a], true. split; [done|]. split; [done|].
    rewrite Hsh. simpl. lia.
  - intros [= <-]. simpl. exists t, [a; b], (is1D t). by split.
Qed.

Lemma stable_at_least (n : nat) :
  stable (fun _ => True) (fun r => n <= r) (fun m => n <= length (heap m)).
Proof.
  split; simpl; intros; rewrite ?length_app, ?length_insert; try done; lia.
Qed.

Lemma createGLTexture_returned (r : ref) (format : string) (m m' : machine) :
  createGLTexture r format m = (m', Returned tt) ->
  length (heap m') = length (heap m) /\ r < length (heap m) /\ device_resident r m'.
Proof.
  unfold createGLTexture, bind, read, defined, gets, modify, emit, ret, throw.
  destruct (heap m !! r) as [t|] eqn:Hr; simpl; [|done].
  apply lookup_lt_Some in Hr as Hlt.
  destruct (shape (tensor t)) as [|a [|b [|c sh]]]; simpl; try done.
  - intros [= <-]. simpl. rewrite length_insert. split; [done|]. split; [done|].
    eexists _, _. split; [by apply list_lookup_insert_eq|done].
  - intros [= <-]. simpl. rewrite length_insert. split; [done|]. split; [done|].
    eexists _, _. split; [by apply list_lookup_insert_eq|done].
Qed.

Lemma blit_nil (off : nat) (vals : list elt) : blit off vals [] = [].
Proof. apply nil_length_inv. by rewrite length_blit. Qed.

Lemma read_range_nil (ty : array_type) (off n : nat) :
  read_range ty off n [] = replicate n (undefined_as ty).
Proof.
  unfold read_range. apply list_eq. intros i. rewrite list_lookup_fmap.
  destruct (decide (i < n)) as [Hlt|Hge].
  - rewrite lookup_seq_lt by done. simpl. by rewrite lookup_replicate_2.
  - rewrite lookup_seq_ge by lia. simpl. symmetry. apply lookup_replicate_None. lia.
Qed.

Lemma update_run (r : ref) (f : Tensor -> Tensor) (t : Tensor) (m : machine) :
  heap m !! r = Some t ->
  update r f m = (Machine (<[r := f t]> (heap m)) (gpu_mem m) (trace m), Returned tt).
Proof. intros Hr. unfold update, bind, read, write, modify. by rewrite Hr. Qed.

Lemma createGLTexture_run1 (r : ref) (format : string) (t : Tensor) (n : nat) (m : machine) :
  heap m !! r = Some t -> shape (tensor t) = [n] ->
  createGLTexture r format m
  = (Machine (<[r := with_glTexture (length (gpu_mem m)) [1; n] true t]> (heap m))
             (gpu_mem m ++ [Texture [1; n] format (data (tensor t))])
             (trace m ++ [EvCreateGLTexture r (length (gpu_mem m))]),
     Returned tt).
Proof.
  intros Hr Hsh. unfold createGLTexture, bind, read, defined, gets, modify, emit, ret. simpl.
  rewrite Hr. simpl. rewrite Hsh. reflexivity.
Qed.

(** A program run on a tensor with a texture returns, and changes
    nothing but texels. *)
Lemma runProgram_returns (p : gl_program) (out : ref) (inputs : list (string * option texid))
    (uniforms : list (string * option nat)) (m : machine) :
  textured (heap m) (length (gpu_mem m)) out ->
  exists g, runProgram (Some p) out inputs uniforms m
            = (Machine (heap m) g (trace m ++ [EvRunProgram p out]), Returned tt) /\
            length g = length (gpu_mem m).
Proof.
  intros (ot & id & Ho & Hid & Hlt).
  destruct (lookup_lt_is_Some_2 _ _ Hlt) as [tex Htex].
  eexists. split; [by eapply runProgram_run|]. apply length_insert.
Qed.

Lemma textured_at (hp l : list Tensor) (g k : nat) (t : Tensor) (id : texid) :
  l !! k = Some t -> glTexture t = Some id -> id < g ->
  textured (hp ++ l) g (k + length hp).
Proof.
  intros Hk Hid Hlt. exists t, id. split; [|done].
  rewrite lookup_app_r by lia. by replace (k + length hp - length hp) with k by lia.
Qed.

Lemma textured_snoc (hp : list Tensor) (g : nat) (t : Tensor) (id : texid) :
  glTexture t = Some id -> id < g -> textured (hp ++ [t]) g (length hp).
Proof. intros Hid Hlt. exists t, id. split; [apply lookup_snoc|done]. Qed.

Lemma textured_kept (hp hp' : list Tensor) (g g' : nat) (r : ref) :
  (forall (r : ref) t, hp !! r = Some t -> is_Some (glTexture t) -> hp' !! r = Some t) ->
  g <= g' -> textured hp g r -> textured hp' g' r.
Proof.
  intros Hkept Hle (t & id & Hr & Hid & Hlt). exists t, id.
  split; [apply Hkept; [done|by rewrite Hid]|]. split; [done|lia].
Qed.

Lemma textured_with_tensor (hp : list Tensor) (g : nat) (o r : ref) (ot : Tensor)
    (a : ndarray elt) :
  hp !! o = Some ot -> textured hp g r -> textured (<[o := with_tensor a ot]> hp) g r.
Proof.
  intros Ho (t & id & Hr & Hid & Hlt).
  destruct (decide (r = o)) as [->|Hne].
  - exists (with_tensor a ot), id.
    split; [apply list_lookup_insert_eq; by eapply lookup_lt_Some|].
    split; [|done]. simpl. congruence.
  - exists t, id. by rewrite list_lookup_insert_ne.
Qed.

End Steps.

(** ** The Activation layer: construction and calls *)

Section ActivationConfiguration.
Context `{Env}.

Lemma with_out_erased (a : Activation.t) (o : option ref) :
  Activation.with_out None (Activation.with_out o a) = Activation.with_out None a.
Proof. by destruct a as [[]]. Qed.

(** X1. A call of an Activation layer, on either backend and whether it
    returns or throws, changes nothing of the layer object but
    [this.output]: the class tag, the backend, the consumers, the
    activation name, the activation function and the compiled program are
    what they were. *)
Theorem activation_call_changes_only_output (a : Activation.t) (m : machine) (x : ref) :
  let a' := (Activation.call x (a, m)).1.1 in
  layerClass (Activation.base a') = layerClass (Activation.base a) /\
  gpu (Activation.base a') = gpu (Activation.base a) /\
  outbound (Activation.base a') = outbound (Activation.base a) /\
  Activation.activation a' = Activation.activation a /\
  Activation.activationFunc a' = Activation.activationFunc a /\
  Activation.program a' = Activation.program a.
Proof.
  intros a'.
  assert (Activation.with_out None a' = Activation.with_out None a) as Heq.
  { pose proof (activation_call (fun _ => True) (fun _ => True) (fun _ => True)
                  stable_trivial (fun _ _ => I)
                  (fun b => Activation.with_out None b = Activation.with_out None a)) as Hc.
    destruct (Hc ltac:(cbv beta; intros; by rewrite with_out_erased) ltac:(done) x
                 ltac:(cbv beta; intros; by rewrite with_out_erased) (a, m)) as [[HP _] _]; done. }
  destruct a' as [[]], a as [[]]. simpl in *. by simplify_eq.
Qed.

(** X3. On the CPU path a call with a name other than 'linear' assigns
    [this.output] before it applies the activation function: when the
    function is undefined the call throws the TypeError after it has
    allocated the copy of the input and made it the output of the layer,
    with the device memory and every existing tensor as they were; when
    the input itself is undefined the call throws before anything has
    changed. *)
Theorem failed_cpu_call_leaves_raw_copy (a : Activation.t) (m : machine) (x : ref) :
  gpu (Activation.base a) = false ->
  Activation.activation a <> "linear" ->
  (heap m !! x = None ->
     Activation.call x (a, m) = ((a, m), Thrown (TypeError "tensor"))) /\
  (forall xt, heap m !! x = Some xt -> Activation.activationFunc a = None ->
     let o := length (heap m) in
     let buf := match data (tensor xt) with
                | [] => zeros (product (shape (tensor xt)))
                | _ => data (tensor xt)
                end in
     let raw := mkTensor (NDArray buf (shape (tensor xt))) Float32Array
                         None None false false None None in
     Activation.call x (a, m)
     = ((Activation.with_out (Some o) a,
         Machine (heap m ++ [raw]) (gpu_mem m) (trace m ++ [EvNewTensor o])),
        Thrown (TypeError "activationFunc"))).
Proof.
  intros Hcpu Hne. split.
  - intros Hx. unfold Activation.call, bind, this, gets. simpl.
    destruct (decide (Activation.activation a = "linear")) as [|_]; [done|].
    rewrite Hcpu. unfold Activation._callCPU, bind, on_machine, embed, read, defined. simpl.
    by rewrite Hx.
  - intros xt Hx Hf o buf raw. unfold Activation.call, bind, this, gets. simpl.
    destruct (decide (Activation.activation a = "linear")) as [|_]; [done|].
    rewrite Hcpu.
    unfold Activation._callCPU, Activation.set_output, set_this, new_Tensor, emit, update,
      write, modify, bind, this, gets, on_machine, embed, read, defined, ret. simpl.
    rewrite Hx. simpl. rewrite Hf. simpl. reflexivity.
Qed.

(** X2. The constructor of an Activation layer fails in two ways only,
    both on the device path: when the shader file named after the
    activation is missing, with the error of [require], and when the
    device does not compile the shader, with a BackendUnavailableError;
    in both cases the machine is untouched.  Otherwise it returns the
    layer with the configured backend and consumers, no output, the
    catalog entry of the name (defined or not) and, on the device path
    only, the one program it compiled. *)
Theorem activation_constructor_outcomes (cfg : attrs) (m : machine) :
  let name := default "linear" (attr_activation cfg) in
  let path := ("../../activations/" ++ name ++ ".glsl")%string in
  let program := ActivationProgram name in
  let compiled := Machine (heap m) (gpu_mem m) (trace m ++ [EvCompileProgram program]) in
  (forall m' a, Activation.constructor cfg m = (m', Returned a) ->
     a = Activation.mk (mkLayer "Activation" (attr_gpu cfg)
                                (replicate (attr_outboundCount cfg) None) None)
                       name (activations name)
                       (if attr_gpu cfg then Some program else None) /\
     m' = (if attr_gpu cfg then compiled else m) /\
     (attr_gpu cfg = true -> shader_exists name = true /\ compiles program = true)) /\
  (forall m' e, Activation.constructor cfg m = (m', Thrown e) ->
     attr_gpu cfg = true /\ m' = m /\
     ((shader_exists name = false /\ e = ModuleNotFound path) \/
      (shader_exists name = true /\ compiles program = false /\
       e = BackendUnavailableError program))) /\
  (attr_gpu cfg = true -> shader_exists name = false ->
     Activation.constructor cfg m = (m, Thrown (ModuleNotFound path))) /\
  (attr_gpu cfg = true -> shader_exists name = true -> compiles program = false ->
     Activation.constructor cfg m = (m, Thrown (BackendUnavailableError program))).
Proof.
  intros name path program compiled.
  unfold Activation.constructor, with_layerClass, Layer_new.
  fold name. simpl.
  unfold bind, require_activation_glsl, compileProgram, emit, modify, ret, throw.
  fold path. fold program.
  destruct (attr_gpu cfg), (shader_exists name), (compiles program); simpl;
    (split; [|split; [|split]]); try done;
    try (intros ? ? [= <- <-]; by eauto 10).
Qed.

End ActivationConfiguration.

(** ** The Activation layer: the device path *)

Section ActivationDevice.
Context `{Env}.

(** X5. Once the layer has an output with a texture, a device call of a
    layer with consumers on an input that has a texture runs the program
    once on the output and does nothing else: no tensor and no texture is
    allocated, the heap is the same, and only the texels of the output
    change.  This holds for every activation name, 'linear' included:
    only [call] short-circuits. *)
Theorem warm_device_call_only_runs_the_program (a : Activation.t) (m : machine) (x o : ref)
    (xt ot : Tensor) (p : gl_program) (xid id : texid) (tex : texture elt) :
  Activation.program a = Some p ->
  output (Activation.base a) = Some o ->
  length (outbound (Activation.base a)) <> 0 ->
  heap m !! o = Some ot -> glTexture ot = Some id -> gpu_mem m !! id = Some tex ->
  heap m !! x = Some xt -> glTexture xt = Some xid ->
  Activation._callGPU x (a, m)
  = ((a, Machine (heap m)
                 (<[id := Texture (tex_shape tex) (tex_format tex)
                                  (kernel p [("x", gpu_mem m !! xid)] [] tex)]> (gpu_mem m))
                 (trace m ++ [EvRunProgram p o])),
     Returned tt).
Proof.
  intros Hp Hout Hob Ho Hid Htex Hx Hxid.
  unfold Activation._callGPU.
  erewrite bind_run.
  2: { unfold Activation.compute.
       erewrite bind_run.
       2: { apply on_machine_returns. unfold Activation.ensure_texture.
            erewrite bind_run by by apply read_run.
            rewrite Hxid. reflexivity. }
       erewrite bind_run by reflexivity. cbn [fst snd].
       rewrite Hout. simpl.
       erewrite bind_run by reflexivity.
       erewrite bind_run by reflexivity. cbn [fst snd].
       erewrite bind_run by (by apply defined_run).
       erewrite bind_run by (apply on_machine_returns; by apply read_run).
       apply on_machine_returns. rewrite Hp, Hxid. by eapply runProgram_run. }
  unfold Activation.materialize.
  erewrite bind_run by reflexivity. simpl.
  by rewrite bool_decide_eq_false_2.
Qed.

(** X4. The first device call of an Activation layer without consumers
    on a rank-2 tensor in native layout that has no texture returns, and
    does exactly this: a texture for the input, one new tensor with one
    texture for the output, one run of the program, one transfer.  The
    output then has the shape of the input and holds what the program
    wrote for the data of the input; the buffer of the input is as it
    was. *)
Theorem first_device_call_on_native_matrix (a : Activation.t) (m : machine) (x : ref)
    (xt : Tensor) (p : gl_program) (r c : nat) :
  Activation.program a = Some p ->
  output (Activation.base a) = None ->
  outbound (Activation.base a) = [] ->
  heap m !! x = Some xt -> glTexture xt = None ->
  is1D xt = false -> is2DReshaped xt = false ->
  shape (tensor xt) = [r; c] ->
  let o := length (heap m) in
  let xid := length (gpu_mem m) in
  let input := Texture [r; c] "float" (data (tensor xt)) in
  let blank := Texture [r; c] "float" (zeros (product [r; c])) in
  let result := kernel p [("x", Some input)] [] blank in
  exists s' xt' ot',
    Activation._callGPU x (a, m) = (s', Returned tt) /\
    output (Activation.base s'.1) = Some o /\
    heap s'.2 !! x = Some xt' /\ tensor xt' = tensor xt /\ glTexture xt' = Some xid /\
    heap s'.2 !! o = Some ot' /\
    tensor ot' = NDArray (read_range Float32Array 0 (product [r; c]) result) [r; c] /\
    length (heap s'.2) = S (length (heap m)) /\
    trace s'.2 = trace m ++ [EvCreateGLTexture x xid; EvNewTensor o;
                             EvCreateGLTexture o (S xid); EvRunProgram p o;
                             EvTransferFromGLTexture o].
Proof.
  intros Hp Hout Hob Hx Hnotex H1D Hre Hsh o xid input blank result.
  apply lookup_lt_Some in Hx as Hlt.
  set (xt1 := with_glTexture xid [r; c] (is1D xt) xt).
  set (m1 := Machine (<[x := xt1]> (heap m)) (gpu_mem m ++ [input])
                     (trace m ++ [EvCreateGLTexture x xid])).
  assert (heap m1 !! x = Some xt1) as Hx1 by by apply list_lookup_insert_eq.
  assert (length (heap m1) = o) as Hlen1 by apply length_insert.
  set (out0 := mkTensor (NDArray (zeros (product [r; c])) [r; c]) Float32Array
                        None None false false None None).
  set (m2 := Machine (heap m1 ++ [out0]) (gpu_mem m1) (trace m1 ++ [EvNewTensor o])).
  assert (heap m2 !! o = Some out0) as Ho2.
  { unfold m2. simpl. rewrite <- Hlen1. apply lookup_snoc. }
  set (out1 := with_glTexture (S xid) [r; c] false out0).
  set (m3 := Machine (<[o := out1]> (heap m2)) (gpu_mem m2 ++ [blank])
                     (trace m2 ++ [EvCreateGLTexture o (S xid)])).
  assert (length (gpu_mem m2) = S xid) as Hg2.
  { unfold m2, m1. simpl. rewrite length_app. simpl. unfold xid. lia. }
  assert (o < length (heap m2)) as Holt by (by eapply lookup_lt_Some).
  assert (x <> o) as Hxo by (unfold o; lia).
  assert (heap m3 !! o = Some out1) as Ho3 by by apply list_lookup_insert_eq.
  assert (heap m3 !! x = Some xt1) as Hx3.
  { unfold m3. simpl. rewrite list_lookup_insert_ne by done.
    unfold m2. simpl. by apply lookup_app_l_Some. }
  assert (gpu_mem m3 !! S xid = Some blank) as Hg3.
  { unfold m3. simpl. rewrite <- Hg2. apply lookup_snoc. }
  assert (gpu_mem m3 !! xid = Some input) as Hgx.
  { unfold m3, m2, m1. simpl. apply lookup_app_l_Some. apply lookup_snoc. }
  set (m4 := Machine (heap m3)
                     (<[S xid := Texture [r; c] "float" result]> (gpu_mem m3))
                     (trace m3 ++ [EvRunProgram p o])).
  set (a1 := Activation.with_out (Some o) a).
  assert (Activation.compute x (a, m) = ((a1, m4), Returned tt)) as Hcompute.
  { unfold Activation.compute.
    erewrite bind_run.
    2: { apply on_machine_returns. unfold Activation.ensure_texture.
         erewrite bind_run by by apply read_run.
         rewrite Hnotex. simpl. by apply createGLTexture_run. }
    erewrite bind_run by reflexivity. cbn [fst snd].
    rewrite Hout. simpl.
    erewrite (bind_run (Activation.create_output x) _ _ (a1, m3) tt).
    2: { unfold Activation.create_output.
         erewrite bind_run by (apply on_machine_returns; by apply read_run).
         erewrite bind_run by reflexivity.
         erewrite (bind_run (on_machine (new_Tensor _ _ _)) _ _ (a, m2) o).
         2: { apply on_machine_returns. unfold new_Tensor, bind, gets, modify, emit, ret.
              simpl. rewrite length_insert. reflexivity. }
         erewrite bind_run by reflexivity.
         erewrite (bind_run (on_machine (createGLTexture _ _)) _ _ (a1, m3) tt).
         2: { apply on_machine_returns. cbn [fst snd].
              rewrite (createGLTexture_run o "float" out0 r c m2 Ho2 eq_refl).
              by rewrite Hg2. }
         erewrite bind_run by (apply on_machine_returns; by apply read_run).
         simpl. rewrite H1D, Hre. reflexivity. }
    erewrite bind_run by reflexivity.
    erewrite bind_run by reflexivity. cbn [fst snd].
    erewrite bind_run by (apply on_machine_returns; by apply read_run).
    apply on_machine_returns. cbn [fst snd].
    change (Activation.program a1) with (Activation.program a). rewrite Hp.
    rewrite (runProgram_run p o out1 (S xid) blank _ _ m3 Ho3 eq_refl Hg3).
    assert (bound_texture m3 <$> [("x", glTexture xt1)] = [("x", Some input)]) as ->; [|done].
    rewrite <- Hgx. reflexivity. }
  assert (heap m4 !! o = Some out1) as Ho4 by exact Ho3.
  assert (gpu_mem m4 !! S xid = Some (Texture [r; c] "float" result)) as Hg4.
  { unfold m4. simpl. apply list_lookup_insert_eq. by eapply lookup_lt_Some. }
  set (out2 := with_tensor (NDArray (read_range Float32Array 0 (product [r; c]) result)
                                    [r; c]) out1).
  set (m5 := Machine (<[o := out2]> (heap m4)) (gpu_mem m4)
                     (trace m4 ++ [EvTransferFromGLTexture o])).
  exists (a1, m5), xt1, out2.
  assert (o < length (heap m4)) as Holt4 by (by eapply lookup_lt_Some).
  split; [|split; [done|split; [|split; [done|split; [done|split; [|split; [done|split]]]]]]].
  - unfold Activation._callGPU. erewrite bind_run by exact Hcompute.
    unfold Activation.materialize.
    erewrite bind_run by reflexivity. cbn [fst snd]. simpl. rewrite Hob. simpl.
    erewrite bind_run by reflexivity.
    erewrite (bind_run (on_machine (transferFromGLTexture _)) _ _ (a1, m5) tt).
    2: { apply on_machine_returns.
         by rewrite (transferFromGLTexture_run o out1 (S xid) [r; c] _ m4 Ho4 eq_refl eq_refl Hg4). }
    erewrite bind_run.
    2: { apply on_machine_returns. apply read_run. simpl. by apply list_lookup_insert_eq. }
    reflexivity.
  - simpl. by rewrite list_lookup_insert_ne.
  - simpl. by apply list_lookup_insert_eq.
  - simpl. rewrite !length_insert, length_app, length_insert. simpl. lia.
  - simpl. by rewrite <- !app_assoc.
Qed.

(** Lines 66-96 on the first call of a layer with consumers, for an
    input that is resident on the device. *)
Lemma first_call_on_resident_input (a : Activation.t) (m : machine) (x : ref)
    (xt : Tensor) (p : gl_program) (xid : texid) (r c : nat) :
  Activation.program a = Some p ->
  output (Activation.base a) = None ->
  length (outbound (Activation.base a)) <> 0 ->
  heap m !! x = Some xt -> glTexture xt = Some xid -> glTextureShape xt = Some [r; c] ->
  let o := length (heap m) in
  let id := length (gpu_mem m) in
  let blank := Texture [r; c] "float" (zeros (product [r; c])) in
  Activation._callGPU x (a, m)
  = ((Activation.with_out (Some o) a,
      Machine (heap m ++ [output_for xt [r; c] id])
              (<[id := Texture [r; c] "float"
                               (kernel p [("x", (gpu_mem m ++ [blank]) !! xid)] [] blank)]>
                 (gpu_mem m ++ [blank]))
              (trace m ++ [EvNewTensor o; EvCreateGLTexture o id; EvRunProgram p o])),
     Returned tt).
Proof.
  intros Hp Hout Hob Hx Hid Hsh o id blank.
  apply lookup_lt_Some in Hx as Hlt.
  set (out0 := mkTensor (NDArray (zeros (product [r; c])) [r; c]) Float32Array
                        None None false false None None).
  set (m2 := Machine (heap m ++ [out0]) (gpu_mem m) (trace m ++ [EvNewTensor o])).
  assert (heap m2 !! o = Some out0) as Ho2 by apply lookup_snoc.
  set (out1 := with_glTexture id [r; c] false out0).
  set (m3 := Machine (heap m ++ [out1]) (gpu_mem m ++ [blank])
                     (trace m2 ++ [EvCreateGLTexture o id])).
  assert (createGLTexture o "float" m2 = (m3, Returned tt)) as Hcreate.
  { rewrite (createGLTexture_run o "float" out0 r c m2 Ho2 eq_refl).
    unfold m3, m2, o. simpl. by rewrite insert_snoc. }
  assert (heap m3 !! x = Some xt) as Hx3 by by apply lookup_app_l_Some.
  assert (heap m3 !! o = Some out1) as Ho3 by apply lookup_snoc.
  set (out2 := output_for xt [r; c] id).
  set (m4 := Machine (heap m ++ [out2]) (gpu_mem m3) (trace m3)).
  set (a1 := Activation.with_out (Some o) a).
  assert (Activation.create_output x (a, m) = ((a1, m4), Returned tt)) as Hcreate_output.
  { unfold Activation.create_output.
    erewrite bind_run by (apply on_machine_returns; by apply read_run).
    erewrite bind_run by (by apply defined_run).
    erewrite (bind_run (on_machine (new_Tensor _ _ _)) _ _ (a, m2) o) by reflexivity.
    erewrite bind_run by reflexivity.
    erewrite (bind_run (on_machine (createGLTexture _ _)) _ _ (a1, m3) tt).
    2: { apply on_machine_returns. exact Hcreate. }
    erewrite bind_run by (apply on_machine_returns; by apply read_run).
    unfold m4, out2, output_for. fold out0. fold out1.
    destruct (is1D xt) eqn:H1D.
    - apply on_machine_returns. rewrite (update_run o _ out1 m3 Ho3).
      unfold m3, o. simpl. by rewrite insert_snoc.
    - destruct (is2DReshaped xt) eqn:Hre.
      + apply on_machine_returns. rewrite (update_run o _ out1 m3 Ho3).
        unfold m3, o. simpl. by rewrite insert_snoc.
      + by destruct m. }
  assert (heap m4 !! o = Some out2) as Ho4 by apply lookup_snoc.
  assert (heap m4 !! x = Some xt) as Hx4 by by apply lookup_app_l_Some.
  assert (glTexture out2 = Some id) as Hid2.
  { unfold out2, output_for. by destruct (is1D xt), (is2DReshaped xt). }
  assert (gpu_mem m4 !! id = Some blank) as Hg4 by apply lookup_snoc.
  unfold Activation._callGPU.
  erewrite bind_run.
  2: { unfold Activation.compute.
       erewrite bind_run.
       2: { apply on_machine_returns. unfold Activation.ensure_texture.
            erewrite bind_run by by apply read_run.
            rewrite Hid. reflexivity. }
       erewrite bind_run by reflexivity. cbn [fst snd].
       rewrite Hout. simpl.
       erewrite bind_run by exact Hcreate_output.
       erewrite bind_run by reflexivity.
       erewrite bind_run by reflexivity. cbn [fst snd].
       erewrite bind_run by (apply on_machine_returns; by apply read_run).
       apply on_machine_returns.
       change (Activation.program a1) with (Activation.program a). rewrite Hp.
       by apply (runProgram_run p o out2 id blank). }
  unfold Activation.materialize.
  erewrite bind_run by reflexivity. cbn [fst snd]. simpl.
  rewrite bool_decide_eq_false_2 by done. rewrite Hid. simpl.
  by rewrite <- !app_assoc.
Qed.

(** X17. The first device call of an Activation layer with consumers on
    an input that is resident on the device returns, leaves the input as
    it was, and creates the output with the texture shape of the input
    and with its layout: the rank-1 mark, or else the reshape flag with
    the original shape and the index pair of a reshaped input.  It
    allocates one tensor and one texture, runs the program once and
    transfers nothing. *)
Theorem first_output_takes_the_layout_of_the_input (a : Activation.t) (m : machine) (x : ref)
    (xt : Tensor) (p : gl_program) (xid : texid) (r c : nat) :
  Activation.program a = Some p ->
  output (Activation.base a) = None ->
  length (outbound (Activation.base a)) <> 0 ->
  heap m !! x = Some xt -> glTexture xt = Some xid -> glTextureShape xt = Some [r; c] ->
  let o := length (heap m) in
  exists s' ot,
    Activation._callGPU x (a, m) = (s', Returned tt) /\
    output (Activation.base s'.1) = Some o /\
    heap s'.2 = heap m ++ [ot] /\
    shape (tensor ot) = [r; c] /\
    glTextureShape ot = Some [r; c] /\ glTexture ot = Some (length (gpu_mem m)) /\
    layout_taken_from xt ot /\
    trace s'.2 = trace m ++ [EvNewTensor o; EvCreateGLTexture o (length (gpu_mem m));
                             EvRunProgram p o].
Proof.
  intros Hp Hout Hob Hx Hid Hsh o.
  pose proof (first_call_on_resident_input a m x xt p xid r c Hp Hout Hob Hx Hid Hsh)
    as Hrun.
  cbv zeta in Hrun. fold o in Hrun.
  eexists (_, _), (output_for xt [r; c] (length (gpu_mem m))). split; [exact Hrun|].
  cbn [fst snd heap trace]. unfold output_for, layout_taken_from.
  destruct (is1D xt) eqn:H1D; [done|].
  by destruct (is2DReshaped xt) eqn:Hre.
Qed.

End ActivationDevice.

(** ** The wrapper: construction and configuration *)

Section WrapperConfiguration.
Context `{Env} {W : Type} `{!LayerClass W}.

(** X9. No sequence of calls of the wrapper, returning or throwing, on
    either backend and around any layer, changes the class tag, the
    backend or the consumers of the wrapper, or any of its five compiled
    programs. *)
Theorem wrapper_calls_keep_configuration (s : TimeDistributed.t (W:=W) * machine)
    (xs : list ref) :
  let td := s.1 in
  let td' := (TimeDistributed.calls xs s).1 in
  layerClass (TimeDistributed.base td') = layerClass (TimeDistributed.base td) /\
  gpu (TimeDistributed.base td') = gpu (TimeDistributed.base td) /\
  outbound (TimeDistributed.base td') = outbound (TimeDistributed.base td) /\
  TimeDistributed.copyTextureProgram td' = TimeDistributed.copyTextureProgram td /\
  TimeDistributed.mapInputProgram td' = TimeDistributed.mapInputProgram td /\
  TimeDistributed.selectSliceProgram td' = TimeDistributed.selectSliceProgram td /\
  TimeDistributed.copySliceOutputProgram td' = TimeDistributed.copySliceOutputProgram td /\
  TimeDistributed.mapSliceOutputProgram td' = TimeDistributed.mapSliceOutputProgram td.
Proof.
  intros td td'.
  by apply (calls_keep_fields
              (fun t' =>
                 layerClass (TimeDistributed.base t') = layerClass (TimeDistributed.base td) /\
                 gpu (TimeDistributed.base t') = gpu (TimeDistributed.base td) /\
                 outbound (TimeDistributed.base t') = outbound (TimeDistributed.base td) /\
                 TimeDistributed.copyTextureProgram t' = TimeDistributed.copyTextureProgram td /\
                 TimeDistributed.mapInputProgram t' = TimeDistributed.mapInputProgram td /\
                 TimeDistributed.selectSliceProgram t' = TimeDistributed.selectSliceProgram td /\
                 TimeDistributed.copySliceOutputProgram t'
                 = TimeDistributed.copySliceOutputProgram td /\
                 TimeDistributed.mapSliceOutputProgram t'
                 = TimeDistributed.mapSliceOutputProgram td) xs s).
Qed.

(** X6. The constructor of the wrapper fails in four ways only: the
    configuration has no [layer] entry (ConfigurationError), the catalog
    has no class of the given name (the TypeError of [new undefined]),
    the constructor of the wrapped layer failed, and then with its error
    and in its state, or, on the device path and after the wrapped layer
    was constructed, the device did not compile one of the five programs
    of the wrapper (BackendUnavailableError), the programs before it
    having been compiled.  In the first two cases the machine is
    untouched. *)
Theorem wrapper_construction_fails_only_for (cfg : attrs) (m m' : machine) (e : error) :
  TimeDistributed.constructor (W:=W) cfg m = (m', Thrown e) ->
  (attr_layer cfg = None /\ e = ConfigurationError "wrapped layer is undefined." /\ m' = m) \/
  (exists class_name config, attr_layer cfg = Some (class_name, config) /\
     ((layers class_name = None /\ e = TypeError "layers[layer.class_name]" /\ m' = m) \/
      (exists ctor, layers class_name = Some ctor /\
         let wrapped := ctor (Attrs (attr_gpu cfg) (attr_outboundCount config)
                                    (attr_activation config) (attr_layer config)) m in
         (wrapped = (m', Thrown e) \/
          exists m1 w before p after,
            wrapped = (m1, Returned w) /\ attr_gpu cfg = true /\
            wrapper_programs = before ++ p :: after /\
            Forall (fun q => compiles q = true) before /\ compiles p = false /\
            e = BackendUnavailableError p /\
            m' = Machine (heap m1) (gpu_mem m1)
                         (trace m1 ++ (EvCompileProgram <$> before)))))).
Proof.
  unfold TimeDistributed.constructor.
  destruct (attr_layer cfg) as [[class_name config]|].
  2: { intros [= <- <-]. by left. }
  intros Hrun. right. exists class_name, config. split; [done|].
  revert Hrun. unfold bind at 1. unfold defined.
  destruct (layers class_name) as [ctor|]; simpl.
  2: { intros [= <- <-]. by left. }
  intros Hrun. right. exists ctor. split; [done|]. cbv zeta. revert Hrun.
  unfold bind at 1.
  destruct (ctor _ m) as [m1 [w|e1]] eqn:Hctor.
  2: { intros [= -> ->]. by left. }
  intros Hrun. right. exists m1, w.
  destruct (attr_gpu cfg); simpl in Hrun; [|done].
  revert Hrun. unfold compileProgram, bind, emit, modify, ret, throw. simpl.
  destruct (compiles CopyTextureProgram) eqn:H1; simpl.
  2: { intros [= <- <-]. exists [], CopyTextureProgram, (tail wrapper_programs).
       simpl. rewrite app_nil_r. by destruct m1. }
  destruct (compiles MapInputProgram) eqn:H2; simpl.
  2: { intros [= <- <-]. exists (take 1 wrapper_programs), MapInputProgram,
         (drop 2 wrapper_programs). simpl. repeat split; try done. by repeat constructor. }
  destruct (compiles SelectSliceProgram) eqn:H3; simpl.
  2: { intros [= <- <-]. exists (take 2 wrapper_programs), SelectSliceProgram,
         (drop 3 wrapper_programs). simpl. rewrite <- !app_assoc.
       repeat split; try done. by repeat constructor. }
  destruct (compiles CopySliceOutputProgram) eqn:H4; simpl.
  2: { intros [= <- <-]. exists (take 3 wrapper_programs), CopySliceOutputProgram,
         (drop 4 wrapper_programs). simpl. rewrite <- !app_assoc.
       repeat split; try done. by repeat constructor. }
  destruct (compiles MapSliceOutputProgram) eqn:H5; simpl; [done|].
  intros [= <- <-]. exists (take 4 wrapper_programs), MapSliceOutputProgram, [].
  simpl. rewrite <- !app_assoc. repeat split; try done. by repeat constructor.
Qed.

End WrapperConfiguration.

Section WrappedActivationConstruction.
Context `{Env}.

(** X7. Constructing a wrapper around an Activation layer that returns
    has allocated nothing; on the device path it has compiled six programs,
    first the one of the wrapped layer and then the five of the wrapper in
    the order of the source, and on the CPU path none.  The wrapper starts
    without output, slice, copy of the output and index maps, and the
    wrapped layer without output. *)
Theorem wrapper_constructor_compiles_its_programs (cfg config : attrs) (m m' : machine)
    (td : TimeDistributed.t (W:=Activation.t)) :
  attr_layer cfg = Some ("Activation", config) ->
  TimeDistributed.constructor cfg m = (m', Returned td) ->
  let name := default "linear" (attr_activation config) in
  heap m' = heap m /\ gpu_mem m' = gpu_mem m /\
  trace m' = trace m ++
    (if attr_gpu cfg
     then EvCompileProgram <$> [ActivationProgram name; CopyTextureProgram; MapInputProgram;
                                SelectSliceProgram; CopySliceOutputProgram;
                                MapSliceOutputProgram]
     else []) /\
  Activation.activation (TimeDistributed.wrappedLayer td) = name /\
  output (TimeDistributed.base td) = None /\
  output (Activation.base (TimeDistributed.wrappedLayer td)) = None /\
  TimeDistributed.slice td = None /\ TimeDistributed.outputCopy td = None /\
  TimeDistributed.rowIndexMaps td = None /\ TimeDistributed.colIndexMaps td = None /\
  TimeDistributed.outputRowIndexMaps td = None /\
  TimeDistributed.outputColIndexMaps td = None.
Proof.
  intros Hlayer. unfold TimeDistributed.constructor. rewrite Hlayer.
  unfold bind, defined. simpl.
  unfold Activation.constructor, with_layerClass, Layer_new. simpl.
  unfold bind, require_activation_glsl, compileProgram, emit, modify, ret, throw.
  destruct (attr_gpu cfg); simpl.
  - destruct (shader_exists _); simpl; [|done].
    repeat (destruct (compiles _); simpl; [|done]).
    intros [= <- <-]. simpl. by rewrite <- !app_assoc.
  - intros [= <- <-]. simpl. by rewrite app_nil_r.
Qed.

Lemma constructor_backends (cfg : attrs) (m0 m : machine)
    (td : TimeDistributed.t (W:=Activation.t)) :
  TimeDistributed.constructor cfg m0 = (m, Returned td) ->
  gpu (TimeDistributed.base td) = attr_gpu cfg /\
  gpu (Activation.base (TimeDistributed.wrappedLayer td)) = attr_gpu cfg.
Proof.
  unfold TimeDistributed.constructor.
  destruct (attr_layer cfg) as [[class_name config]|]; [|done].
  unfold bind, defined. simpl. case_decide as Hcn; simpl; [|done]. subst class_name.
  unfold Activation.constructor, with_layerClass, Layer_new. simpl.
  unfold bind, require_activation_glsl, compileProgram, emit, modify, ret, throw.
  destruct (attr_gpu cfg); simpl.
  - destruct (shader_exists _); simpl; [|done].
    repeat (destruct (compiles _); simpl; [|done]). by intros [= <- <-].
  - by intros [= <- <-].
Qed.

(** X8. The wrapped layer is constructed with the backend of the
    wrapper, whatever its own configuration says, and this stays so: after
    the construction and any sequence of calls of the wrapper the backend
    flag of the wrapper and that of the wrapped Activation layer are both
    the [gpu] attribute the wrapper was constructed with. *)
Theorem wrapped_layer_runs_on_the_backend_of_its_wrapper (cfg : attrs) (m0 m : machine)
    (td : TimeDistributed.t (W:=Activation.t)) (xs : list ref) :
  TimeDistributed.constructor cfg m0 = (m, Returned td) ->
  let s := TimeDistributed.calls xs (td, m) in
  gpu (TimeDistributed.base s.1) = attr_gpu cfg /\
  gpu (Activation.base (TimeDistributed.wrappedLayer s.1)) = attr_gpu cfg.
Proof.
  intros Hc s. apply constructor_backends in Hc.
  set (Pw := fun a : Activation.t => gpu (Activation.base a) = attr_gpu cfg).
  set (P := fun t' : TimeDistributed.t (W:=Activation.t) =>
              gpu (TimeDistributed.base t') = attr_gpu cfg /\
              Pw (TimeDistributed.wrappedLayer t')).
  assert (forall A meth arg (mw : M (Activation.t * machine) A),
            hoare (both Pw (fun _ => True)) mw (fun _ => True) ->
            hoare (both P (fun _ => True)) (TimeDistributed.invoke_wrapped meth arg mw)
                  (fun _ => True)) as Hinv.
  { intros A meth arg mw Hmw.
    apply (hoare_invoke_wrapped meth arg mw Pw (fun _ => True)); [done| |].
    - by intros t' mc [_ Hw] _.
    - by intros t' mc w' mc' held [Hg _] _ Hw' _. }
  destruct (wrapper_calls (fun _ => True) (fun _ => True) (fun _ => True) stable_trivial
              (fun _ _ => I) P) with (xs:=xs) (s:=(td, m)) as [HP _]; try done.
  - intros sl. apply Hinv.
    by apply (activation_callGPU (fun _ => True) (fun _ => True) (fun _ => True)
                stable_trivial (fun _ _ => I) Pw).
  - intros step. apply Hinv.
    by apply (activation_call (fun _ => True) (fun _ => True) (fun _ => True)
                stable_trivial (fun _ _ => I) Pw).
Qed.

End WrappedActivationConstruction.

(** ** The wrapper: invocations of the wrapped layer on the device path *)

Section WrappedInvocations.
Context `{Env}.

Lemma stable_invoked (t0 : list event) (l : list (method * ref)) :
  stable plain (fun _ => True) (invoked t0 l).
Proof.
  split; try done.
  intros m ev Hok (evs & Htr & Hl). exists (evs ++ [ev]). simpl. split.
  - by rewrite Htr, app_assoc.
  - unfold wrapped_calls in *. rewrite omap_app, Hl. destruct ev; try done; simpl;
      by rewrite app_nil_r.
Qed.

Lemma basic_plain (ev : event) : basic ev = true -> plain ev.
Proof. by destruct ev. Qed.

Lemma off_device_plain (ev : event) : off_device ev = true -> plain ev.
Proof. by destruct ev. Qed.

Context {W : Type} `{!LayerClass W}.

Lemma call_wrapped_on_slice_invoked (sh : option (list nat)) (sl : ref) (t0 : list event)
    (k : nat) :
  triple (both (slicing (W:=W) sh sl) (invoked t0 (replicate k (MethodCallGPU, sl))))
         TimeDistributed.call_wrapped_on_slice
         (both (slicing (W:=W) sh sl) (invoked t0 (replicate (Datatypes.S k) (MethodCallGPU, sl)))).
Proof.
  intros [td mc] s' [] [[Hsh Hsl] (evs & Htr & Hl)] Hrun. simpl in *.
  unfold TimeDistributed.call_wrapped_on_slice in Hrun.
  apply bind_returned in Hrun as (s1 & td1 & [= <- <-] & Hrun).
  rewrite Hsl in Hrun.
  apply bind_returned in Hrun as (s2 & sl' & [= <- <-] & Hrun).
  apply bind_returned in Hrun as (s3 & [] & Hinv & [= <-]).
  unfold TimeDistributed.invoke_wrapped in Hinv. simpl in Hinv.
  destruct (wrapped_callGPU sl _) as [[w' mc'] r]. simpl in Hinv.
  injection Hinv as <- ->. split; [done|]. simpl.
  eexists. split; [by rewrite Htr, <- app_assoc|].
  unfold wrapped_calls in *. rewrite omap_app, Hl. simpl.
  by rewrite replicate_cons_app.
Qed.

Lemma select_slice_needs_slice {B : Type} (x : ref) (i : nat)
    (f : unit -> M (TimeDistributed.t (W:=W) * machine) B)
    (s s' : TimeDistributed.t * machine) (b : B) :
  bind (TimeDistributed.select_slice x i) f s = (s', Returned b) ->
  exists sl, TimeDistributed.slice s.1 = Some sl.
Proof.
  intros Hrun. apply bind_returned in Hrun as (s1 & [] & Hsel & _).
  unfold TimeDistributed.select_slice in Hsel.
  apply bind_returned in Hsel as (s2 & td & [= <- <-] & Hsel).
  apply bind_returned in Hsel as (s3 & ish & _ & Hsel).
  apply bind_returned in Hsel as (s4 & sl & Hsl & _).
  destruct (TimeDistributed.slice s.1) as [sl0|]; [by exists sl0|done].
Qed.

Lemma slicing_tail (x : ref) (sh : option (list nat)) (sl : ref) (t0 : list event)
    (timesteps : option nat) :
  triple (both (slicing (W:=W) sh sl) (invoked t0 []))
         (TimeDistributed.select_slice x 0 ;;;
          TimeDistributed.call_wrapped_on_slice ;;;
          td <- this ;;
          when (bool_decide (output (TimeDistributed.base td) = None))
               (TimeDistributed.create_output timesteps) ;;;
          TimeDistributed.write_slice timesteps 0 ;;;
          for_each (seq 1 (default 0 timesteps - 1)) (fun i =>
            TimeDistributed.select_slice x i ;;;
            TimeDistributed.call_wrapped_on_slice ;;;
            TimeDistributed.write_slice timesteps i))
         (both (slicing (W:=W) sh sl)
               (invoked t0 (replicate (Nat.max 1 (default 0 timesteps)) (MethodCallGPU, sl)))).
Proof.
  assert (forall k i, hoare (both (slicing (W:=W) sh sl) (invoked t0 (replicate k (MethodCallGPU, sl))))
                            (TimeDistributed.select_slice x i) (fun _ => True)) as Hsel.
  { intros k i. apply (wrapper_select_slice plain (fun _ => True) _ (stable_invoked _ _)
                         basic_plain). }
  assert (forall k i, hoare (both (slicing (W:=W) sh sl) (invoked t0 (replicate k (MethodCallGPU, sl))))
                            (TimeDistributed.write_slice timesteps i) (fun _ => True)) as Hwr.
  { intros k i. apply (wrapper_write_slice plain (fun _ => True) _ (stable_invoked _ _)
                         basic_plain). }
  eapply triple_bind; [eapply triple_hoare; apply (Hsel 0)|]. intros _.
  eapply triple_bind; [apply (call_wrapped_on_slice_invoked sh sl t0 0)|]. intros _.
  eapply triple_bind_hoare; [apply hoare_this|]. intros td _.
  eapply triple_bind.
  { eapply (triple_hoare _ (fun _ => True)). apply hoare_when; [done|]. intros _.
    by apply (wrapper_create_output plain (fun _ => True) _ (stable_invoked _ _) basic_plain). }
  intros _.
  eapply triple_bind; [eapply triple_hoare; apply (Hwr 1)|]. intros _.
  replace (Nat.max 1 (default 0 timesteps))
    with (1 + length (seq 1 (default 0 timesteps - 1))) by (rewrite length_seq; lia).
  apply (triple_for_each_indexed
           (fun k => both (slicing (W:=W) sh sl) (invoked t0 (replicate k (MethodCallGPU, sl))))).
  intros i j.
  eapply triple_bind; [eapply triple_hoare; apply (Hsel j)|]. intros _.
  eapply triple_bind; [apply call_wrapped_on_slice_invoked|]. intros _.
  eapply triple_hoare. apply (Hwr (Datatypes.S j)).
Qed.

(** X10. A device call of the wrapper (around any layer) that returns has
    invoked the wrapped layer through [_callGPU] only, never through
    [call], every time on the one tensor the wrapper holds as its slice,
    and as many times as the time axis of the input is long; with an
    empty time axis it has still invoked it once, since the first slice is
    taken before the loop.  The time axis is the first entry of the
    original shape of a reshaped input and of the shape of any other. *)
Theorem device_path_invokes_wrapped_layer_per_timestep (td : TimeDistributed.t (W:=W))
    (m : machine) (x : ref) (xt : Tensor) (s' : TimeDistributed.t * machine) :
  heap m !! x = Some xt ->
  TimeDistributed._callGPU x (td, m) = (s', Returned tt) ->
  exists sh sl evs,
    (if is2DReshaped xt then originalShape xt else Some (shape (tensor xt))) = Some sh /\
    TimeDistributed.inputShape s'.1 = Some sh /\
    TimeDistributed.slice s'.1 = Some sl /\
    trace s'.2 = trace m ++ evs /\
    wrapped_calls evs = replicate (Nat.max 1 (default 0 (head sh))) (MethodCallGPU, sl).
Proof.
  intros Hx Hrun. unfold TimeDistributed._callGPU in Hrun.
  apply bind_returned in Hrun as (s1 & [] & Hcomp & Hmat).
  unfold TimeDistributed.compute in Hcomp.
  erewrite bind_run in Hcomp by (apply on_machine_returns; by apply read_run).
  erewrite bind_run in Hcomp by reflexivity.
  set (osh := if is2DReshaped xt then originalShape xt else Some (shape (tensor xt))) in *.
  set (I0 := both (fun t' : TimeDistributed.t (W:=W) => TimeDistributed.inputShape t' = osh)
                  (invoked (trace m) [])).
  assert (stable plain (fun _ => True) (invoked (trace m) [])) as Hst by apply stable_invoked.
  apply bind_returned in Hcomp as (sA & [] & HA & Hcomp).
  assert (I0 sA) as HIA.
  { eapply hoare_keeps; [| |exact HA].
    - apply hoare_on_machine.
      eapply stable_ensure_input_texture; [exact Hst|apply basic_plain].
    - split; [done|]. exists []. by rewrite app_nil_r. }
  apply bind_returned in Hcomp as (sB & tdB & [= <- <-] & Hcomp).
  apply bind_returned in Hcomp as (sC & sh & Hdef & Hcomp).
  assert (osh = Some sh /\ sC = sA) as [Hosh ->].
  { destruct HIA as [HshA _]. rewrite HshA in Hdef. destruct osh; [|done].
    by injection Hdef as <- <-. }
  apply bind_returned in Hcomp as (sD & xt' & HD & Hcomp).
  assert (I0 sD) as HID.
  { refine (hoare_keeps I0 _ _ _ _ _ HIA HD).
    apply hoare_on_machine. apply stable_read. }
  apply bind_returned in Hcomp as (sE & [] & HE & Hcomp).
  assert (I0 sE) as HIE.
  { refine (hoare_keeps I0 _ _ _ _ _ HID HE).
    apply hoare_when; [done|]. intros _.
    by apply (wrapper_createIndexMap plain (fun _ => True) _ Hst basic_plain). }
  apply bind_returned in Hcomp as (sF & tdF & [= <- <-] & Hcomp).
  apply bind_returned in Hcomp as (sG & [] & HG & Hcomp).
  assert (I0 sG) as HIG.
  { refine (hoare_keeps I0 _ _ _ _ _ HIE HG).
    apply hoare_when; [done|]. intros _.
    by apply (wrapper_create_slice plain (fun _ => True) _ Hst basic_plain). }
  destruct (select_slice_needs_slice _ _ _ _ _ _ Hcomp) as (sl & Hsl).
  apply (slicing_tail x osh sl (trace m) (head sh)) in Hcomp.
  2: { destruct HIG as [HshG HJG]. by split. }
  assert (both (slicing (W:=W) osh sl)
               (invoked (trace m) (replicate (Nat.max 1 (default 0 (head sh)))
                                             (MethodCallGPU, sl))) s')
    as [[Hsh' Hsl'] (evs & Htr & Hl)].
  { refine (hoare_keeps _ _ _ _ _ _ Hcomp Hmat).
    apply (wrapper_materialize plain (fun _ => True) _ (stable_invoked _ _)).
    intros ? _ _ ev. apply off_device_plain. }
  exists sh, sl, evs. by rewrite <- Hosh.
Qed.

End WrappedInvocations.

(** ** The wrapper: the tensors of the device path *)

Section ScratchTensors.
Context `{Env} {W : Type} `{!LayerClass W}.

Ltac has_it :=
  match goal with
  | HP : device_tensors _ _ _ ?td, Hb : bool_decide (_ ?td = None) = true |- _ =>
      apply bool_decide_eq_true_1 in Hb; destruct HP as (? & ? & ? & ?); congruence
  | HP : device_tensors _ _ _ ?td, Hb : bool_decide (output (_ ?td) = None) = true |- _ =>
      apply bool_decide_eq_true_1 in Hb; destruct HP as (? & ? & ? & ?); congruence
  end.

Lemma device_call_keeps_tensors (sl o c : ref) (x : ref) :
  hoare (both (device_tensors sl o c) (fun _ => True)) (TimeDistributed.call x)
        (fun _ => True).
Proof.
  pose proof stable_trivial as Hst.
  assert (forall ev, basic ev = true -> (fun _ : event => True) ev) as Hok by done.
  assert (hoare (both (device_tensors sl o c) (fun _ => True))
                TimeDistributed.call_wrapped_on_slice (fun _ => True)) as Hwrapped.
  { unfold TimeDistributed.call_wrapped_on_slice.
    eapply hoare_bind; [apply hoare_this|]. intros td _.
    eapply hoare_bind; [apply hoare_defined|]. intros s0 _.
    eapply hoare_bind; [by apply invoke_wrapped_keeps_fields|]. intros _ _.
    by apply hoare_set_this. }
  unfold TimeDistributed.call.
  eapply hoare_bind; [apply hoare_this|]. intros td (Hg & _).
  rewrite Hg.
  eapply hoare_bind; [|intros _ _; repeat hoare_step].
  unfold TimeDistributed._callGPU.
  eapply hoare_bind; [|intros _ _].
  - unfold TimeDistributed.compute.
    repeat first
      [ has_it
      | hoare_step
      | apply (wrapper_select_slice _ _ _ Hst Hok)
      | apply (wrapper_write_slice _ _ _ Hst Hok)
      | by apply (wrapper_createIndexMap _ _ _ Hst Hok)
      | apply Hwrapped
      | hoare_true; apply (wrapper_select_slice _ _ _ Hst Hok)
      | hoare_true; apply (wrapper_write_slice _ _ _ Hst Hok)
      | hoare_true; apply Hwrapped ].
  - by apply (wrapper_materialize _ _ _ Hst).
Qed.

(** X11. On the device path the slice, the output and the copy of the
    output are created once: when the wrapper holds all three, no sequence
    of calls, returning or throwing, with inputs of any shape, replaces
    any of them. *)
Theorem device_tensors_are_created_once (s : TimeDistributed.t (W:=W) * machine)
    (sl o c : ref) (xs : list ref) :
  gpu (TimeDistributed.base s.1) = true ->
  TimeDistributed.slice s.1 = Some sl ->
  output (TimeDistributed.base s.1) = Some o ->
  TimeDistributed.outputCopy s.1 = Some c ->
  let s' := TimeDistributed.calls xs s in
  TimeDistributed.slice s'.1 = Some sl /\
  output (TimeDistributed.base s'.1) = Some o /\
  TimeDistributed.outputCopy s'.1 = Some c.
Proof.
  intros Hg Hsl Ho Hc s'.
  assert (both (device_tensors sl o c) (fun _ => True) s') as [(_ & ? & ? & ?) _]; [|done].
  unfold s'. clear s'.
  assert (both (device_tensors sl o c) (fun _ => True) s) as Hs by done.
  clear Hg Hsl Ho Hc. revert s Hs.
  induction xs as [|x xs IH]; intros s Hs; simpl; [done|].
  apply IH. by apply device_call_keeps_tensors.
Qed.

End ScratchTensors.

(** ** The CPU path never touches the device *)

Section CPUOnly.
Context `{Env} (g0 : list (texture elt)) (t0 : list event).

Lemma off_gpu_read (r : ref) : hoare (off_gpu g0 t0) (read r) (fun _ => True).
Proof. apply stable_read. Qed.

Lemma off_gpu_emit (ev : event) :
  cpu_only ev = true -> hoare (off_gpu g0 t0) (emit ev) (fun _ => True).
Proof.
  intros Hev m [Hg (evs & Htr & Hall)]. split; [|done]. split; [done|]. simpl.
  exists (evs ++ [ev]). split; [by rewrite Htr, app_assoc|].
  rewrite forallb_app, Hall. simpl. by rewrite Hev.
Qed.

Lemma off_gpu_new_Tensor (d : list elt) (sh : list nat) (ty : array_type) :
  hoare (off_gpu g0 t0) (new_Tensor d sh ty) (fun _ => True).
Proof.
  intros m HJ. split; [|done].
  unfold new_Tensor, bind, gets, modify, ret. simpl.
  by apply (off_gpu_emit (EvNewTensor (length (heap m))) eq_refl (Machine _ _ _)).
Qed.

Lemma off_gpu_update (r : ref) (f : Tensor -> Tensor) :
  hoare (off_gpu g0 t0) (update r f) (fun _ => True).
Proof.
  intros m HJ. unfold update, bind, read, write, modify.
  destruct (heap m !! r) as [t|]; simpl; by split.
Qed.

Lemma off_gpu_ops_assign (d : ref) (dv : ndarray elt -> option view)
    (src : ref) (sv : ndarray elt -> option view) :
  hoare (off_gpu g0 t0) (TimeDistributed.ops_assign d dv src sv) (fun _ => True).
Proof.
  intros m HJ. split; [|done]. unfold TimeDistributed.ops_assign, bind, read, write, modify.
  destruct (heap m !! d) as [dt|]; simpl; [|done].
  destruct (heap m !! src) as [st|]; simpl; [|done].
  by destruct (assign _ _ _ _ _).
Qed.

End CPUOnly.

Ltac cpu_prim :=
  first
  [ apply off_gpu_read
  | apply off_gpu_new_Tensor
  | apply off_gpu_update
  | apply off_gpu_ops_assign
  | by apply off_gpu_emit ].

Ltac cpu_leaf :=
  lazymatch goal with
  | |- hoare _ (ret _) _ => hoare_true; by apply hoare_ret
  | |- hoare _ (throw _) _ => apply hoare_throw
  | |- hoare _ this _ => apply hoare_this
  | |- hoare _ (defined _ _) _ => apply hoare_defined
  | |- hoare _ (TimeDistributed.stacked _ _) _ => hoare_true; apply hoare_stacked
  | |- hoare _ (on_machine _) _ => hoare_true; apply hoare_on_machine; cpu_prim
  | |- hoare _ (set_this _) _ => hoare_true; apply hoare_set_this; [by auto|done]
  end.

Ltac cpu_step :=
  lazymatch goal with
  | |- hoare _ (bind _ _) _ => eapply hoare_bind; [|intros ? ?]
  | |- hoare _ (for_each _ _) _ => hoare_true; apply hoare_for_each; intros ? ?
  | |- _ => cpu_leaf
  end.

Section CPUBackend.
Context `{Env}.

Lemma cpu_activation_call (g0 : list (texture elt)) (t0 : list event) (x : ref) :
  hoare (both on_cpu (off_gpu g0 t0)) (Activation.call x) (fun _ => True).
Proof.
  unfold Activation.call.
  eapply hoare_bind; [apply hoare_this|]. intros a Ha.
  case_decide.
  - unfold Activation.set_output. repeat cpu_step.
  - unfold on_cpu in Ha. rewrite Ha.
    eapply hoare_bind; [|intros _ _; repeat cpu_step].
    unfold Activation._callCPU, Activation.set_output. repeat cpu_step.
Qed.

Lemma cpu_wrapper_call (g0 : list (texture elt)) (t0 : list event) (x : ref) :
  hoare (both wrapper_on_cpu (off_gpu g0 t0)) (TimeDistributed.call x) (fun _ => True).
Proof.
  assert (forall step,
            hoare (both wrapper_on_cpu (off_gpu g0 t0))
                  (TimeDistributed.invoke_wrapped MethodCall step (wrapped_call step))
                  (fun _ => True)) as Hwrapped.
  { intros step.
    apply (hoare_invoke_wrapped _ _ _ on_cpu (off_gpu g0 [])).
    - eapply hoare_weaken; [apply cpu_activation_call|done].
    - intros td mc [_ Hw] [Hg _]. split; [done|]. split; [done|]. by exists [].
    - intros td mc w' mc' held [Hgpu _] [Hg (evs & Htr & Hall)] Hw' [Hg' (sub & Hsub & Hall')].
      split; [done|]. split; [done|]. simpl.
      exists (evs ++ [EvWrapped MethodCall step held (trace mc')]). split.
      + by rewrite Htr, app_assoc.
      + rewrite forallb_app, Hall. simpl. simpl in Hsub. by rewrite Hsub, Hall'. }
  unfold TimeDistributed.call.
  eapply hoare_bind; [apply hoare_this|]. intros td [Hgpu _]. rewrite Hgpu.
  eapply hoare_bind; [|intros _ _; repeat cpu_step].
  unfold TimeDistributed._callCPU, TimeDistributed.set_output.
  repeat first [ cpu_step | hoare_true; apply Hwrapped ].
Qed.

(** X12. The CPU path never touches the device.  A call of an Activation
    layer on the CPU backend, returning or throwing, leaves the device
    memory as it was and records only allocations of tensors and the
    application of the activation function; and a wrapper constructed for
    the CPU backend around an Activation layer, through any sequence of
    calls, leaves the device memory as it was at construction and records
    only allocations and invocations of the wrapped layer's [call] that
    did the same. *)
Theorem cpu_backend_never_touches_the_device :
  (forall (a : Activation.t) (m : machine) (x : ref),
     gpu (Activation.base a) = false ->
     off_gpu (gpu_mem m) (trace m) (Activation.call x (a, m)).1.2) /\
  (forall (cfg : attrs) (m0 m : machine) (td : TimeDistributed.t (W:=Activation.t))
          (xs : list ref),
     attr_gpu cfg = false ->
     TimeDistributed.constructor cfg m0 = (m, Returned td) ->
     off_gpu (gpu_mem m0) (trace m0) (TimeDistributed.calls xs (td, m)).2).
Proof.
  split.
  - intros a m x Ha.
    destruct (cpu_activation_call (gpu_mem m) (trace m) x (a, m)) as [[_ HJ] _]; [|done].
    split; [done|]. split; [done|]. exists []. by rewrite app_nil_r.
  - intros cfg m0 m td xs Hcpu Hc.
    assert (both wrapper_on_cpu (off_gpu (gpu_mem m0) (trace m0)) (td, m)) as Hs.
    { revert Hc. unfold TimeDistributed.constructor.
      destruct (attr_layer cfg) as [[class_name config]|]; [|done].
      unfold bind, defined. simpl. case_decide as Hcn; simpl; [|done].
      unfold Activation.constructor, with_layerClass, Layer_new. simpl. rewrite Hcpu. simpl.
      intros [= <- <-]. split; [done|]. split; [done|]. exists []. by rewrite app_nil_r. }
    clear Hc. revert Hs. generalize (td, m). clear td m.
    induction xs as [|x xs IH]; intros s Hs; simpl; [by destruct Hs|].
    apply IH. by apply cpu_wrapper_call.
Qed.

End CPUBackend.

(** ** The wrapper: the index maps *)

Section IndexMaps.
Context `{Env}.

Context {W : Type} `{!LayerClass W}.

Lemma index_map_round_keeps (ok : event -> Prop) (fresh : ref -> Prop) (J : machine -> Prop)
    (indicesRow indicesCol : ref) (sliceShape : list nat) (k : nat) :
  stable ok fresh J -> (forall ev, basic ev = true -> ok ev) ->
  hoare (both (fun _ => True) J) (index_map_round (W:=W) indicesRow indicesCol sliceShape k)
        (fun _ => True).
Proof. intros Hst Hok. unfold index_map_round. repeat hoare_step. Qed.

Lemma index_map_round_builds (n : nat) (indicesRow indicesCol : ref) (sliceShape : list nat)
    (i k : nat) :
  triple (index_maps_built (W:=W) n k) (index_map_round (W:=W) indicesRow indicesCol sliceShape i)
         (index_maps_built n (Datatypes.S k)).
Proof.
  intros [td mc] s' [] (Hn & rows & cols & Hrows & Hcols & Hlr & Hlc & Hall) Hrun.
  simpl in *.
  assert (n <= length (heap s'.2)) as Hn'.
  { pose proof (index_map_round_keeps _ _ _ indicesRow indicesCol sliceShape i
                  (stable_at_least n) (fun _ _ => I)) as Hk.
    by destruct (hoare_keeps _ _ _ _ _ Hk (conj I Hn : both (fun _ => True) _ (td, mc)) Hrun). }
  assert (Forall (fun r => n <= r /\ device_resident r s'.2) (rows ++ cols)) as Hold.
  { eapply Forall_impl; [|exact Hall]. intros q [Hq Hres]. split; [done|].
    apply resident_has_texture in Hres as (id & Htex).
    pose proof (index_map_round_keeps _ _ _ indicesRow indicesCol sliceShape i
                  (stable_has_texture (length (heap mc)) q id) (fun _ _ => I)) as Hk.
    destruct (hoare_keeps _ _ _ _ _ Hk (conj I Htex : both (fun _ => True) _ (td, mc)) Hrun)
      as [_ Htex'].
    by eapply has_texture_resident. }
  unfold index_map_round in Hrun.
  apply bind_returned in Hrun as (s1 & r & Hr & Hrun).
  apply on_machine_inv in Hr as (mc1 & Hr & ->).
  injection Hr as <- <-.
  apply bind_returned in Hrun as (s2 & c & Hc & Hrun).
  apply on_machine_inv in Hc as (mc2 & Hc & ->).
  injection Hc as <- <-. simpl in Hrun.
  set (r := length (heap mc)) in *.
  set (c := length (heap mc ++ [mkTensor (NDArray (zeros (product sliceShape)) sliceShape)
                                         Int32Array None None false false None None])) in *.
  assert (c = Datatypes.S r) as Hcr by (unfold c, r; rewrite length_app; simpl; lia).
  apply bind_returned in Hrun as (s3 & [] & H3 & Hrun).
  apply on_machine_inv in H3 as (mc3 & H3 & ->).
  apply bind_returned in Hrun as (s4 & [] & H4 & Hrun).
  apply on_machine_inv in H4 as (mc4 & H4 & ->).
  apply bind_returned in Hrun as (s5 & [] & H5 & Hrun).
  apply on_machine_inv in H5 as (mc5 & H5 & ->).
  apply bind_returned in Hrun as (s6 & [] & H6 & Hrun).
  apply on_machine_inv in H6 as (mc6 & H6 & ->).
  apply bind_returned in Hrun as (s7 & [] & H7 & Hrun).
  apply on_machine_inv in H7 as (mc7 & H7 & ->).
  apply bind_returned in Hrun as (s8 & [] & H8 & Hrun).
  apply on_machine_inv in H8 as (mc8 & H8 & ->).
  apply createGLTexture_returned in H7 as (Hlen7 & Hr7 & Hres7).
  assert (device_resident r mc8 /\ device_resident c mc8) as [Hr8 Hc8].
  { pose proof (createGLTexture_returned _ _ _ _ H8) as (Hlen8 & Hc8 & Hres8).
    split; [|done].
    apply resident_has_texture in Hres7 as (id & Htex).
    assert (has_texture c r id mc7) as Htex7.
    { destruct Htex as (_ & _ & Ht). split; [lia|]. split; [lia|done]. }
    pose proof (stable_createGLTexture_at (fun _ => True) _ _ (stable_has_texture c r id)
                  (fun _ _ => I) c "int" mc7 (or_introl (le_n c)) Htex7) as Htex8.
    rewrite H8 in Htex8. by eapply has_texture_resident. }
  apply bind_returned in Hrun as (s9 & td9 & [= <- <-] & Hrun).
  rewrite Hrows in Hrun.
  apply bind_returned in Hrun as (s10 & rows' & [= <- <-] & Hrun).
  apply bind_returned in Hrun as (s11 & [] & [= <-] & Hrun).
  apply bind_returned in Hrun as (s12 & td12 & [= <- <-] & Hrun).
  simpl in Hrun. rewrite Hcols in Hrun.
  apply bind_returned in Hrun as (s13 & cols' & [= <- <-] & Hrun).
  injection Hrun as <-. simpl in *.
  split; [done|]. exists (rows ++ [r]), (cols ++ [c]).
  split; [done|]. split; [done|].
  split; [rewrite length_app; simpl; lia|]. split; [rewrite length_app; simpl; lia|].
  apply Forall_app in Hold as [Hor Hoc].
  repeat (apply Forall_app; split); try done; apply Forall_singleton; split; try done;
    unfold r in *; lia.
Qed.

(** X13. When the wrapper does not hold both input-side collections,
    [_createIndexMap] that returns has built both anew, whatever one of
    them held: each has one tensor per timestep of the input shape, every
    one of them allocated by this call and resident on the device. *)
Theorem index_maps_cover_every_timestep (td : TimeDistributed.t (W:=W)) (m : machine)
    (ix : option (ndarray elt * ndarray elt)) (s' : TimeDistributed.t * machine) :
  TimeDistributed.both_defined (TimeDistributed.rowIndexMaps td)
                               (TimeDistributed.colIndexMaps td) = false ->
  TimeDistributed._createIndexMap ix (td, m) = (s', Returned tt) ->
  exists sh rows cols,
    TimeDistributed.inputShape td = Some sh /\
    TimeDistributed.rowIndexMaps s'.1 = Some rows /\
    TimeDistributed.colIndexMaps s'.1 = Some cols /\
    length rows = default 0 (head sh) /\ length cols = default 0 (head sh) /\
    Forall (fun r => length (heap m) <= r /\ device_resident r s'.2) (rows ++ cols).
Proof.
  intros Hb Hrun. unfold TimeDistributed._createIndexMap in Hrun.
  apply bind_returned in Hrun as (s0 & td0 & [= <- <-] & Hrun).
  rewrite Hb in Hrun.
  apply bind_returned in Hrun as (s1 & ix' & Hix & Hrun).
  assert (s1 = (td, m)) as -> by (destruct ix; by inversion Hix).
  apply bind_returned in Hrun as (s2 & iR & HiR & Hrun).
  apply on_machine_inv in HiR as (mc2 & HiR & ->). injection HiR as <- <-.
  apply bind_returned in Hrun as (s3 & iC & HiC & Hrun).
  apply on_machine_inv in HiC as (mc3 & HiC & ->). injection HiC as <- <-.
  apply bind_returned in Hrun as (s4 & [] & [= <-] & Hrun).
  apply bind_returned in Hrun as (s5 & [] & [= <-] & Hrun).
  apply bind_returned in Hrun as (s6 & td6 & [= <- <-] & Hrun).
  simpl in Hrun.
  apply bind_returned in Hrun as (s7 & sh & Hsh & Hrun).
  destruct (TimeDistributed.inputShape td) as [sh0|] eqn:Hish; [|done].
  injection Hsh as <- <-.
  apply (triple_for_each_indexed (index_maps_built (length (heap m))) _ _ 0
           (index_map_round_builds _ _ _ _)) in Hrun.
  - destruct Hrun as (_ & rows & cols & ? & ? & Hlr & Hlc & ?).
    rewrite length_seq in Hlr, Hlc. simpl in Hlr, Hlc. by exists sh0, rows, cols.
  - split; [simpl; rewrite !length_app; lia|]. exists [], []. simpl.
    split; [done|]. split; [done|]. by repeat split.
Qed.

Lemma output_index_map_round_keeps (ok : event -> Prop) (fresh : ref -> Prop)
    (J : machine -> Prop) (sliceRow sliceCol : ref) (k : nat) :
  stable ok fresh J -> (forall ev, basic ev = true -> ok ev) ->
  hoare (both (fun _ => True) J) (output_index_map_round (W:=W) sliceRow sliceCol k)
        (fun _ => True).
Proof. intros Hst Hok. unfold output_index_map_round. repeat hoare_step. Qed.

Lemma output_index_map_round_builds (n : nat) (sliceRow sliceCol : ref) (i k : nat) :
  triple (output_index_maps_built (W:=W) n k) (output_index_map_round (W:=W) sliceRow sliceCol i)
         (output_index_maps_built n (Datatypes.S k)).
Proof.
  intros [td mc] s' [] (Hn & rows & cols & Hrows & Hcols & Hlr & Hlc & Hall) Hrun.
  simpl in *.
  assert (n <= length (heap s'.2)) as Hn'.
  { pose proof (output_index_map_round_keeps _ _ _ sliceRow sliceCol i
                  (stable_at_least n) (fun _ _ => I)) as Hk.
    by destruct (hoare_keeps _ _ _ _ _ Hk (conj I Hn : both (fun _ => True) _ (td, mc)) Hrun). }
  assert (Forall (fun r => n <= r /\ device_resident r s'.2) (rows ++ cols)) as Hold.
  { eapply Forall_impl; [|exact Hall]. intros q [Hq Hres]. split; [done|].
    apply resident_has_texture in Hres as (id & Htex).
    pose proof (output_index_map_round_keeps _ _ _ sliceRow sliceCol i
                  (stable_has_texture (length (heap mc)) q id) (fun _ _ => I)) as Hk.
    destruct (hoare_keeps _ _ _ _ _ Hk (conj I Htex : both (fun _ => True) _ (td, mc)) Hrun)
      as [_ Htex'].
    by eapply has_texture_resident. }
  unfold output_index_map_round in Hrun.
  apply bind_returned in Hrun as (s0 & td0 & [= <- <-] & Hrun).
  apply bind_returned in Hrun as (s0' & oshape & Hosh & Hrun).
  assert (s0' = (td, mc)) as ->.
  { destruct (TimeDistributed.outputShape td); by inversion Hosh. }
  apply bind_returned in Hrun as (s1 & r & Hr & Hrun).
  apply on_machine_inv in Hr as (mc1 & Hr & ->).
  injection Hr as <- <-.
  apply bind_returned in Hrun as (s2 & c & Hc & Hrun).
  apply on_machine_inv in Hc as (mc2 & Hc & ->).
  injection Hc as <- <-. simpl in Hrun.
  set (r := length (heap mc)) in *.
  set (c := length (heap mc ++ [mkTensor (NDArray (zeros (product oshape)) oshape)
                                         Int32Array None None false false None None])) in *.
  assert (c = Datatypes.S r) as Hcr by (unfold c, r; rewrite length_app; simpl; lia).
  apply bind_returned in Hrun as (s3a & [] & H3a & Hrun).
  apply on_machine_inv in H3a as (mc3a & H3a & ->).
  apply bind_returned in Hrun as (s3b & [] & H3b & Hrun).
  apply on_machine_inv in H3b as (mc3b & H3b & ->).
  apply bind_returned in Hrun as (s3 & [] & H3 & Hrun).
  apply on_machine_inv in H3 as (mc3 & H3 & ->).
  apply bind_returned in Hrun as (s4 & [] & H4 & Hrun).
  apply on_machine_inv in H4 as (mc4 & H4 & ->).
  apply bind_returned in Hrun as (s5 & [] & H5 & Hrun).
  apply on_machine_inv in H5 as (mc5 & H5 & ->).
  apply bind_returned in Hrun as (s6 & [] & H6 & Hrun).
  apply on_machine_inv in H6 as (mc6 & H6 & ->).
  apply bind_returned in Hrun as (s7 & [] & H7 & Hrun).
  apply on_machine_inv in H7 as (mc7 & H7 & ->).
  apply bind_returned in Hrun as (s8 & [] & H8 & Hrun).
  apply on_machine_inv in H8 as (mc8 & H8 & ->).
  apply createGLTexture_returned in H7 as (Hlen7 & Hr7 & Hres7).
  assert (device_resident r mc8 /\ device_resident c mc8) as [Hr8 Hc8].
  { pose proof (createGLTexture_returned _ _ _ _ H8) as (Hlen8 & Hc8 & Hres8).
    split; [|done].
    apply resident_has_texture in Hres7 as (id & Htex).
    assert (has_texture c r id mc7) as Htex7.
    { destruct Htex as (_ & _ & Ht). split; [lia|]. split; [lia|done]. }
    pose proof (stable_createGLTexture_at (fun _ => True) _ _ (stable_has_texture c r id)
                  (fun _ _ => I) c "int" mc7 (or_introl (le_n c)) Htex7) as Htex8.
    rewrite H8 in Htex8. by eapply has_texture_resident. }
  apply bind_returned in Hrun as (s9 & td9 & [= <- <-] & Hrun).
  rewrite Hrows in Hrun.
  apply bind_returned in Hrun as (s10 & rows' & [= <- <-] & Hrun).
  apply bind_returned in Hrun as (s11 & [] & [= <-] & Hrun).
  apply bind_returned in Hrun as (s12 & td12 & [= <- <-] & Hrun).
  simpl in Hrun. rewrite Hcols in Hrun.
  apply bind_returned in Hrun as (s13 & cols' & [= <- <-] & Hrun).
  injection Hrun as <-. simpl in *.
  split; [done|]. exists (rows ++ [r]), (cols ++ [c]).
  split; [done|]. split; [done|].
  split; [rewrite length_app; simpl; lia|]. split; [rewrite length_app; simpl; lia|].
  apply Forall_app in Hold as [Hor Hoc].
  repeat (apply Forall_app; split); try done; apply Forall_singleton; split; try done;
    unfold r in *; lia.
Qed.

(** X14. When the wrapper does not hold both output-side collections,
    [_createOutputIndexMap] that returns has built both anew: each has one
    tensor per timestep of the output shape, every one of them allocated
    by this call and resident on the device. *)
Theorem output_index_maps_cover_every_timestep (td : TimeDistributed.t (W:=W)) (m : machine)
    (ix : option (ndarray elt * ndarray elt)) (s' : TimeDistributed.t * machine) :
  TimeDistributed.both_defined (TimeDistributed.outputRowIndexMaps td)
                               (TimeDistributed.outputColIndexMaps td) = false ->
  TimeDistributed._createOutputIndexMap ix (td, m) = (s', Returned tt) ->
  exists sh rows cols,
    TimeDistributed.outputShape td = Some sh /\
    TimeDistributed.outputRowIndexMaps s'.1 = Some rows /\
    TimeDistributed.outputColIndexMaps s'.1 = Some cols /\
    length rows = default 0 (head sh) /\ length cols = default 0 (head sh) /\
    Forall (fun r => length (heap m) <= r /\ device_resident r s'.2) (rows ++ cols).
Proof.
  intros Hb Hrun. unfold TimeDistributed._createOutputIndexMap in Hrun.
  apply bind_returned in Hrun as (s0 & td0 & [= <- <-] & Hrun).
  rewrite Hb in Hrun.
  apply bind_returned in Hrun as (s1 & ix' & Hix & Hrun).
  assert (s1 = (td, m)) as -> by (destruct ix; by inversion Hix).
  apply bind_returned in Hrun as (s2 & iR & HiR & Hrun).
  apply on_machine_inv in HiR as (mc2 & HiR & ->). injection HiR as <- <-.
  apply bind_returned in Hrun as (s3 & iC & HiC & Hrun).
  apply on_machine_inv in HiC as (mc3 & HiC & ->). injection HiC as <- <-.
  apply bind_returned in Hrun as (s4 & [] & [= <-] & Hrun).
  apply bind_returned in Hrun as (s5 & [] & [= <-] & Hrun).
  apply bind_returned in Hrun as (s6 & td6 & [= <- <-] & Hrun).
  simpl in Hrun.
  apply bind_returned in Hrun as (s7 & sh & Hsh & Hrun).
  destruct (TimeDistributed.outputShape td) as [sh0|] eqn:Hish; [|done].
  injection Hsh as <- <-.
  apply (triple_for_each_indexed (output_index_maps_built (length (heap m))) _ _ 0
           (output_index_map_round_builds _ _ _)) in Hrun.
  - destruct Hrun as (_ & rows & cols & ? & ? & Hlr & Hlc & ?).
    rewrite length_seq in Hlr, Hlc. simpl in Hlr, Hlc. by exists sh0, rows, cols.
  - split; [simpl; rewrite !length_app; lia|]. exists [], []. simpl.
    split; [done|]. split; [done|]. by repeat split.
Qed.

End IndexMaps.

(** ** The wrapper: an input of rank 3 on the device path *)

Section RankThree.
Context `{Env}.

Lemma select_slice_returned (x : ref) (i : nat)
    (s s' : TimeDistributed.t (W:=Activation.t) * machine) :
  TimeDistributed.select_slice x i s = (s', Returned tt) ->
  s'.1 = s.1 /\ heap s'.2 = heap s.2.
Proof.
  destruct s as [td mc]. unfold TimeDistributed.select_slice, TimeDistributed.map_texture.
  intros Hrun.
  apply bind_returned in Hrun as (s1 & td1 & [= <- <-] & Hrun).
  apply bind_returned in Hrun as (s2 & ish & Hish & Hrun).
  assert (s2 = (td, mc)) as ->.
  { destruct (TimeDistributed.inputShape td); by inversion Hish. }
  apply bind_returned in Hrun as (s3 & sl & Hsl & Hrun).
  assert (s3 = (td, mc)) as ->.
  { destruct (TimeDistributed.slice td); by inversion Hsl. }
  apply bind_returned in Hrun as (s4 & xt & Hx & Hrun).
  apply on_machine_inv in Hx as (mc4 & Hx & ->).
  assert (mc4 = mc) as ->.
  { unfold read in Hx. destruct (heap mc !! x); by inversion Hx. }
  assert (forall (mm : M (TimeDistributed.t (W:=Activation.t) * machine) (option texid))
                 maps k s0 s0' r0,
            TimeDistributed.map_texture (W:=Activation.t) maps k s0 = (s0', Returned r0) ->
            s0' = s0) as Hmap.
  { intros _ maps k [td0 mc0] s0' r0. unfold TimeDistributed.map_texture. intros Hm.
    apply bind_returned in Hm as (u1 & l & Hl & Hm).
    assert (u1 = (td0, mc0)) as -> by (destruct maps; by inversion Hl).
    apply bind_returned in Hm as (u2 & q & Hq & Hm).
    assert (u2 = (td0, mc0)) as -> by (destruct (l !! k); by inversion Hq).
    apply bind_returned in Hm as (u3 & mt & Hmt & Hm).
    apply on_machine_inv in Hmt as (mc' & Hmt & ->).
    unfold read in Hmt. destruct (heap mc0 !! q); inversion Hmt. subst.
    by injection Hm as <-. }
  case_bool_decide.
  - apply on_machine_inv in Hrun as (mc5 & Hrun & ->).
    apply runProgram_returned in Hrun as [Hheap _]. by split.
  - apply bind_returned in Hrun as (s5 & rowTex & Hrow & Hrun).
    apply (Hmap (ret None)) in Hrow as ->.
    apply bind_returned in Hrun as (s6 & colTex & Hcol & Hrun).
    apply (Hmap (ret None)) in Hcol as ->.
    apply on_machine_inv in Hrun as (mc5 & Hrun & ->).
    apply runProgram_returned in Hrun as [Hheap _]. by split.
Qed.

(** Lines 185-193 for a slice of rank 2: the slice is created in native
    layout. *)
Lemma create_slice_native (sliceShape : list nat)
    (s s' : TimeDistributed.t (W:=Activation.t) * machine) :
  length sliceShape = 2 ->
  TimeDistributed.create_slice sliceShape s = (s', Returned tt) ->
  exists sl slt id,
    s'.1 = TimeDistributed.with_slice (Some sl) s.1 /\
    heap s'.2 !! sl = Some slt /\ glTexture slt = Some id /\
    is1D slt = false /\ is2DReshaped slt = false /\ originalShape slt = None /\
    indicesForReshaped slt = None.
Proof.
  destruct s as [td mc]. intros Hrank Hrun. unfold TimeDistributed.create_slice in Hrun.
  apply bind_returned in Hrun as (s1 & sl & Hsl & Hrun).
  apply on_machine_inv in Hsl as (mc1 & Hsl & ->). injection Hsl as <- <-.
  apply bind_returned in Hrun as (s2 & [] & [= <-] & Hrun). simpl in Hrun.
  rewrite bool_decide_eq_true_2 in Hrun by lia.
  apply on_machine_inv in Hrun as (mc3 & Hrun & ->).
  apply createGLTexture_heap in Hrun as (t & grid & one_d & Ht & Hheap & H1D).
  simpl in Ht. rewrite lookup_snoc in Ht. injection Ht as <-.
  simpl in *. eexists _, _, _. split; [done|]. rewrite Hheap.
  split; [rewrite insert_snoc; apply lookup_snoc|]. simpl.
  split; [done|]. split; [by apply H1D|]. done.
Qed.

(** The first output of an Activation layer, created for an input in
    native layout, is in native layout. *)
Lemma first_output_is_native (a : Activation.t) (m : machine) (x : ref) (xt : Tensor)
    (id : texid) (s' : Activation.t * machine) :
  output (Activation.base a) = None ->
  heap m !! x = Some xt -> glTexture xt = Some id ->
  is1D xt = false -> is2DReshaped xt = false ->
  Activation._callGPU x (a, m) = (s', Returned tt) ->
  exists o, output (Activation.base s'.1) = Some o /\ native_layout o s'.2.
Proof.
  intros Hnone Hx Hid H1D Hre Hrun. unfold Activation._callGPU in Hrun.
  apply bind_returned in Hrun as (s1 & [] & Hcomp & Hmat).
  assert (exists o, output (Activation.base s1.1) = Some o /\ native_layout o s1.2)
    as (o & Hout & Hnat).
  { unfold Activation.compute in Hcomp.
    erewrite bind_run in Hcomp.
    2: { apply on_machine_returns. unfold Activation.ensure_texture.
         erewrite bind_run by by apply read_run.
         rewrite Hid. reflexivity. }
    erewrite bind_run in Hcomp by reflexivity. cbn [fst snd] in Hcomp.
    rewrite Hnone in Hcomp. simpl in Hcomp.
    apply bind_returned in Hcomp as (s2 & [] & Hcreate & Hcomp).
    assert (exists o, output (Activation.base s2.1) = Some o /\ native_layout o s2.2)
      as (o & Hout & Hnat).
    { unfold Activation.create_output in Hcreate.
      erewrite bind_run in Hcreate by (apply on_machine_returns; by apply read_run).
      apply bind_returned in Hcreate as (u1 & sh & Hsh & Hcreate).
      assert (u1 = (a, m)) as -> by (destruct (glTextureShape xt); by inversion Hsh).
      apply bind_returned in Hcreate as (u2 & o & Ho & Hcreate).
      apply on_machine_inv in Ho as (mc2 & Ho & ->). injection Ho as <- <-.
      apply bind_returned in Hcreate as (u3 & [] & [= <-] & Hcreate). simpl in Hcreate.
      apply bind_returned in Hcreate as (u4 & [] & Htex & Hcreate).
      apply on_machine_inv in Htex as (mc4 & Htex & ->).
      apply createGLTexture_heap in Htex as (t & grid & one_d & Ht & Hheap & _).
      simpl in Ht. rewrite lookup_snoc in Ht. injection Ht as <-. simpl in Hheap.
      rewrite insert_snoc in Hheap.
      assert (heap mc4 !! x = Some xt) as Hx4.
      { rewrite Hheap. by apply lookup_app_l_Some. }
      erewrite bind_run in Hcreate by (apply on_machine_returns; by apply read_run).
      rewrite H1D, Hre in Hcreate. injection Hcreate as <-. simpl.
      eexists. split; [done|]. eexists. rewrite Hheap. split; [apply lookup_snoc|done]. }
    apply bind_returned in Hcomp as (s3 & a3 & [= <- <-] & Hcomp).
    rewrite Hout in Hcomp.
    erewrite bind_run in Hcomp by reflexivity.
    apply bind_returned in Hcomp as (s4 & xt4 & Hx4 & Hcomp).
    destruct s2 as [a2 mc2].
    apply on_machine_inv in Hx4 as (mc4 & Hx4 & ->).
    assert (mc4 = mc2) as ->.
    { unfold read in Hx4. simpl in Hx4. destruct (heap mc2 !! x); by inversion Hx4. }
    apply on_machine_inv in Hcomp as (mc5 & Hcomp & ->).
    apply runProgram_returned in Hcomp as [Hheap _]. simpl in *.
    exists o. split; [done|]. destruct Hnat as (t & ? & ?). exists t. by rewrite Hheap. }
  destruct s1 as [a1 m1]. simpl in *.
  unfold Activation.materialize in Hmat.
  erewrite bind_run in Hmat by reflexivity. cbn [fst snd] in Hmat.
  destruct (bool_decide (length (outbound (Activation.base a1)) = 0)); simpl in Hmat.
  2: { injection Hmat as <-. by exists o. }
  rewrite Hout in Hmat. erewrite bind_run in Hmat by reflexivity.
  apply bind_returned in Hmat as (u1 & [] & Htr & Hmat).
  apply on_machine_inv in Htr as (mc1 & Htr & ->).
  destruct Hnat as (t & Ht & Hre' & Hos).
  assert (heap mc1 !! o = Some (with_tensor (tensor (default t (heap mc1 !! o))) t)) as Ht1.
  { revert Htr. unfold transferFromGLTexture, bind, read, defined, gets, write, modify, emit.
    rewrite Ht. simpl.
    destruct (glTexture t) as [tid|]; simpl; [|done].
    destruct (glTextureShape t) as [sh|]; simpl; [|done].
    destruct (gpu_mem m1 !! tid) as [tex|]; simpl; [|done].
    intros [= <-]. simpl.
    rewrite list_lookup_insert_eq by (by eapply lookup_lt_Some). done. }
  erewrite bind_run in Hmat by (apply on_machine_returns; by apply read_run).
  simpl in Hmat. rewrite Hre' in Hmat. injection Hmat as <-.
  exists o. split; [done|]. eexists. split; [exact Ht1|done].
Qed.

(** X15. On the device path the first call of a wrapper around an
    Activation layer on an input of rank 3 in native layout throws.  The
    slice has rank 2 and is created without a square reshape (line 187),
    so the output that the Activation layer creates for it records no
    original shape (lines 76-80); the wrapper, whose input has a rank
    above 2, then spreads [sliceOutput.originalShape] (line 225), which is
    undefined. *)
Theorem rank_three_input_fails_on_the_device (td : TimeDistributed.t (W:=Activation.t))
    (m : machine) (x : ref) (xt : Tensor) :
  uncalled td ->
  heap m !! x = Some xt ->
  is2DReshaped xt = false ->
  length (shape (tensor xt)) = 3 ->
  exists e, (TimeDistributed._callGPU x (td, m)).2 = Thrown e.
Proof.
  intros Hnew Hx Hre Hrank.
  destruct (TimeDistributed._callGPU x (td, m)) as [s' [[]|e]] eqn:Hrun; [|by exists e].
  exfalso. unfold TimeDistributed._callGPU in Hrun.
  apply bind_returned in Hrun as (s1 & [] & Hcomp & _). clear s'.
  unfold TimeDistributed.compute in Hcomp.
  erewrite bind_run in Hcomp by (apply on_machine_returns; by apply read_run).
  erewrite bind_run in Hcomp by reflexivity. rewrite Hre in Hcomp.
  set (sh := shape (tensor xt)) in *.
  set (P := fun t' : TimeDistributed.t (W:=Activation.t) =>
              TimeDistributed.inputShape t' = Some sh /\ uncalled t').
  pose proof stable_trivial as Hst.
  assert (forall ev, basic ev = true -> (fun _ : event => True) ev) as Hok by done.
  apply bind_returned in Hcomp as (sA & [] & HA & Hcomp).
  assert (both P (fun _ => True) sA) as HPA.
  { eapply hoare_keeps; [| |exact HA].
    - apply hoare_on_machine. by apply (stable_ensure_input_texture _ _ _ Hst).
    - by split. }
  apply bind_returned in Hcomp as (sB & tdB & [= <- <-] & Hcomp).
  destruct HPA as [[Hish HPA] _]. rewrite Hish in Hcomp.
  erewrite bind_run in Hcomp by reflexivity.
  apply bind_returned in Hcomp as (sD & xt' & HD & Hcomp).
  assert (both P (fun _ => True) sD) as HPD.
  { refine (hoare_keeps _ _ _ _ _ _ _ HD); [|done].
    apply hoare_on_machine. apply stable_read. }
  apply bind_returned in Hcomp as (sE & [] & HE & Hcomp).
  assert (both P (fun _ => True) sE) as [[HishE (HoutE & HslE & HwE)] _].
  { refine (hoare_keeps _ _ _ _ _ _ HPD HE).
    apply hoare_when; [done|]. intros _.
    by apply (wrapper_createIndexMap _ _ _ Hst Hok). }
  apply bind_returned in Hcomp as (sF & tdF & [= <- <-] & Hcomp).
  rewrite HslE in Hcomp. simpl in Hcomp.
  apply bind_returned in Hcomp as (sG & [] & HG & Hcomp).
  apply create_slice_native in HG
    as (sl & slt & id & HtdG & Hsl & Hid & H1D & Hre' & Hos & Hix).
  2: { unfold sh in *. destruct (shape (tensor xt)) as [|? [|? [|? [|]]]]; simpl in *; lia. }
  apply bind_returned in Hcomp as (sH & [] & HH & Hcomp).
  apply select_slice_returned in HH as [HtdH HheapH].
  apply bind_returned in Hcomp as (sI & [] & HI & Hcomp).
  assert (exists wo, TimeDistributed.sliceOutput sI.1 = Some wo /\ native_layout wo sI.2 /\
            TimeDistributed.inputShape sI.1 = Some sh /\
            output (TimeDistributed.base sI.1) = None) as (wo & Hso & Hnat & HishI & HoutI).
  { destruct sH as [tdH mcH]. simpl in *. subst tdH.
    unfold TimeDistributed.call_wrapped_on_slice in HI.
    erewrite bind_run in HI by reflexivity. cbn [fst snd] in HI.
    rewrite HtdG in HI. simpl in HI.
    erewrite bind_run in HI by reflexivity.
    apply bind_returned in HI as (u1 & [] & Hinv & [= <-]).
    unfold TimeDistributed.invoke_wrapped in Hinv. simpl in Hinv.
    destruct (Activation._callGPU sl _) as [[w' mc'] r] eqn:Hw. simpl in Hinv.
    injection Hinv as <- ->.
    apply (first_output_is_native _ _ _ slt id) in Hw as (wo & Hwo & Hnat); try done.
    2: { simpl. by rewrite HheapH. }
    exists wo. simpl in *. split; [done|]. split; [|done].
    destruct Hnat as (t & ? & ?). by exists t. }
  apply bind_returned in Hcomp as (sJ & tdJ & [= <- <-] & Hcomp).
  rewrite HoutI in Hcomp. simpl in Hcomp.
  apply bind_returned in Hcomp as (sK & [] & HK & _).
  revert HK. unfold TimeDistributed.create_output.
  erewrite bind_run by reflexivity. cbn [fst snd]. rewrite HishI.
  erewrite bind_run by reflexivity. rewrite Hso.
  erewrite bind_run by reflexivity.
  destruct Hnat as (wt & Hwt & _ & Hnone).
  destruct sI as [tdI mcI].
  erewrite bind_run by (apply on_machine_returns; by apply read_run).
  rewrite bool_decide_eq_false_2 by lia.
  rewrite Hnone. done.
Qed.

End RankThree.

(** ** The wrapper on the device: an input of rank 2 *)

Section WarmWrapper.
Context `{Env}.
Import TimeDistributed.

Variables (td : TimeDistributed.t (W:=Activation.t)) (hp : list Tensor) (g : nat).
Variables (x sl wo o cp : ref) (sh : list nat) (ps pc pw pa : gl_program).

Hypothesis Hish : inputShape td = Some sh.
Hypothesis Hrank : length sh <= 2.
Hypothesis Hsl : slice td = Some sl.
Hypothesis Hso : sliceOutput td = Some wo.
Hypothesis Hout : output (base td) = Some o.
Hypothesis Hcp : outputCopy td = Some cp.
Hypothesis Hps : selectSliceProgram td = Some ps.
Hypothesis Hpc : copyTextureProgram td = Some pc.
Hypothesis Hpw : copySliceOutputProgram td = Some pw.
Hypothesis Hpa : Activation.program (wrappedLayer td) = Some pa.
Hypothesis Hwo : output (Activation.base (wrappedLayer td)) = Some wo.
Hypothesis Hsentinel : length (outbound (Activation.base (wrappedLayer td))) <> 0.
Hypothesis Hx : is_Some (hp !! x).
Hypothesis Htsl : textured hp g sl.
Hypothesis Htwo : textured hp g wo.
Hypothesis Hto : textured hp g o.
Hypothesis Htcp : textured hp g cp.

Lemma select_slice_warm (i : nat) (s : TimeDistributed.t (W:=Activation.t) * machine) :
  at_rest td hp g s -> exists s', select_slice x i s = (s', Returned tt) /\ at_rest td hp g s'.
Proof.
  destruct s as [td0 m]. intros (Htd & Hheap & Hg). simpl in *. subst td0.
  destruct Hx as [xt Hxt].
  unfold select_slice.
  erewrite bind_run by reflexivity. cbn [fst snd]. rewrite Hish.
  erewrite bind_run by reflexivity. rewrite Hsl.
  erewrite bind_run by reflexivity.
  erewrite bind_run by (apply on_machine_returns; apply read_run; by rewrite Hheap).
  rewrite bool_decide_eq_true_2 by done. rewrite Hps.
  destruct (runProgram_returns ps sl [("x", glTexture xt)] [("t", Some i)] m)
    as (g' & Hrun & Hlen); [by rewrite Hheap, Hg|].
  eexists. split; [apply on_machine_returns; exact Hrun|].
  repeat split; simpl; congruence.
Qed.

Lemma call_wrapped_warm (s : TimeDistributed.t (W:=Activation.t) * machine) :
  at_rest td hp g s -> exists s', call_wrapped_on_slice s = (s', Returned tt) /\ at_rest td hp g s'.
Proof.
  destruct s as [td0 m]. intros (Htd & Hheap & Hg). simpl in *. subst td0.
  destruct Htsl as (slt & sid & Hslt & Hsid & _).
  destruct Htwo as (wot & wid & Hwot & Hwid & Hwlt).
  unfold call_wrapped_on_slice.
  erewrite bind_run by reflexivity. cbn [fst snd]. rewrite Hsl.
  erewrite bind_run by reflexivity.
  set (m0 := Machine (heap m) (gpu_mem m) []).
  destruct (runProgram_returns pa wo [("x", glTexture slt)] [] m0)
    as (g' & Hrun & Hlen).
  { exists wot, wid. simpl. by rewrite Hheap, Hg. }
  assert (Activation._callGPU sl (wrappedLayer td, m0)
          = ((wrappedLayer td, Machine (heap m) g' [EvRunProgram pa wo]), Returned tt)) as Hw.
  { unfold Activation._callGPU.
    erewrite bind_run.
    2: { unfold Activation.compute.
         erewrite bind_run.
         2: { apply on_machine_returns. unfold Activation.ensure_texture.
              erewrite bind_run by (apply read_run; simpl; by rewrite Hheap).
              rewrite Hsid. reflexivity. }
         erewrite bind_run by reflexivity. cbn [fst snd].
         rewrite Hwo. simpl.
         erewrite bind_run by reflexivity.
         erewrite bind_run by reflexivity. cbn [fst snd].
         erewrite bind_run by (by apply defined_run).
         erewrite bind_run by (apply on_machine_returns; apply read_run; simpl; by rewrite Hheap).
         apply on_machine_returns. rewrite Hpa. exact Hrun. }
    unfold Activation.materialize.
    erewrite bind_run by reflexivity. simpl.
    by rewrite bool_decide_eq_false_2. }
  erewrite bind_run.
  2: { unfold invoke_wrapped. cbn [fst snd].
       change (wrapped_callGPU sl) with (Activation._callGPU sl).
       fold m0. rewrite Hw. reflexivity. }
  eexists. split; [reflexivity|].
  repeat split; simpl; [|done|unfold m0 in Hlen; simpl in Hlen; congruence].
  rewrite Hwo. clear -Hso. destruct td. simpl in *. by subst.
Qed.

Lemma write_slice_warm (timesteps : option nat) (i : nat)
    (s : TimeDistributed.t (W:=Activation.t) * machine) :
  at_rest td hp g s -> exists s', write_slice timesteps i s = (s', Returned tt) /\ at_rest td hp g s'.
Proof.
  destruct s as [td0 m]. intros (Htd & Hheap & Hg). simpl in *. subst td0.
  destruct Hto as (ot & oid & Hot & Hoid & Holt).
  destruct Htcp as (ct & cid & Hct & Hcid & Hclt).
  destruct Htwo as (wot & wid & Hwot & Hwid & Hwlt).
  unfold write_slice, field_texture.
  erewrite bind_run by reflexivity. cbn [fst snd]. rewrite Hcp.
  erewrite bind_run by reflexivity. rewrite Hout.
  erewrite bind_run by reflexivity.
  erewrite bind_run.
  2: { erewrite bind_run by (apply on_machine_returns; apply read_run; by rewrite Hheap).
       reflexivity. }
  rewrite Hpc.
  destruct (runProgram_returns pc cp [("source", glTexture ot)] [] m)
    as (g1 & Hrun1 & Hlen1); [exists ct, cid; by rewrite Hheap, Hg|].
  erewrite bind_run by (apply on_machine_returns; exact Hrun1).
  set (m1 := Machine (heap m) g1 (trace m ++ [EvRunProgram pc cp])).
  erewrite bind_run by reflexivity. cbn [fst snd]. rewrite Hish.
  erewrite bind_run by reflexivity. rewrite Hout.
  erewrite bind_run by reflexivity. rewrite Hcp.
  erewrite bind_run by reflexivity.
  erewrite bind_run.
  2: { erewrite bind_run by (apply on_machine_returns; apply read_run; simpl; by rewrite Hheap).
       reflexivity. }
  rewrite Hso.
  erewrite bind_run by reflexivity.
  erewrite bind_run.
  2: { erewrite bind_run by (apply on_machine_returns; apply read_run; simpl; by rewrite Hheap).
       reflexivity. }
  rewrite bool_decide_eq_true_2 by done. rewrite Hpw.
  destruct (runProgram_returns pw o
              [("outputCopy", glTexture ct); ("sliceOutput", glTexture wot)]
              [("t", Some i); ("timesteps", timesteps)] m1)
    as (g2 & Hrun2 & Hlen2).
  { exists ot, oid. simpl. rewrite Hheap, Hlen1, Hg. done. }
  eexists. split; [apply on_machine_returns; exact Hrun2|].
  unfold m1 in Hlen2. simpl in Hlen2.
  repeat split; simpl; congruence.
Qed.

(** Lines 267-316: one round of the loop. *)
Lemma round_warm (timesteps : option nat) (i : nat)
    (s : TimeDistributed.t (W:=Activation.t) * machine) :
  at_rest td hp g s ->
  exists s', (select_slice x i ;;; call_wrapped_on_slice ;;; write_slice timesteps i) s
             = (s', Returned tt) /\ at_rest td hp g s'.
Proof.
  intros Hs.
  destruct (select_slice_warm i s Hs) as (s1 & Hrun1 & Hs1).
  erewrite bind_run by exact Hrun1.
  destruct (call_wrapped_warm s1 Hs1) as (s2 & Hrun2 & Hs2).
  erewrite bind_run by exact Hrun2.
  by apply write_slice_warm.
Qed.

End WarmWrapper.

Section MatrixInput.
Context `{Env}.
Import TimeDistributed.

(** Lines 169-176 for an input of rank 2: it gets a texture when it has
    none, and nothing else changes. *)
Lemma ensure_input_texture_matrix (x : ref) (xt : Tensor) (a b : nat) (m : machine) :
  heap m !! x = Some xt -> shape (tensor xt) = [a; b] ->
  exists m1 xt1,
    ensure_input_texture x m = (m1, Returned tt) /\
    heap m1 = <[x := xt1]> (heap m) /\ tensor xt1 = tensor xt /\
    length (gpu_mem m) <= length (gpu_mem m1).
Proof.
  intros Hx Hsh. unfold ensure_input_texture.
  erewrite bind_run by by apply read_run.
  destruct (glTexture xt) as [xid|] eqn:Hid.
  - exists m, xt. split; [reflexivity|]. by rewrite list_insert_id.
  - simpl. rewrite Hsh. simpl.
    eexists _, _. split; [by apply createGLTexture_run|].
    simpl. split; [done|]. split; [done|]. rewrite length_app. lia.
Qed.

(** Lines 185-193 for a slice of rank 1. *)
Lemma create_slice_row (n : nat) (td : TimeDistributed.t (W:=Activation.t)) (m : machine) :
  let sl := length (heap m) in
  let id := length (gpu_mem m) in
  create_slice [n] (td, m)
  = ((with_slice (Some sl) td,
      Machine (heap m ++ [row_slice n id])
              (gpu_mem m ++ [Texture [1; n] "float" (zeros (product [n]))])
              (trace m ++ [EvNewTensor sl; EvCreateGLTexture sl id])),
     Returned tt).
Proof.
  intros sl id. unfold create_slice.
  erewrite bind_run by reflexivity.
  erewrite bind_run by reflexivity. simpl.
  apply on_machine_returns.
  erewrite createGLTexture_run1; [|apply lookup_snoc|reflexivity].
  simpl. rewrite insert_snoc. by rewrite <- app_assoc.
Qed.

(** Lines 217-222 and 234-235: the output and its copy for an input of
    rank at most 2. *)
Lemma create_output_stacked (td : TimeDistributed.t (W:=Activation.t)) (m : machine)
    (sh gsh : list nat) (wo : ref) (wot : Tensor) (T n : nat) :
  inputShape td = Some sh -> length sh <= 2 ->
  sliceOutput td = Some wo -> heap m !! wo = Some wot ->
  glTextureShape wot = Some gsh -> gsh !! 1 = Some n ->
  let o := length (heap m) in
  let id := length (gpu_mem m) in
  let blank := Texture [T; n] "float" (zeros (product [T; n])) in
  create_output (Some T) (td, m)
  = ((with_outputCopy (Some (S o))
        (with_base (with_output (Some o) (base td)) (with_outputShape (Some [T; n]) td)),
      Machine (heap m ++ [stacked_output [T; n] id; stacked_output [T; n] (S id)])
              (gpu_mem m ++ [blank; blank])
              (trace m ++ [EvNewTensor o; EvNewTensor (S o);
                           EvCreateGLTexture o id; EvCreateGLTexture (S o) (S id)])),
     Returned tt).
Proof.
  intros Hish Hrank Hso Hwo Hgsh Hn o id blank. unfold create_output.
  set (t0 := mkTensor (NDArray (zeros (product [T; n])) [T; n]) Float32Array
                      None None false false None None).
  assert (length (heap m ++ [t0]) = S o) as Hlen by (rewrite length_app; simpl; lia).
  set (td1 := with_outputShape (Some [T; n]) td).
  set (m1 := Machine (heap m ++ [t0]) (gpu_mem m) (trace m ++ [EvNewTensor o])).
  set (td2 := with_base (with_output (Some o) (base td)) td1).
  set (m2 := Machine ((heap m ++ [t0]) ++ [t0]) (gpu_mem m)
                     ((trace m ++ [EvNewTensor o]) ++ [EvNewTensor (S o)])).
  set (td3 := with_outputCopy (Some (S o)) td2).
  erewrite bind_run by reflexivity. cbn [fst snd]. rewrite Hish.
  erewrite bind_run by reflexivity. rewrite Hso.
  erewrite bind_run by reflexivity.
  erewrite bind_run by (apply on_machine_returns; by apply read_run).
  rewrite bool_decide_eq_true_2 by done. rewrite Hgsh.
  erewrite bind_run by reflexivity. rewrite Hn.
  erewrite bind_run by reflexivity.
  erewrite (bind_run (set_this _) _ _ (td1, m) tt) by reflexivity.
  erewrite (bind_run (on_machine (new_Tensor _ _ _)) _ _ (td1, m1) o) by reflexivity.
  erewrite (bind_run (set_output _) _ _ (td2, m1) tt) by reflexivity.
  erewrite (bind_run (on_machine (new_Tensor _ _ _)) _ _ (td2, m2) (S o)).
  2: { apply on_machine_returns. unfold new_Tensor, bind, gets, modify, emit, ret.
       simpl. rewrite Hlen. reflexivity. }
  erewrite (bind_run (set_this _) _ _ (td3, m2) tt) by reflexivity.
  erewrite bind_run.
  2: { apply on_machine_returns.
       apply (createGLTexture_run o "float" t0 T n); [|done].
       simpl. rewrite lookup_app_l by (rewrite Hlen; lia). apply lookup_snoc. }
  apply on_machine_returns.
  erewrite (createGLTexture_run (S o) "float" t0 T n); [| |done].
  2: { simpl. rewrite list_lookup_insert_ne by lia. rewrite <- Hlen. apply lookup_snoc. }
  simpl. f_equal. f_equal.
  - rewrite insert_app_l by (rewrite Hlen; lia).
    unfold o. rewrite insert_snoc.
    assert (forall X : Tensor, S (length (heap m)) = length (heap m ++ [X])) as HS
      by (intros X; rewrite length_app; simpl; lia).
    rewrite (HS (with_glTexture (length (gpu_mem m)) [T; n] false t0)).
    rewrite insert_snoc. rewrite <- app_assoc. simpl.
    rewrite length_app. simpl. by rewrite Nat.add_1_r.
  - by rewrite <- app_assoc.
  - rewrite <- !app_assoc. simpl. rewrite length_app. simpl. by rewrite Nat.add_1_r.
Qed.

(** Lines 169-176 for an input of rank 2: it gets a texture when it has
    none; the tensors that have a texture are as they were. *)
Lemma ensure_input_texture_keeps (x : ref) (xt : Tensor) (a b : nat) (m : machine) :
  heap m !! x = Some xt -> shape (tensor xt) = [a; b] ->
  exists m1,
    ensure_input_texture x m = (m1, Returned tt) /\
    length (heap m1) = length (heap m) /\
    is_Some (heap m1 !! x) /\
    length (gpu_mem m) <= length (gpu_mem m1) /\
    forall (r : ref) t, heap m !! r = Some t -> is_Some (glTexture t) -> heap m1 !! r = Some t.
Proof.
  intros Hx Hsh. unfold ensure_input_texture.
  erewrite bind_run by by apply read_run.
  destruct (glTexture xt) as [xid|] eqn:Hid.
  - exists m. by repeat split.
  - simpl. rewrite Hsh. simpl.
    eexists. split; [by apply createGLTexture_run|]. simpl.
    split; [apply length_insert|].
    split; [eexists; apply list_lookup_insert_eq; by eapply lookup_lt_Some|].
    split; [rewrite length_app; lia|].
    intros r t Hr [id Ht]. rewrite list_lookup_insert_ne; [done|].
    intros ->. rewrite Hx in Hr. injection Hr as <-. congruence.
Qed.

(** X18. The first call of a wrapper around an Activation layer on the
    device, on an input of rank 2 and shape [T, n] in native layout,
    returns.  It allocates four tensors (the slice, the output of the
    wrapped layer, the output and its copy), leaves the buffer of the
    input as it was, and its output has the shape [T, n] and [T * n]
    elements, with or without consumers of the wrapper. *)
Theorem device_path_on_matrix (td : TimeDistributed.t (W:=Activation.t)) (m : machine)
    (x : ref) (xt : Tensor) (T n : nat) (ps pc pw pa : gl_program) :
  gpu (base td) = true ->
  uncalled td ->
  selectSliceProgram td = Some ps ->
  copyTextureProgram td = Some pc ->
  copySliceOutputProgram td = Some pw ->
  Activation.program (wrappedLayer td) = Some pa ->
  length (outbound (Activation.base (wrappedLayer td))) <> 0 ->
  heap m !! x = Some xt -> is2DReshaped xt = false -> shape (tensor xt) = [T; n] ->
  let o := length (heap m) + 2 in
  exists s' xt' ot,
    call x (td, m) = (s', Returned (Some o)) /\
    length (heap s'.2) = length (heap m) + 4 /\
    heap s'.2 !! x = Some xt' /\ tensor xt' = tensor xt /\
    heap s'.2 !! o = Some ot /\ shape (tensor ot) = [T; n] /\
    length (data (tensor ot)) = T * n /\
    warm (length (heap m)) (length (heap m) + 1) o (length (heap m) + 3) [T; n] s'.
Proof.
  intros Hgpu (Hout0 & Hsl0 & Hwout0) Hps Hpc Hpw Hpa Hsentinel Hx Hre Hsh o.
  destruct (ensure_input_texture_matrix x xt T n m Hx Hsh)
    as (m1 & xt1 & Hensure & Hheap1 & Hxt1 & _).
  assert (length (heap m1) = length (heap m)) as Hlen1
    by (rewrite Hheap1; apply length_insert).
  assert (heap m1 !! x = Some xt1) as Hx1.
  { rewrite Hheap1. apply list_lookup_insert_eq. by eapply lookup_lt_Some. }
  set (G := length (gpu_mem m1)).
  set (sl := length (heap m1)).
  set (slt := row_slice n G).
  set (td1 := with_inputShape (Some [T; n]) td).
  set (td2 := with_slice (Some sl) td1).
  set (m2 := Machine (heap m1 ++ [slt])
                     (gpu_mem m1 ++ [Texture [1; n] "float" (zeros (product [n]))])
                     (trace m1 ++ [EvNewTensor sl; EvCreateGLTexture sl G])).
  assert (textured (heap m2) (S G) sl) as Htsl2
    by (apply (textured_snoc _ _ slt G); [done|lia]).
  assert (length [T; n] <= 2) as Hrank by (simpl; lia).
  assert (is_Some (heap m2 !! x)) as Hx2 by (exists xt1; by apply lookup_app_l_Some).
  assert (at_rest td2 (heap m2) (S G) (td2, m2)) as Hrest2.
  { repeat split. simpl. rewrite length_app. simpl. lia. }
  destruct (select_slice_warm td2 (heap m2) (S G) x sl [T; n] ps
              eq_refl Hrank eq_refl Hps Hx2 Htsl2 0 (td2, m2) Hrest2)
    as ([td3 m3] & Hselect & Htd3 & Hheap3 & Hg3).
  simpl in Htd3, Hheap3, Hg3. subst td3.
  (* the first call of the wrapped layer *)
  set (a := wrappedLayer td).
  set (m3' := Machine (heap m3) (gpu_mem m3) []).
  assert (heap m3' !! sl = Some slt) as Hsl3 by (simpl; rewrite Hheap3; apply lookup_snoc).
  pose proof (first_call_on_resident_input a m3' sl slt pa G 1 n
                Hpa Hwout0 Hsentinel Hsl3 eq_refl eq_refl) as Hfirst.
  cbv zeta in Hfirst.
  change (heap m3') with (heap m3) in Hfirst.
  change (gpu_mem m3') with (gpu_mem m3) in Hfirst.
  change (trace m3') with (@nil event) in Hfirst.
  set (wo := length (heap m3)) in *.
  set (wot := output_for slt [1; n] (length (gpu_mem m3))) in *.
  set (a1 := Activation.with_out (Some wo) a) in *.
  match type of Hfirst with
  | _ = (_, Machine _ ?g ?tr, _) => set (g4 := g) in *; set (tr4 := tr) in *
  end.
  assert (length g4 = S (S G)) as Hg4.
  { unfold g4. rewrite length_insert, length_app, Hg3. simpl. lia. }
  clearbody g4.
  set (td4 := with_sliceOutput (Some wo) (with_wrappedLayer a1 td2)).
  set (m4 := Machine (heap m3 ++ [wot]) g4
                     (trace m3 ++ [EvWrapped MethodCallGPU sl (tensor <$> heap m3 !! sl) tr4])).
  assert (call_wrapped_on_slice (td2, m3) = ((td4, m4), Returned tt)) as Hwrapped.
  { unfold call_wrapped_on_slice.
    erewrite bind_run by reflexivity.
    erewrite bind_run by reflexivity.
    erewrite (bind_run (invoke_wrapped _ _ _) _ _ (with_wrappedLayer a1 td2, m4) tt).
    2: { unfold invoke_wrapped. cbn [fst snd].
         change (wrapped_callGPU sl) with (Activation._callGPU sl).
         change (wrappedLayer td2) with a. fold m3'. rewrite Hfirst. reflexivity. }
    reflexivity. }
  (* the output and its copy *)
  assert (heap m4 !! wo = Some wot) as Hwo4 by apply lookup_snoc.
  pose proof (create_output_stacked td4 m4 [T; n] [1; n] wo wot T n
                eq_refl Hrank eq_refl Hwo4 eq_refl eq_refl) as Hcreate.
  cbv zeta in Hcreate.
  change (gpu_mem m4) with g4 in Hcreate. rewrite Hg4 in Hcreate.
  set (out := length (heap m4)) in *.
  set (ot := stacked_output [T; n] (S (S G))) in *.
  set (ct := stacked_output [T; n] (S (S (S G)))) in *.
  match type of Hcreate with
  | _ = (?t, ?mc, _) => set (td5 := t) in *; set (m5 := mc) in *
  end.
  set (G5 := S (S (S (S G)))).
  assert (length (gpu_mem m5) = G5) as Hg5.
  { unfold m5. simpl. rewrite length_app, Hg4. simpl. unfold G5. lia. }
  assert (heap m5 = heap m1 ++ [slt; wot; ot; ct]) as Hheap5.
  { unfold m5, m4. simpl. rewrite Hheap3. by rewrite <- !app_assoc. }
  assert (length (heap m3) = S sl) as Hlen3.
  { rewrite Hheap3, length_app. simpl. unfold sl. lia. }
  assert (out = S (S sl)) as Hout_eq.
  { unfold out, m4. simpl. rewrite length_app, Hlen3. simpl. lia. }
  assert (wo = S sl) as Hwo_eq by exact Hlen3.
  assert (textured (heap m5) G5 sl) as Htsl5.
  { rewrite Hheap5. apply (textured_at _ _ _ 0 slt G); [done|done|unfold G5; lia]. }
  assert (textured (heap m5) G5 wo) as Htwo5.
  { rewrite Hheap5, Hwo_eq.
    apply (textured_at _ _ _ 1 wot (length (gpu_mem m3))); [done|done|unfold G5; lia]. }
  assert (textured (heap m5) G5 out) as Htout5.
  { rewrite Hheap5, Hout_eq.
    apply (textured_at _ _ _ 2 ot (S (S G))); [done|done|unfold G5; lia]. }
  assert (textured (heap m5) G5 (S out)) as Htcp5.
  { rewrite Hheap5, Hout_eq.
    apply (textured_at _ _ _ 3 ct (S (S (S G)))); [done|done|unfold G5; lia]. }
  assert (is_Some (heap m5 !! x)) as Hx5.
  { exists xt1. rewrite Hheap5. by apply lookup_app_l_Some. }
  assert (Activation.program (wrappedLayer td5) = Some pa) as Hpa5 by exact Hpa.
  assert (length (outbound (Activation.base (wrappedLayer td5))) <> 0) as Hsentinel5
    by exact Hsentinel.
  assert (at_rest td5 (heap m5) G5 (td5, m5)) as Hrest5 by done.
  destruct (write_slice_warm td5 (heap m5) G5 wo out (S out) [T; n] pc pw
              eq_refl Hrank eq_refl eq_refl eq_refl Hpc Hpw Htwo5 Htout5 Htcp5
              (Some T) 0 (td5, m5) Hrest5)
    as (s6 & Hwrite & Hrest6).
  destruct (for_each_returns (at_rest td5 (heap m5) G5) (seq 1 (T - 1))
              (fun i => select_slice x i ;;; call_wrapped_on_slice ;;;
                        write_slice (Some T) i) s6 Hrest6)
    as ([td7 m7] & Hloop & Htd7 & Hheap7 & Hg7).
  { intros i s _.
    apply (round_warm td5 (heap m5) G5 x sl wo out (S out) [T; n] ps pc pw pa);
      done. }
  cbn [fst snd] in Htd7, Hheap7, Hg7. subst td7.
  assert (compute x (td, m) = ((td5, m7), Returned tt)) as Hcompute.
  { unfold compute.
    erewrite bind_run by (apply on_machine_returns; by apply read_run).
    rewrite Hre, Hsh.
    erewrite (bind_run (set_this _) _ _ (td1, m) tt) by reflexivity.
    erewrite bind_run by (apply on_machine_returns; exact Hensure).
    erewrite bind_run by reflexivity.
    erewrite bind_run by reflexivity.
    erewrite bind_run by (apply on_machine_returns; by apply read_run).
    erewrite bind_run by reflexivity.
    erewrite bind_run by reflexivity. cbn [fst snd].
    change (slice td1) with (slice td). rewrite Hsl0.
    erewrite bind_run by apply create_slice_row.
    erewrite bind_run by exact Hselect.
    erewrite bind_run by exact Hwrapped.
    erewrite bind_run by reflexivity. cbn [fst snd].
    change (output (base td4)) with (output (base td)). rewrite Hout0.
    erewrite bind_run by exact Hcreate.
    erewrite bind_run by exact Hwrite.
    exact Hloop. }
  assert (heap m5 !! out = Some ot) as Hot5.
  { rewrite Hheap5, Hout_eq.
    rewrite (lookup_app_r (heap m1)) by (unfold sl; lia).
    by replace (S (S sl) - length (heap m1)) with 2 by (unfold sl; lia). }
  assert (o = out) as Ho_eq by (unfold o; rewrite Hout_eq; unfold sl; lia).
  assert (product [T; n] = T * n) as Hprod by (simpl; lia).
  replace (length (heap m)) with sl by exact Hlen1.
  replace (sl + 1) with wo by lia. replace (sl + 3) with (S out) by lia.
  replace (sl + 4) with (S (S out)) by lia.
  rewrite Ho_eq. clear Ho_eq. clearbody o. clear o.
  assert (forall a' : ndarray elt,
            warm sl wo out (S out) [T; n]
                 (td5, Machine (heap m5) (gpu_mem m7) (trace m7)) /\
            (shape a' = [T; n] ->
             forall tr, warm sl wo out (S out) [T; n]
                          (td5, Machine (<[out := with_tensor a' ot]> (heap m5))
                                        (gpu_mem m7) tr))) as Hwarm.
  { intros a'. unfold warm. cbv zeta. cbn [fst snd heap gpu_mem]. rewrite Hg7.
    assert (is_Some (selectSliceProgram td5) /\ is_Some (copyTextureProgram td5) /\
            is_Some (copySliceOutputProgram td5) /\
            is_Some (Activation.program (wrappedLayer td5))) as Hprograms.
    { split; [exists ps; exact Hps|]. split; [exists pc; exact Hpc|].
      split; [exists pw; exact Hpw|]. exists pa. exact Hpa. }
    split.
    - split; [by repeat split|]. split; [exact Hprograms|]. split; [by split|].
      split; [done|]. by exists ot.
    - intros Ha' tr.
      split; [by repeat split|]. split; [exact Hprograms|]. split; [by split|].
      split; [split; [|split; [|split]]; by apply textured_with_tensor|].
      exists (with_tensor a' ot).
      split; [apply list_lookup_insert_eq; by eapply lookup_lt_Some|done]. }
  destruct (decide (length (outbound (base td)) = 0)) as [Hterminal|Hconsumers].
  - destruct (lookup_lt_is_Some_2 (gpu_mem m7) (S (S G))) as [tex Htex];
      [rewrite Hg7; unfold G5; lia|].
    set (ot7 := with_tensor (NDArray (read_range Float32Array 0 (product [T; n]) (texels tex))
                                     [T; n]) ot).
    set (m8 := Machine (<[out := ot7]> (heap m7)) (gpu_mem m7)
                       (trace m7 ++ [EvTransferFromGLTexture out])).
    exists (td5, m8), xt1, ot7.
    split; [|split; [|split; [|split; [done|split; [|split; [done|split]]]]]].
    + unfold call. erewrite bind_run by reflexivity. cbn [fst snd]. rewrite Hgpu.
      erewrite bind_run.
      2: { unfold _callGPU. erewrite bind_run by exact Hcompute.
           unfold materialize.
           erewrite bind_run by reflexivity. cbn [fst snd].
           change (outbound (base td5)) with (outbound (base td)).
           rewrite bool_decide_eq_true_2 by done. simpl.
           erewrite bind_run by reflexivity.
           erewrite (bind_run (on_machine (transferFromGLTexture _)) _ _ (td5, m8) tt).
           2: { apply on_machine_returns.
                apply (transferFromGLTexture_run out ot (S (S G)) [T; n] tex);
                  [by rewrite Hheap7|done|done|done]. }
           erewrite bind_run.
           2: { apply on_machine_returns. apply read_run. simpl.
                apply list_lookup_insert_eq. rewrite Hheap7. by eapply lookup_lt_Some. }
           reflexivity. }
      erewrite bind_run by reflexivity. reflexivity.
    + simpl. rewrite length_insert, Hheap7, Hheap5, length_app. simpl. lia.
    + simpl. rewrite list_lookup_insert_ne.
      * rewrite Hheap7, Hheap5. by apply lookup_app_l_Some.
      * apply lookup_lt_Some in Hx1. rewrite Hout_eq. unfold sl. lia.
    + simpl. apply list_lookup_insert_eq.
      rewrite Hheap7. by eapply lookup_lt_Some.
    + simpl. unfold read_range. by rewrite length_fmap, length_seq.
    + unfold m8. rewrite Hheap7. by apply Hwarm.
  - exists (td5, m7), xt1, ot.
    split; [|split; [|split; [|split; [done|split; [|split; [done|split]]]]]].
    + unfold call. erewrite bind_run by reflexivity. cbn [fst snd]. rewrite Hgpu.
      erewrite bind_run.
      2: { unfold _callGPU. erewrite bind_run by exact Hcompute.
           unfold materialize.
           erewrite bind_run by reflexivity. cbn [fst snd].
           change (outbound (base td5)) with (outbound (base td)).
           rewrite bool_decide_eq_false_2 by done. reflexivity. }
      erewrite bind_run by reflexivity. reflexivity.
    + simpl. rewrite Hheap7, Hheap5, length_app. simpl. lia.
    + simpl. rewrite Hheap7, Hheap5. by apply lookup_app_l_Some.
    + simpl. by rewrite Hheap7.
    + simpl. unfold zeros. by rewrite length_replicate.
    + destruct m7 as [h7 g7 t7]. simpl in Hheap7. subst h7. apply (Hwarm (tensor ot)).
Qed.

(** X19. A wrapper that has been called on the device allocates nothing
    on a later call: on every input of rank 2 in native layout the call
    returns the output it already holds, the heap has as many tensors as
    before, and the wrapper still holds its four tensors with their
    textures.  The output keeps the shape it was created with on the
    first call, whatever the number of timesteps and the slice length of
    the later input. *)
Theorem warm_wrapper_call_allocates_nothing (sl wo o cp : ref) (sho : list nat)
    (s : TimeDistributed.t (W:=Activation.t) * machine) (x : ref) (xt : Tensor) (T n : nat) :
  warm sl wo o cp sho s ->
  heap s.2 !! x = Some xt -> is2DReshaped xt = false -> shape (tensor xt) = [T; n] ->
  exists s',
    call x s = (s', Returned (Some o)) /\
    warm sl wo o cp sho s' /\
    length (heap s'.2) = length (heap s.2).
Proof.
  destruct s as [td m]. cbn [fst snd].
  intros ((Hgpu & Hsl & Hso & Hout & Hcp) & (Hps & Hpc & Hpw & Hpa) & (Hwo & Hsentinel) &
          (Htsl & Htwo & Hto & Htcp) & (ot & Hot & Hshape & Hgsh & H1D & Hre_o))
         Hx Hre Hsh.
  cbn [fst snd] in *.
  destruct Hps as [ps Hps]. destruct Hpc as [pc Hpc]. destruct Hpw as [pw Hpw].
  destruct Hpa as [pa Hpa].
  destruct (ensure_input_texture_keeps x xt T n m Hx Hsh)
    as (m1 & Hensure & Hlen1 & Hx1 & Hg1 & Hkept).
  set (td1 := with_inputShape (Some [T; n]) td).
  set (g := length (gpu_mem m1)).
  assert (length [T; n] <= 2) as Hrank by (simpl; lia).
  pose proof (textured_kept _ _ _ _ sl Hkept Hg1 Htsl) as Htsl1.
  pose proof (textured_kept _ _ _ _ wo Hkept Hg1 Htwo) as Htwo1.
  pose proof (textured_kept _ _ _ _ o Hkept Hg1 Hto) as Hto1.
  pose proof (textured_kept _ _ _ _ cp Hkept Hg1 Htcp) as Htcp1.
  fold g in Htsl1, Htwo1, Hto1, Htcp1.
  assert (heap m1 !! o = Some ot) as Hot1.
  { destruct Hto as (t & id & Ht & Hid & _). apply Hkept; [done|].
    rewrite Hot in Ht. injection Ht as ->. by rewrite Hid. }
  assert (at_rest td1 (heap m1) g (td1, m1)) as Hrest1 by done.
  destruct (select_slice_warm td1 (heap m1) g x sl [T; n] ps
              eq_refl Hrank Hsl Hps Hx1 Htsl1 0 (td1, m1) Hrest1)
    as (sA & HselectA & HrestA).
  destruct (call_wrapped_warm td1 (heap m1) g sl wo pa
              Hsl Hso Hpa Hwo Hsentinel Htsl1 Htwo1 sA HrestA)
    as (sB & HwrappedB & HrestB).
  destruct (write_slice_warm td1 (heap m1) g wo o cp [T; n] pc pw
              eq_refl Hrank Hso Hout Hcp Hpc Hpw Htwo1 Hto1 Htcp1 (Some T) 0 sB HrestB)
    as (s2 & Hwrite & Hrest2).
  destruct (for_each_returns (at_rest td1 (heap m1) g) (seq 1 (T - 1))
              (fun i => select_slice x i ;;; call_wrapped_on_slice ;;;
                        write_slice (Some T) i) s2 Hrest2)
    as ([td3 m3] & Hloop & Htd3 & Hheap3 & Hg3).
  { intros i s0 _.
    by apply (round_warm td1 (heap m1) g x sl wo o cp [T; n] ps pc pw pa). }
  cbn [fst snd] in Htd3, Hheap3, Hg3. subst td3.
  assert (compute x (td, m) = ((td1, m3), Returned tt)) as Hcompute.
  { unfold compute.
    erewrite bind_run by (apply on_machine_returns; by apply read_run).
    rewrite Hre, Hsh.
    erewrite (bind_run (set_this _) _ _ (td1, m) tt) by reflexivity.
    erewrite bind_run by (apply on_machine_returns; exact Hensure).
    erewrite bind_run by reflexivity.
    erewrite bind_run by reflexivity.
    destruct Hx1 as [xt1 Hx1].
    erewrite bind_run by (apply on_machine_returns; by apply read_run).
    erewrite bind_run by reflexivity.
    erewrite bind_run by reflexivity. cbn [fst snd].
    change (slice td1) with (slice td). rewrite Hsl.
    erewrite bind_run by reflexivity.
    erewrite bind_run by exact HselectA.
    erewrite bind_run by exact HwrappedB.
    erewrite bind_run by reflexivity.
    destruct sB as [tdB mB]. destruct HrestB as (HtdB & _). cbn [fst snd] in *. subst tdB.
    change (output (base td1)) with (output (base td)). rewrite Hout.
    erewrite bind_run by reflexivity.
    erewrite bind_run by exact Hwrite.
    exact Hloop. }
  destruct (decide (length (outbound (base td)) = 0)) as [Hterminal|Hconsumers].
  - pose proof Hto1 as Hto1'.
    destruct Hto1' as (ot1 & oid & Hot1' & Hoid & Holt).
    rewrite Hot1 in Hot1'. injection Hot1' as <-.
    destruct (lookup_lt_is_Some_2 (gpu_mem m3) oid) as [tex Htex]; [by rewrite Hg3|].
    set (ot' := with_tensor (NDArray (read_range (arrayType ot) 0 (product sho) (texels tex))
                                     (flat_shape (is1D ot) sho)) ot).
    set (m4 := Machine (<[o := ot']> (heap m3)) (gpu_mem m3)
                       (trace m3 ++ [EvTransferFromGLTexture o])).
    exists (td1, m4). split; [|split].
    + unfold call. erewrite bind_run by reflexivity. cbn [fst snd]. rewrite Hgpu.
      erewrite bind_run.
      2: { unfold _callGPU. erewrite bind_run by exact Hcompute.
           unfold materialize.
           erewrite bind_run by reflexivity. cbn [fst snd].
           change (outbound (base td1)) with (outbound (base td)).
           rewrite bool_decide_eq_true_2 by done. unfold when.
           change (output (base td1)) with (output (base td)). rewrite Hout.
           erewrite bind_run by reflexivity.
           erewrite (bind_run (on_machine (transferFromGLTexture _)) _ _ (td1, m4) tt).
           2: { apply on_machine_returns.
                apply (transferFromGLTexture_run o ot oid sho tex);
                  [by rewrite Hheap3|done|done|done]. }
           erewrite bind_run.
           2: { apply on_machine_returns. apply read_run. simpl.
                apply list_lookup_insert_eq. rewrite Hheap3. by eapply lookup_lt_Some. }
           simpl. rewrite Hre_o. reflexivity. }
      erewrite bind_run by reflexivity. cbn [fst snd].
      change (output (base td1)) with (output (base td)). by rewrite Hout.
    + unfold warm, m4. cbv zeta. cbn [fst snd heap gpu_mem]. rewrite Hheap3, Hg3.
      split; [done|]. split; [by rewrite !is_Some_alt; simpl; rewrite Hps, Hpc, Hpw, Hpa|]. split; [done|].
      split.
      { split; [|split; [|split]]; by apply textured_with_tensor. }
      exists ot'. split; [apply list_lookup_insert_eq; by eapply lookup_lt_Some|].
      unfold ot'. simpl. rewrite H1D. by destruct sho as [|[|[|?]] ?].
    + simpl. by rewrite length_insert, Hheap3.
  - exists (td1, m3). split; [|split].
    + unfold call. erewrite bind_run by reflexivity. cbn [fst snd]. rewrite Hgpu.
      erewrite bind_run.
      2: { unfold _callGPU. erewrite bind_run by exact Hcompute.
           unfold materialize.
           erewrite bind_run by reflexivity. cbn [fst snd].
           change (outbound (base td1)) with (outbound (base td)).
           rewrite bool_decide_eq_false_2 by done. reflexivity. }
      erewrite bind_run by reflexivity. cbn [fst snd].
      change (output (base td1)) with (output (base td)). by rewrite Hout.
    + unfold warm. cbv zeta. cbn [fst snd]. rewrite Hheap3, Hg3.
      split; [done|]. split; [by rewrite !is_Some_alt; simpl; rewrite Hps, Hpc, Hpw, Hpa|]. split; [done|].
      split; [done|]. by exists ot.
    + simpl. by rewrite Hheap3.
Qed.
End MatrixInput.

(** ** The wrapper: the CPU path on an empty time axis *)

Section EmptyTimeAxis.
Context `{Env} {W : Type} `{!LayerClass W}.
Context (F : ndarray elt -> ndarray elt) (good : W -> Prop).
Context (call_contract : forall w mc step st,
  good w -> heap mc !! step = Some st ->
  exists w' mc' so sot,
    wrapped_call step (w, mc) = ((w', mc'), Returned (Some so)) /\ good w' /\
    heap mc `prefix_of` heap mc' /\ heap mc' !! so = Some sot /\ tensor sot = F (tensor st)).

(** X16. On the CPU path an input whose time axis is empty still has the
    wrapped layer called once: the first slice is taken before the loop,
    so a wrapped layer that computes [F] (as in the section of the CPU
    path) is called on a slice read past the end of the empty buffer, all
    NaN; the call returns an output with an empty time axis and an empty
    buffer. *)
Theorem cpu_path_on_empty_time_axis (td : TimeDistributed.t (W:=W)) (m : machine) (x : ref)
    (xt : Tensor) (rest : list nat) :
  gpu (TimeDistributed.base td) = false ->
  good (TimeDistributed.wrappedLayer td) ->
  heap m !! x = Some xt ->
  tensor xt = NDArray [] (0 :: rest) ->
  let blank := NDArray (replicate (product rest) nan) rest in
  exists s' o ot evs,
    TimeDistributed.call x (td, m) = (s', Returned (Some o)) /\
    heap s'.2 !! o = Some ot /\
    tensor ot = NDArray [] (0 :: shape (F blank)) /\
    trace s'.2 = trace m ++ evs /\
    call_arguments evs = [Some blank].
Proof.
  intros Hcpu Hgood Hx Hxt blank.
  assert (slice_at (tensor xt) 0 = blank) as Hblank.
  { unfold slice_at, blank. rewrite Hxt. simpl. by rewrite read_range_nil. }
  set (step := length (heap m)).
  set (step0 := mkTensor (NDArray (zeros (product rest)) rest) Float32Array
                         None None false false None None).
  set (m1 := Machine (heap m ++ [step0]) (gpu_mem m) (trace m ++ [EvNewTensor step])).
  apply lookup_lt_Some in Hx as Hxlt.
  assert (heap m1 !! x = Some xt) as Hx1 by by apply lookup_app_l_Some.
  assert (heap m1 !! step = Some step0) as Hstep1 by apply lookup_snoc.
  assert (x <> step) as Hxs by (unfold step; lia).
  destruct (fill_and_call F good call_contract
              (fun stepOutput =>
                 stepOutput <- defined "stepOutput" stepOutput ;;
                 sot <- on_machine (read stepOutput) ;;
                 let stepOutputShape := shape (tensor sot) in
                 xt <- on_machine (read x) ;;
                 osh <- TimeDistributed.stacked (head (shape (tensor xt)))
                          (Some stepOutputShape) ;;
                 out <- on_machine (new_Tensor [] osh Float32Array) ;;
                 TimeDistributed.set_output (Some out) ;;;
                 on_machine (TimeDistributed.ops_assign out (fun a => pick0 a 0)
                               stepOutput whole) ;;;
                 xt <- on_machine (read x) ;;
                 let timesteps := default 0 (head (shape (tensor xt))) in
                 for_each (seq 1 (timesteps - 1)) (fun i =>
                   on_machine (TimeDistributed.ops_assign step whole x (fun a => pick0 a i)) ;;;
                   stepOutput <- TimeDistributed.invoke_wrapped MethodCall step
                                   (wrapped_call step) ;;
                   stepOutput <- defined "stepOutput" stepOutput ;;
                   td <- this ;;
                   out <- defined "output" (output (TimeDistributed.base td)) ;;
                   on_machine (TimeDistributed.ops_assign out (fun a => pick0 a i)
                                 stepOutput whole)))
              td m1 x step 0 xt step0 Hgood Hx1 Hstep1 Hxs)
    as (w' & mc' & so & sot & Hrun & Hgood' & Hpre & Hsot & HF & sub & Htr');
    [by rewrite Hxt|by rewrite Hxt; simpl; unfold zeros; rewrite length_replicate|done|
     by rewrite Hxt|].
  rewrite Hblank in HF, Htr'.
  assert (heap mc' !! x = Some xt) as Hx'.
  { eapply prefix_lookup_Some; [|done]. by rewrite list_lookup_insert_ne. }
  set (o := length (heap mc')).
  set (sosh := shape (tensor sot)).
  set (out0 := mkTensor (NDArray (zeros (product (0 :: sosh))) (0 :: sosh)) Float32Array
                        None None false false None None).
  set (mc2 := Machine (heap mc' ++ [out0]) (gpu_mem mc') (trace mc' ++ [EvNewTensor o])).
  apply lookup_lt_Some in Hx' as Hxlt'. apply lookup_lt_Some in Hsot as Hsolt.
  assert (TimeDistributed.ops_assign o (fun a => pick0 a 0) so whole mc2
          = (Machine (heap mc' ++ [out0]) (gpu_mem mc') (trace mc' ++ [EvNewTensor o]),
             Returned tt)) as Hstore.
  { rewrite (ops_assign_run o so _ _ out0 sot (NDArray [] (0 :: sosh)));
      [|apply lookup_snoc|by apply lookup_app_l_Some|].
    - unfold mc2, o. simpl. by rewrite insert_snoc.
    - unfold assign, pick0, whole. simpl. rewrite decide_True by done.
      unfold zeros. simpl. by rewrite blit_nil. }
  exists (TimeDistributed.with_base
            (with_output (Some o) (TimeDistributed.base (TimeDistributed.with_wrappedLayer w' td)))
            (TimeDistributed.with_wrappedLayer w' td), mc2),
    o, out0, (EvNewTensor step :: EvWrapped MethodCall step (Some blank) sub :: [EvNewTensor o]).
  split; [|split; [apply lookup_snoc|split; [unfold out0, sosh; simpl; by rewrite HF|split]]].
  - unfold TimeDistributed.call. erewrite bind_run by reflexivity. simpl. rewrite Hcpu.
    cut (TimeDistributed._callCPU x (td, m)
         = ((TimeDistributed.with_base
               (with_output (Some o)
                  (TimeDistributed.base (TimeDistributed.with_wrappedLayer w' td)))
               (TimeDistributed.with_wrappedLayer w' td), mc2), Returned tt)).
    { intros Hcall. erewrite bind_run by exact Hcall. reflexivity. }
    unfold TimeDistributed._callCPU.
    erewrite bind_run by (apply on_machine_run; by apply read_run).
    erewrite (bind_run (on_machine (new_Tensor _ _ _)) _ _ (td, m1) step);
      [|by rewrite Hxt].
    cbv beta zeta in Hrun |- *. rewrite Hrun.
    unfold bind at 1. unfold defined, ret.
    erewrite bind_run by (apply on_machine_run; by apply read_run).
    erewrite bind_run by (apply on_machine_run; by apply read_run).
    rewrite Hxt. simpl.
    erewrite (bind_run (ret _) _ _ _ _) by reflexivity.
    erewrite (bind_run (on_machine (new_Tensor _ _ _)) _ _ (_, mc2) o) by reflexivity.
    erewrite (bind_run (TimeDistributed.set_output _)) by reflexivity.
    erewrite bind_run by (apply on_machine_run; exact Hstore).
    erewrite bind_run.
    2: { apply on_machine_run. apply read_run. simpl. by apply lookup_app_l_Some. }
    rewrite Hxt. reflexivity.
  - simpl. rewrite Htr'. simpl. by rewrite <- !app_assoc.
  - reflexivity.
Qed.

End EmptyTimeAxis.

(** ** Runs on the integer environment *)

Section Runs.
Import IntEnv.

Lemma linear_call_returns_input_run :
  Activation.activation (layer_of "linear" true []) = "linear" /\
  Activation.call 0 (layer_of "linear" true [], machine_with [-1; 2]%Z [2])
  = ((Activation.with_out (Some 0) (layer_of "linear" true []), machine_with [-1; 2]%Z [2]),
     Returned (Some 0)).
Proof.
  split; [reflexivity|].
  apply (linear_call_returns_input (layer_of "linear" true []) (machine_with [-1; 2]%Z [2]) 0).
  reflexivity.
Defined.

Lemma default_activation_is_passthrough_run :
  attr_activation (Attrs false 0 None None) = None /\
  exists a, Activation.constructor (Attrs false 0 None None) empty_machine
            = (empty_machine, Returned a).
Proof.
  split; [reflexivity|].
  apply (default_activation_is_passthrough (Attrs false 0 None None) empty_machine);
    reflexivity.
Defined.

(** C3, the claim as stated fails: "bogus" is not in the catalog, yet the
    construction returns a layer and raises nothing, and the unrecognized
    name is met by a call, which is where the failure happens. *)
Lemma unknown_activation_is_constructed :
  activations "bogus" = None /\
  Activation.constructor (Attrs false 0 (Some "bogus") None) empty_machine
  = (empty_machine, Returned (layer_of "bogus" false [])) /\
  (Activation.call 0 (layer_of "bogus" false [], machine_with [1]%Z [1])).2
  = Thrown (TypeError "activationFunc").
Proof. repeat split. Qed.

Lemma unknown_activation_fails_at_call_run :
  attr_activation (Attrs false 0 (Some "bogus") None) = Some "bogus" /\
  activations "bogus" = None /\
  forall m' msg,
    Activation.constructor (Attrs false 0 (Some "bogus") None) empty_machine
    <> (m', Thrown (ConfigurationError msg)).
Proof.
  split; [reflexivity|]. split; [reflexivity|].
  apply (unknown_activation_fails_at_call (Attrs false 0 (Some "bogus") None)
           empty_machine "bogus"); reflexivity.
Defined.

Lemma cpu_call_works_on_a_copy_run :
  (Activation.call 0 (layer_of "relu" false [], machine_with [-1; 2; -3; 4; 0; 5]%Z [2; 3])).2
  = Returned (Some 1) /\
  (tensor <$> heap (Activation.call 0 (layer_of "relu" false [],
                      machine_with [-1; 2; -3; 4; 0; 5]%Z [2; 3])).1.2 !! 1)
  = Some (NDArray [0; 2; 0; 4; 0; 5]%Z [2; 3]).
Proof.
  destruct (cpu_call_works_on_a_copy (H:=env) (layer_of "relu" false [])
              (machine_with [-1; 2; -3; 4; 0; 5]%Z [2; 3]) 0
              (mkTensor (H:=env) (NDArray [-1; 2; -3; 4; 0; 5]%Z [2; 3]) Float32Array
                        None None false false None None) relu) as [-> _];
    [reflexivity|discriminate|reflexivity|reflexivity|reflexivity|].
  split; reflexivity.
Defined.

Lemma missing_wrapped_layer_is_refused_run :
  TimeDistributed.constructor (W:=Activation.t) (Attrs true 0 None None) empty_machine
  = (empty_machine, Thrown (ConfigurationError "wrapped layer is undefined.")).
Proof.
  apply (missing_wrapped_layer_is_refused (W:=Activation.t) (Attrs true 0 None None)
           empty_machine).
  reflexivity.
Defined.

Lemma relu_shape (a b : ndarray Z) :
  shape a = shape b -> shape (on_copy relu a) = shape (on_copy relu b).
Proof. done. Qed.

Lemma relu_wf (a : ndarray Z) :
  length (data a) = product (shape a) ->
  length (data (on_copy relu a)) = product (shape (on_copy relu a)).
Proof.
  intros Hwf. unfold on_copy, relu. simpl. rewrite length_fmap.
  destruct (data a); [|done]. unfold zeros. by rewrite length_replicate.
Qed.

(** The scenario of the specification: three timesteps of shape [1, 2]. *)
Lemma cpu_path_maps_wrapped_layer_over_slices_run :
  exists s' o ot evs,
    TimeDistributed.call 0 (wrapper_of "relu" false [],
                            machine_with [-1; 1; 2; -2; 0; 3]%Z [3; 1; 2])
    = (s', Returned (Some o)) /\
    heap s'.2 !! o = Some ot /\
    shape (tensor ot) = [3; 1; 2] /\
    (forall i, i < 3 ->
       slice_at (tensor ot) i
       = on_copy relu (slice_at (NDArray [-1; 1; 2; -2; 0; 3]%Z [3; 1; 2]) i)) /\
    length (call_arguments evs) = 3.
Proof.
  destruct (cpu_path_maps_wrapped_layer_over_slices (H:=env) (W:=Activation.t)
              (on_copy relu)
              (fun w : Activation.t (H:=env) =>
                 gpu (Activation.base w) = false /\
                 Activation.activation w = "relu" /\
                 Activation.activationFunc w = Some relu)
              (fun w mc step st => activation_call_contract (H:=env) "relu" relu w mc step st
                                     ltac:(discriminate))
              relu_shape relu_wf
              (wrapper_of "relu" false []) (machine_with [-1; 1; 2; -2; 0; 3]%Z [3; 1; 2]) 0
              (mkTensor (H:=env) (NDArray [-1; 1; 2; -2; 0; 3]%Z [3; 1; 2]) Float32Array
                        None None false false None None) 3 [1; 2])
    as (s' & o & ot & evs & Hcall & Hlook & Hsh & Hsl & Htr & Hargs & Hlen);
    [reflexivity|by repeat split|reflexivity|reflexivity|lia|].
  exists s', o, ot, evs. by repeat split.
Defined.

(** C2, the claim as stated fails: a layer constructed for the device
    with the activation 'linear' and without consumers returns its input
    from [call] and does nothing else.  Here the input is resident on the
    device and square-reshaped (logical shape [3]): nothing is
    transferred, the buffer keeps what it held and the returned tensor
    has the shape [2, 2]. *)
Lemma linear_device_call_transfers_nothing :
  let a := layer_of "linear" true [] in
  let xt := mkTensor (H:=env) (NDArray [1; 2; 3; 0]%Z [2; 2]) Float32Array
                     (Some 0) (Some [2; 2]) false true (Some [3]) None in
  let m := Machine [xt] [Texture [2; 2] "float" [4; 5; 6; 0]%Z] [] in
  gpu (Activation.base a) = true /\
  outbound (Activation.base a) = [] /\
  Activation.call 0 (a, m) = ((Activation.with_out (Some 0) a, m), Returned (Some 0)) /\
  logical_shape xt = Some [3] /\
  (flat_and_logical xt -> False).
Proof.
  repeat split. intros [Hshape _]. discriminate Hshape.
Qed.

Lemma device_path_materializes_iff_terminal_run :
  let a := layer_of "relu" true [] in
  let m := machine_with [-1; 2; -3; 4; 0; 5]%Z [2; 3] in
  let td := wrapper_of "relu" true [Some 7] in
  let m' := machine_with [-1; 1; 2; -2; 0; 3; 4; -5; 6; -7; 8; 9]%Z [2; 1; 2; 3] in
  let r := Activation.call 0 (a, m) in
  let r' := TimeDistributed.call 0 (td, m') in
  (r.2 = Returned (output (Activation.base r.1.1)) /\
   terminal_policy EvReshapeFrom2D flat_unless_reshaped
     (Activation.base a) (Activation.base r.1.1) m r.1.2) /\
  (r'.2 = Returned (output (TimeDistributed.base r'.1.1)) /\
   terminal_policy EvReshapeFrom2DSquare flat_and_logical
     (TimeDistributed.base td) (TimeDistributed.base r'.1.1) m' r'.1.2).
Proof.
  intros a m td m' r r'. subst r r'.
  destruct (device_path_materializes_iff_terminal (H:=env) (W:=Activation.t)) as [Ha Htd].
  split.
  - assert ((Activation.call 0 (a, m)).2 = Returned (Some 1)) as Hrun
      by (vm_compute; reflexivity).
    destruct (Ha a m 0 _ _ eq_refl ltac:(discriminate) (run_returned _ _ Hrun)) as [Hr Hp].
    split; [|exact Hp]. exact (eq_trans Hrun (f_equal Returned Hr)).
  - assert ((TimeDistributed.call 0 (td, m')).2 = Returned (Some 9)) as Hrun
      by (vm_compute; reflexivity).
    destruct (Htd td m' 0 _ _ eq_refl (run_returned _ _ Hrun)) as [Hr Hp].
    split; [|exact Hp]. exact (eq_trans Hrun (f_equal Returned Hr)).
Defined.

(** C5, the claim as stated fails: a layer constructed for the device
    with the activation 'linear', called on two tensors of the same shape
    and different contents, has the first tensor as its output after the
    first call and the second after the second. *)
Lemma linear_device_calls_rebind_output :
  let a := layer_of "linear" true [] in
  let first := mkTensor (H:=env) (NDArray [-1; 2]%Z [1; 2]) Float32Array
                        None None false false None None in
  let second := mkTensor (H:=env) (NDArray [3; -4]%Z [1; 2]) Float32Array
                         None None false false None None in
  let s1 := (Activation.call 0 (a, Machine [first; second] [] [])).1 in
  let s2 := (Activation.call 1 s1).1 in
  gpu (Activation.base a) = true /\
  output (Activation.base s1.1) = Some 0 /\
  output (Activation.base s2.1) = Some 1 /\
  (same_output_resources (Activation.base s1.1) s1.2 (Activation.base s2.1) s2.2 -> False).
Proof.
  repeat split. intros (o & id & t1 & t2 & Ho1 & Ho2 & _).
  vm_compute in Ho1, Ho2. congruence.
Qed.

(** Two calls on two tensors of the same shape and different contents:
    the output is the same object with the same texture, and its contents
    are those of the last call. *)
Lemma second_call_reuses_output_run :
  let a := layer_of "relu" true [] in
  let td := wrapper_of "relu" true [] in
  let first := mkTensor (H:=env) (NDArray [-1; 2; -3; 4]%Z [2; 2]) Float32Array
                        None None false false None None in
  let second := mkTensor (H:=env) (NDArray [5; -6; 7; -8]%Z [2; 2]) Float32Array
                         None None false false None None in
  let m := Machine [first; second] [] [] in
  let r1 := Activation.call 0 (a, m) in
  let r2 := Activation.call 1 r1.1 in
  let r1' := TimeDistributed.call 0 (td, m) in
  let r2' := TimeDistributed.call 1 r1'.1 in
  (r1.2 = Returned (Some 2) /\ r2.2 = Returned (Some 2) /\
   same_output_resources (Activation.base r1.1.1) r1.1.2 (Activation.base r2.1.1) r2.1.2 /\
   fmap (M:=option) tensor (heap r1.1.2 !! 2) = Some (NDArray [0; 2; 0; 4]%Z [2; 2]) /\
   fmap (M:=option) tensor (heap r2.1.2 !! 2) = Some (NDArray [5; 0; 7; 0]%Z [2; 2])) /\
  (r1'.2 = Returned (Some 4) /\ r2'.2 = Returned (Some 4) /\
   same_output_resources (TimeDistributed.base r1'.1.1) r1'.1.2
                         (TimeDistributed.base r2'.1.1) r2'.1.2 /\
   fmap (M:=option) tensor (heap r1'.1.2 !! 4) = Some (NDArray [0; 2; 0; 4]%Z [2; 2]) /\
   fmap (M:=option) tensor (heap r2'.1.2 !! 4) = Some (NDArray [5; 0; 7; 0]%Z [2; 2])).
Proof.
  intros a td first second m r1 r2 r1' r2'. subst r1 r2 r1' r2'.
  destruct (second_call_reuses_output (H:=env)) as [Ha Htd].
  split.
  - assert ((Activation.call 0 (a, m)).2 = Returned (Some 2)) as Hrun1
      by (vm_compute; reflexivity).
    assert ((Activation.call 1 (Activation.call 0 (a, m)).1).2 = Returned (Some 2)) as Hrun2
      by (vm_compute; reflexivity).
    destruct (Ha a m 0 1 _ _ _ _ eq_refl ltac:(discriminate)
                 (run_returned _ _ Hrun1) (run_returned _ _ Hrun2)) as (_ & _ & Hsame).
    split; [exact Hrun1|]. split; [exact Hrun2|]. split; [exact Hsame|].
    split; vm_compute; reflexivity.
  - assert ((TimeDistributed.call 0 (td, m)).2 = Returned (Some 4)) as Hrun1
      by (vm_compute; reflexivity).
    assert ((TimeDistributed.call 1 (TimeDistributed.call 0 (td, m)).1).2
            = Returned (Some 4)) as Hrun2
      by (vm_compute; reflexivity).
    destruct (Htd td m 0 1 _ _ _ _ eq_refl
                  (run_returned _ _ Hrun1) (run_returned _ _ Hrun2)) as (_ & _ & Hsame).
    split; [exact Hrun1|]. split; [exact Hrun2|]. split; [exact Hsame|].
    split; vm_compute; reflexivity.
Defined.

Lemma wrapped_layer_never_leaves_the_device_run :
  let cfg := Attrs true 0 None (Some ("Activation", Attrs false 0 (Some "relu") None)) in
  let m0 := machine_with [-1; 1; 2; -2; 0; 3]%Z [3; 2] in
  let r := TimeDistributed.constructor (W:=Activation.t) cfg m0 in
  let td := wrapper_of "relu" true [] in
  r.2 = Returned td /\
  outbound (Activation.base (TimeDistributed.wrappedLayer
                               (TimeDistributed.calls [0; 0] (td, r.1)).1)) = [None].
Proof.
  intros cfg m0 r td.
  assert (Hr : r.2 = Returned td) by (vm_compute; reflexivity).
  split; [exact Hr|].
  apply (wrapped_layer_never_leaves_the_device (H:=env) cfg m0 r.1 td [0; 0]
           (run_returned r td Hr)).
Defined.

Lemma index_maps_are_built_once_run :
  let s := (TimeDistributed.call 0
              (wrapper_of "relu" true [],
               machine_with [-1; 1; 2; -2; 0; 3; 4; -5; 6; -7; 8; 9]%Z [2; 1; 2; 3])).1 in
  TimeDistributed.rowIndexMaps (TimeDistributed.calls [0; 0] s).1 = Some [3; 5] /\
  TimeDistributed.colIndexMaps (TimeDistributed.calls [0; 0] s).1 = Some [4; 6].
Proof.
  intros s.
  destruct (index_maps_are_built_once (H:=env) (W:=Activation.t) s [0; 0]) as [Hin _].
  destruct (Hin [3; 5] [4; 6]) as (_ & Hr & Hc); [vm_compute; reflexivity..|].
  by split.
Defined.

Lemma failed_cpu_call_leaves_raw_copy_run :
  let a := layer_of "bogus" false [] in
  let m := machine_with [1; -2]%Z [2] in
  (Activation.call 0 (a, m)).2 = Thrown (TypeError "activationFunc") /\
  output (Activation.base (Activation.call 0 (a, m)).1.1) = Some 1 /\
  (tensor <$> heap (Activation.call 0 (a, m)).1.2) = [NDArray [1; -2]%Z [2]; NDArray [1; -2]%Z [2]].
Proof.
  intros a m.
  destruct (failed_cpu_call_leaves_raw_copy (H:=env) a m 0) as [_ Hfails];
    [reflexivity|discriminate|].
  rewrite (Hfails (mkTensor (H:=env) (NDArray [1; -2]%Z [2]) Float32Array
                            None None false false None None) eq_refl eq_refl).
  repeat split.
Defined.

(** The scenario of the specification on the device: relu on a tensor of
    shape [2, 3]. *)
Lemma first_device_call_on_native_matrix_run :
  let a := layer_of "relu" true [] in
  let m := machine_with [-1; 2; -3; 4; 0; 5]%Z [2; 3] in
  exists s',
    Activation._callGPU 0 (a, m) = (s', Returned tt) /\
    (tensor <$> heap s'.2 !! 1) = Some (NDArray [0; 2; 0; 4; 0; 5]%Z [2; 3]) /\
    (tensor <$> heap s'.2 !! 0) = Some (NDArray [-1; 2; -3; 4; 0; 5]%Z [2; 3]).
Proof.
  intros a m.
  destruct (first_device_call_on_native_matrix (H:=env) a m 0
              (mkTensor (H:=env) (NDArray [-1; 2; -3; 4; 0; 5]%Z [2; 3]) Float32Array
                        None None false false None None)
              (ActivationProgram "relu") 2 3)
    as (s' & xt' & ot' & Hrun & _ & Hx & Hxt & _ & Ho & Hot & _); try reflexivity.
  exists s'. split; [exact Hrun|]. split.
  - etrans; [exact (f_equal (fmap tensor) Ho)|]. simpl. by rewrite Hot.
  - etrans; [exact (f_equal (fmap tensor) Hx)|]. simpl. by rewrite Hxt.
Defined.

Lemma warm_device_call_only_runs_the_program_run :
  let a := Activation.with_out (Some 1) (layer_of "relu" true [Some 7]) in
  let xt := mkTensor (H:=env) (NDArray [-1; 2]%Z [1; 2]) Float32Array
                     (Some 0) (Some [1; 2]) false false None None in
  let ot := mkTensor (H:=env) (NDArray [0; 0]%Z [1; 2]) Float32Array
                     (Some 1) (Some [1; 2]) false false None None in
  let m := Machine [xt; ot] [Texture [1; 2] "float" [-1; 2]%Z; Texture [1; 2] "float" [0; 0]%Z]
                   [] in
  Activation._callGPU 0 (a, m)
  = ((a, Machine [xt; ot]
                 [Texture [1; 2] "float" [-1; 2]%Z; Texture [1; 2] "float" [0; 2]%Z]
                 [EvRunProgram (ActivationProgram "relu") 1]),
     Returned tt).
Proof.
  intros a xt ot m.
  exact (warm_device_call_only_runs_the_program (H:=env) a m 0 1 xt ot
           (ActivationProgram "relu") 0 1 (Texture [1; 2] "float" [0; 0]%Z)
           eq_refl eq_refl ltac:(discriminate) eq_refl eq_refl eq_refl eq_refl eq_refl).
Defined.

(** An input of shape [3, 1, 1] that was reshaped to a 2 x 2 square. *)
Lemma first_output_takes_the_layout_of_the_input_run :
  let a := layer_of "relu" true [Some 7] in
  let ix := (NDArray [0; 0; 1; -1]%Z [2; 2], NDArray [0; 1; 0; -1]%Z [2; 2]) in
  let xt := mkTensor (H:=env) (NDArray [-1; 2; -3; 0]%Z [2; 2]) Float32Array
                     (Some 0) (Some [2; 2]) false true (Some [3; 1; 1]) (Some ix) in
  let m := Machine [xt] [Texture [2; 2] "float" [-1; 2; -3; 0]%Z] [] in
  exists s' ot,
    Activation._callGPU 0 (a, m) = (s', Returned tt) /\
    heap s'.2 = [xt; ot] /\
    glTextureShape ot = Some [2; 2] /\
    is1D ot = false /\ is2DReshaped ot = true /\
    originalShape ot = Some [3; 1; 1] /\ indicesForReshaped ot = Some ix.
Proof.
  intros a ix xt m.
  destruct (first_output_takes_the_layout_of_the_input (H:=env) a m 0 xt
              (ActivationProgram "relu") 0 2 2)
    as (s' & ot & Hrun & _ & Hheap & _ & Hsh & _ & (H1D & Hre & Hos & Hix) & _);
    [reflexivity|reflexivity|discriminate|reflexivity|reflexivity|reflexivity|].
  exists s', ot. repeat split; done.
Defined.

(** A wrapper on the device around an Activation layer whose shader
    file does not exist: the failure is that of the constructor of the
    wrapped layer. *)
Lemma wrapper_construction_fails_only_for_run :
  let cfg := Attrs true 0 None (Some ("Activation", Attrs false 0 (Some "bogus") None)) in
  let e := ModuleNotFound "../../activations/bogus.glsl" in
  TimeDistributed.constructor (W:=Activation.t) cfg empty_machine
  = (empty_machine, Thrown e) /\
  Activation.constructor (Attrs true 0 (Some "bogus") None) empty_machine
  = (empty_machine, Thrown e).
Proof.
  intros cfg e.
  assert (TimeDistributed.constructor (W:=Activation.t) cfg empty_machine
          = (empty_machine, Thrown e)) as Hrun by reflexivity.
  split; [exact Hrun|].
  destruct (wrapper_construction_fails_only_for (H:=env) (W:=Activation.t) cfg empty_machine
              empty_machine e Hrun)
    as [(Hnone & _)|(cn & config & Hl &
         [(Hnone & _)|(ctor & Hc &
           [Hw|(m1 & w & before & p & after & _ & _ & _ & _ & Hp & _)])])].
  - discriminate Hnone.
  - injection Hl as <- <-. discriminate Hnone.
  - injection Hl as <- <-. injection Hc as <-. exact Hw.
  - discriminate Hp.
Defined.

Lemma wrapper_constructor_compiles_its_programs_run :
  let config := Attrs false 0 (Some "relu") None in
  let cfg := Attrs true 0 None (Some ("Activation", config)) in
  let r := TimeDistributed.constructor (W:=Activation.t) cfg empty_machine in
  r.2 = Returned (wrapper_of "relu" true []) /\
  trace r.1 = EvCompileProgram <$> [ActivationProgram "relu"; CopyTextureProgram;
                                    MapInputProgram; SelectSliceProgram;
                                    CopySliceOutputProgram; MapSliceOutputProgram] /\
  heap r.1 = [].
Proof.
  intros config cfg r.
  assert (Hr : r.2 = Returned (wrapper_of "relu" true [])) by (vm_compute; reflexivity).
  split; [exact Hr|].
  destruct (wrapper_constructor_compiles_its_programs (H:=env) cfg config empty_machine r.1
              (wrapper_of "relu" true []) eq_refl (run_returned r _ Hr))
    as (Hheap & _ & Htrace & _).
  split; [exact Htrace|exact Hheap].
Defined.

Lemma wrapped_layer_runs_on_the_backend_of_its_wrapper_run :
  let cfg := Attrs true 0 None (Some ("Activation", Attrs false 0 (Some "relu") None)) in
  let m0 := machine_with [-1; 1; 2; -2; 0; 3]%Z [3; 2] in
  let r := TimeDistributed.constructor (W:=Activation.t) cfg m0 in
  let td := wrapper_of "relu" true [] in
  r.2 = Returned td /\
  gpu (TimeDistributed.base (TimeDistributed.calls [0; 0] (td, r.1)).1) = true /\
  gpu (Activation.base (TimeDistributed.wrappedLayer
                          (TimeDistributed.calls [0; 0] (td, r.1)).1)) = true.
Proof.
  intros cfg m0 r td.
  assert (Hr : r.2 = Returned td) by (vm_compute; reflexivity).
  split; [exact Hr|].
  exact (wrapped_layer_runs_on_the_backend_of_its_wrapper (H:=env) cfg m0 r.1 td [0; 0]
           (run_returned r td Hr)).
Defined.

Lemma device_path_invokes_wrapped_layer_per_timestep_run :
  let td := wrapper_of "relu" true [Some 7] in
  let d := [-1; 1; 2; -2; 0; 3; 4; -5; 6; -7; 8; 9]%Z in
  let m := machine_with d [2; 1; 2; 3] in
  let s' := (TimeDistributed._callGPU 0 (td, m)).1 in
  exists sh sl evs,
    Some [2; 1; 2; 3] = Some sh /\
    TimeDistributed.inputShape s'.1 = Some sh /\
    TimeDistributed.slice s'.1 = Some sl /\
    trace s'.2 = trace m ++ evs /\
    wrapped_calls evs = replicate (Nat.max 1 (default 0 (head sh))) (MethodCallGPU, sl).
Proof.
  intros td d m s'. subst s'.
  apply (device_path_invokes_wrapped_layer_per_timestep (H:=env) (W:=Activation.t) td m 0
           (mkTensor (H:=env) (NDArray d [2; 1; 2; 3]) Float32Array
                     None None false false None None)); [reflexivity|].
  apply run_returned. vm_compute. reflexivity.
Defined.

Lemma device_tensors_are_created_once_run :
  let s := (TimeDistributed.call 0
              (wrapper_of "relu" true [],
               machine_with [-1; 1; 2; -2; 0; 3; 4; -5; 6; -7; 8; 9]%Z [2; 1; 2; 3])).1 in
  let s' := TimeDistributed.calls [0; 0] s in
  TimeDistributed.slice s'.1 = Some 7 /\
  output (TimeDistributed.base s'.1) = Some 9 /\
  TimeDistributed.outputCopy s'.1 = Some 10.
Proof.
  intros s s'.
  apply (device_tensors_are_created_once (H:=env) (W:=Activation.t) s 7 9 10 [0; 0]);
    vm_compute; reflexivity.
Defined.

Lemma index_maps_cover_every_timestep_run :
  let td := TimeDistributed.with_inputShape (Some [2; 1; 2]) (wrapper_of "relu" true []) in
  let ix := Some (NDArray [0; 0; 1; 1]%Z [2; 1; 2], NDArray [0; 1; 0; 1]%Z [2; 1; 2]) in
  let s' := (TimeDistributed._createIndexMap ix (td, empty_machine)).1 in
  exists sh rows cols,
    TimeDistributed.inputShape td = Some sh /\
    TimeDistributed.rowIndexMaps s'.1 = Some rows /\
    TimeDistributed.colIndexMaps s'.1 = Some cols /\
    length rows = default 0 (head sh) /\ length cols = default 0 (head sh) /\
    Forall (fun r => length (heap empty_machine) <= r /\ device_resident r s'.2) (rows ++ cols).
Proof.
  intros td ix s'. subst s'.
  apply (index_maps_cover_every_timestep (H:=env) (W:=Activation.t) td empty_machine ix);
    [reflexivity|].
  apply run_returned. vm_compute. reflexivity.
Defined.

Lemma output_index_maps_cover_every_timestep_run :
  let td := TimeDistributed.with_outputShape (Some [2; 1; 2]) (wrapper_of "relu" true []) in
  let ix := Some (NDArray [0; 0]%Z [1; 2], NDArray [0; 1]%Z [1; 2]) in
  let s' := (TimeDistributed._createOutputIndexMap ix (td, empty_machine)).1 in
  exists sh rows cols,
    TimeDistributed.outputShape td = Some sh /\
    TimeDistributed.outputRowIndexMaps s'.1 = Some rows /\
    TimeDistributed.outputColIndexMaps s'.1 = Some cols /\
    length rows = default 0 (head sh) /\ length cols = default 0 (head sh) /\
    Forall (fun r => length (heap empty_machine) <= r /\ device_resident r s'.2) (rows ++ cols).
Proof.
  intros td ix s'. subst s'.
  apply (output_index_maps_cover_every_timestep (H:=env) (W:=Activation.t) td empty_machine
           ix); [reflexivity|].
  apply run_returned. vm_compute. reflexivity.
Defined.

(** The scenario of the specification on the device: three timesteps of
    shape [1, 2] around relu. *)
Lemma rank_three_input_fails_on_the_device_run :
  let td := wrapper_of "relu" true [] in
  let m := machine_with [-1; 1; 2; -2; 0; 3]%Z [3; 1; 2] in
  (TimeDistributed._callGPU 0 (td, m)).2 = Thrown (TypeError "originalShape") /\
  exists e, (TimeDistributed._callGPU 0 (td, m)).2 = Thrown e.
Proof.
  intros td m. split; [vm_compute; reflexivity|].
  apply (rank_three_input_fails_on_the_device (H:=env) td m 0
           (mkTensor (H:=env) (NDArray [-1; 1; 2; -2; 0; 3]%Z [3; 1; 2]) Float32Array
                     None None false false None None)); try reflexivity.
  by repeat split.
Defined.

Lemma cpu_path_on_empty_time_axis_run :
  exists s' o ot evs,
    TimeDistributed.call 0 (wrapper_of "relu" false [], machine_with [] [0; 1; 2])
    = (s', Returned (Some o)) /\
    heap s'.2 !! o = Some ot /\
    tensor ot = NDArray [] (0 :: shape (on_copy relu (NDArray (replicate 2 0%Z) [1; 2]))) /\
    trace s'.2 = [] ++ evs /\
    call_arguments evs = [Some (NDArray (replicate 2 0%Z) [1; 2])].
Proof.
  apply (cpu_path_on_empty_time_axis (H:=env) (W:=Activation.t)
           (on_copy relu)
           (fun w : Activation.t (H:=env) =>
              gpu (Activation.base w) = false /\
              Activation.activation w = "relu" /\
              Activation.activationFunc w = Some relu)
           (fun w mc step st => activation_call_contract (H:=env) "relu" relu w mc step st
                                  ltac:(discriminate))
           (wrapper_of "relu" false []) (machine_with [] [0; 1; 2]) 0
           (mkTensor (H:=env) (NDArray [] [0; 1; 2]) Float32Array
                     None None false false None None) [1; 2]);
    [reflexivity|by repeat split|reflexivity|reflexivity].
Defined.

(** relu over three timesteps of length 2 on the device. *)
Lemma device_path_on_matrix_run :
  let td := wrapper_of "relu" true [] in
  let m := machine_with [-1; 2; -3; 4; 0; 5]%Z [3; 2] in
  exists s' ot,
    TimeDistributed.call 0 (td, m) = (s', Returned (Some 3)) /\
    length (heap s'.2) = 5 /\
    heap s'.2 !! 3 = Some ot /\
    tensor ot = NDArray [0; 2; 0; 4; 0; 5]%Z [3; 2].
Proof.
  intros td m.
  destruct (device_path_on_matrix (H:=env) td m 0
              (mkTensor (H:=env) (NDArray [-1; 2; -3; 4; 0; 5]%Z [3; 2]) Float32Array
                        None None false false None None)
              3 2 SelectSliceProgram CopyTextureProgram CopySliceOutputProgram
              (ActivationProgram "relu"))
    as (s' & xt' & ot & Hrun & Hlen & _ & _ & Hot & _);
    [reflexivity|repeat split|reflexivity|reflexivity|reflexivity|reflexivity|discriminate
    |reflexivity|reflexivity|reflexivity|].
  exists s', ot. split; [exact Hrun|]. split; [exact Hlen|]. split; [exact Hot|].
  assert (fmap (M:=option) tensor (heap (TimeDistributed.call 0 (td, m)).1.2 !! 3)
          = Some (NDArray [0; 2; 0; 4; 0; 5]%Z [3; 2])) as Hv by (vm_compute; reflexivity).
  rewrite Hrun in Hv. cbn [fst snd] in Hv.
  change (length (heap m) + 2) with 3 in Hot. rewrite Hot in Hv. by injection Hv.
Defined.

(** The state after a first call on three timesteps, then a call on one
    timestep: the output still has three rows, of which the first is
    written. *)
Lemma warm_wrapper_call_allocates_nothing_run :
  let tensor_of := fun d sh tex tsh one_d =>
    mkTensor (H:=env) (NDArray d sh) Float32Array tex tsh one_d false None None in
  let first := tensor_of [-1; 2; -3; 4; 0; 5]%Z [3; 2] (Some 0) (Some [3; 2]) false in
  let second := tensor_of [7; -8]%Z [1; 2] None None false in
  let hp := [first; second;
             tensor_of [0; 0]%Z [2] (Some 1) (Some [1; 2]) true;
             tensor_of [0; 0]%Z [1; 2] (Some 2) (Some [1; 2]) true;
             tensor_of [0; 2; 0; 4; 0; 5]%Z [3; 2] (Some 3) (Some [3; 2]) false;
             tensor_of [0; 0; 0; 0; 0; 0]%Z [3; 2] (Some 4) (Some [3; 2]) false] in
  let textures := [Texture [3; 2] "float" [-1; 2; -3; 4; 0; 5]%Z;
                   Texture [1; 2] "float" [0; 5]%Z;
                   Texture [1; 2] "float" [0; 5]%Z;
                   Texture [3; 2] "float" [0; 2; 0; 4; 0; 5]%Z;
                   Texture [3; 2] "float" [0; 2; 0; 4; 0; 0]%Z] in
  let td := TimeDistributed.mk (mkLayer "TimeDistributed" true [] (Some 4))
              (Activation.with_out (Some 3) (layer_of "relu" true [None]))
              (Some CopyTextureProgram) (Some MapInputProgram) (Some SelectSliceProgram)
              (Some CopySliceOutputProgram) (Some MapSliceOutputProgram)
              (Some [3; 2]) (Some [3; 2]) (Some 2) (Some 3) (Some 5)
              None None None None in
  exists s' ot,
    TimeDistributed.call 1 (td, Machine hp textures []) = (s', Returned (Some 4)) /\
    length (heap s'.2) = 6 /\
    heap s'.2 !! 4 = Some ot /\
    tensor ot = NDArray [7; 0; 0; 4; 0; 5]%Z [3; 2].
Proof.
  intros tensor_of first second hp textures td.
  assert (warm (H:=env) 2 3 4 5 [3; 2] (td, Machine hp textures [])) as Hwarm.
  { unfold warm. cbv zeta. cbn [fst snd heap gpu_mem].
    split; [by repeat split|]. split; [repeat split; by eexists|].
    split; [by split|].
    split; [repeat split; eexists _, _; (split; [reflexivity|split; [reflexivity|simpl; lia]])|].
    eexists. by repeat split. }
  destruct (warm_wrapper_call_allocates_nothing (H:=env) 2 3 4 5 [3; 2]
              (td, Machine hp textures []) 1 second 1 2 Hwarm eq_refl eq_refl eq_refl)
    as (s' & Hrun & Hwarm' & Hlen).
  destruct Hwarm' as (_ & _ & _ & _ & ot & Hot & _).
  exists s', ot. split; [exact Hrun|].
  split; [exact Hlen|]. split; [exact Hot|].
  assert (fmap (M:=option) tensor
               (heap (TimeDistributed.call 1 (td, Machine hp textures [])).1.2 !! 4)
          = Some (NDArray [7; 0; 0; 4; 0; 5]%Z [3; 2])) as Hv by (vm_compute; reflexivity).
  rewrite Hrun in Hv.
  assert (Some (tensor ot) = Some (NDArray [7; 0; 0; 4; 0; 5]%Z [3; 2])) as Ht
    by (etrans; [symmetry; exact (f_equal (fmap (M:=option) tensor) Hot)|exact Hv]).
  by injection Ht.
Defined.

End Runs.
